(** * AstroGeo: query routing, location extraction, retrieval and provider tools

    A shallow embedding of the decision logic of the AstroGeo repository
    (src/astrogeo): the query routers and intent classifiers, the location
    extractors, the vector-database search wrappers and the provider tools,
    followed by the properties the specification states about them.

    Modelling conventions.
    - A Python [str] is a Rocq [string] that holds the UTF-8 encoding of
      the text: [len], slices, indexing and iteration go by characters
      (a byte that is not a continuation byte, with the continuation
      bytes after it), not by bytes.  The character operations ([lower],
      [strip], [title], the regular-expression classes, the escapes of
      [repr]) are the ASCII ones.  Python's Unicode-only cases are
      outside the model.
    - A Python [float] is an IEEE 754 binary64 number, [PrimFloat.float].
    - A call that may raise returns [Ok v] or [Raise e]; [try_except]
      is Python's [try: ... except C as e: ...].
    - Code that talks to the outside (HTTP, the vector index) runs in the
      monad [M], which reads the answers from a [World] and records every
      outside call in a trace. *)

From Stdlib Require Import String Ascii List Bool Arith ZArith Lia PrimFloat
  DecimalString.
From Stdlib Require SpecFloat FloatOps.
Import ListNotations.
Open Scope list_scope.
Open Scope string_scope.

Set Implicit Arguments.

(* ================================================================== *)
(** ** Python strings *)
(* ================================================================== *)

Module PyStr.

Definition chars (s : string) : list ascii := list_ascii_of_string s.
Definition text (l : list ascii) : string := string_of_list_ascii l.

Definition code (c : ascii) : nat := nat_of_ascii c.

Definition between (lo hi : nat) (c : ascii) : bool :=
  Nat.leb lo (code c) && Nat.leb (code c) hi.

Definition is_upper (c : ascii) : bool := between 65 90 c.
Definition is_lower (c : ascii) : bool := between 97 122 c.
Definition is_alpha (c : ascii) : bool := is_upper c || is_lower c.
Definition is_digit (c : ascii) : bool := between 48 57 c.

(** [str.isspace] on one ASCII character: TAB, LF, VT, FF, CR, the four
    separators FS, GS, RS, US, and the space. *)
Definition is_space (c : ascii) : bool :=
  between 9 13 c || between 28 32 c.

(** The class [\w] of [re]. *)
Definition is_word (c : ascii) : bool :=
  is_alpha c || is_digit c || Nat.eqb (code c) 95.

Definition lower_char (c : ascii) : ascii :=
  if is_upper c then ascii_of_nat (code c + 32) else c.
Definition upper_char (c : ascii) : ascii :=
  if is_lower c then ascii_of_nat (code c - 32) else c.

Fixpoint lower (s : string) : string :=
  match s with
  | EmptyString => EmptyString
  | String c r => String (lower_char c) (lower r)
  end.

Fixpoint upper (s : string) : string :=
  match s with
  | EmptyString => EmptyString
  | String c r => String (upper_char c) (upper r)
  end.

(** [s.lstrip()], [s.rstrip()], [s.strip()] with no argument, and
    [s.rstrip(ch)], [s.lstrip(ch)] for a one-character argument. *)
Fixpoint ldrop (p : ascii -> bool) (l : list ascii) : list ascii :=
  match l with
  | c :: r => if p c then ldrop p r else l
  | [] => []
  end.

Definition rdrop (p : ascii -> bool) (l : list ascii) : list ascii :=
  rev (ldrop p (rev l)).

Definition lstrip (s : string) : string := text (ldrop is_space (chars s)).
Definition rstrip (s : string) : string := text (rdrop is_space (chars s)).
Definition strip (s : string) : string :=
  text (rdrop is_space (ldrop is_space (chars s))).
Definition rstrip_char (ch : ascii) (s : string) : string :=
  text (rdrop (Ascii.eqb ch) (chars s)).
Definition lstrip_char (ch : ascii) (s : string) : string :=
  text (ldrop (Ascii.eqb ch) (chars s)).

(** [sub in s]. *)
Fixpoint contains_from (sub s : string) : bool :=
  String.prefix sub s ||
  match s with
  | EmptyString => false
  | String _ r => contains_from sub r
  end.
Definition contains (sub s : string) : bool := contains_from sub s.

(** [any(term in s for term in terms)]. *)
Definition any_in (terms : list string) (s : string) : bool :=
  existsb (fun t => contains t s) terms.

(** [x in [..]] and [x not in [..]] on a list of strings. *)
Definition mem (x : string) (l : list string) : bool :=
  existsb (String.eqb x) l.

(** [s.title()]: a cased character is upper-cased when it follows an
    uncased one (or starts the string) and lower-cased otherwise. *)
Fixpoint title_from (prev_cased : bool) (l : list ascii) : list ascii :=
  match l with
  | [] => []
  | c :: r =>
      (if is_alpha c
       then (if prev_cased then lower_char c else upper_char c)
       else c) :: title_from (is_alpha c) r
  end.
Definition title (s : string) : string := text (title_from false (chars s)).

(** [re.sub(r'\s+', ' ', s)]: every maximal run of white space becomes
    one space. *)
Fixpoint collapse_ws (in_run : bool) (l : list ascii) : list ascii :=
  match l with
  | [] => []
  | c :: r =>
      if is_space c
      then (if in_run then collapse_ws true r else " "%char :: collapse_ws true r)
      else c :: collapse_ws false r
  end.
Definition sub_ws_space (s : string) : string := text (collapse_ws false (chars s)).

(** The characters of a text in UTF-8: every byte that is not a
    continuation byte (10xxxxxx) starts one, and the continuation bytes
    after it belong to it. *)
Definition is_continuation (c : ascii) : bool := between 128 191 c.
Definition starts_with_continuation (g : list ascii) : bool :=
  match g with c :: _ => is_continuation c | [] => false end.

Fixpoint code_points (l : list ascii) : list (list ascii) :=
  match l with
  | [] => []
  | c :: r =>
      match code_points r with
      | g :: gs =>
          if starts_with_continuation g
          then (c :: g) :: gs else [c] :: g :: gs
      | [] => [[c]]
      end
  end.

(** [len(s)], [s[:n]] and [s[i]]. *)
Definition str_len (s : string) : nat := List.length (code_points (chars s)).
Definition take (n : nat) (s : string) : string :=
  text (List.concat (firstn n (code_points (chars s)))).
Definition char_at (i : nat) (s : string) : option string :=
  option_map text (nth_error (code_points (chars s)) i).

(** The double quote, as a text. *)
Definition dquote : string := String "034"%char EmptyString.

(** The truth value of a string. *)
Definition truthy (s : string) : bool :=
  match s with EmptyString => false | _ => true end.

End PyStr.

(* ================================================================== *)
(** ** Regular expressions: the fragment of Python's [re] the code uses *)
(* ================================================================== *)

(** A backtracking matcher with Python's priorities: alternatives are
    tried left to right, a greedy repetition tries one more iteration
    before stopping, a lazy one tries to stop first, and [search] takes
    the leftmost start position that matches. *)
Module Re.
Import PyStr.

Inductive regex : Type :=
| Eps                                     (* the empty pattern *)
| Cls (p : ascii -> bool)                 (* one character of a class *)
| Lit (s : string)                        (* a literal string *)
| Seq (a b : regex)                       (* ab *)
| Alt (a b : regex)                       (* a|b *)
| Rep (greedy : bool) (min : nat) (a : regex)  (* a{min,} and a{min,}? *)
| Group (a : regex)                       (* capturing group 1 *)
| Bol                                     (* ^ *)
| Eol                                     (* $ *)
| WordB.                                  (* \b *)

(** Where the matcher stands: the index, the character before it, the
    characters from it on, and the span of group 1 when it is closed. *)
Record mstate : Type := MState {
  pos : nat;
  prev : option ascii;
  rest : list ascii;
  g1 : option (nat * nat)
}.

Definition step (st : mstate) (c : ascii) (t : list ascii) : mstate :=
  MState (S (pos st)) (Some c) t (g1 st).

(** A class under [re.IGNORECASE] also takes the other case of its
    members. *)
Definition cls_ok (ci : bool) (p : ascii -> bool) (c : ascii) : bool :=
  p c || (ci && (p (lower_char c) || p (upper_char c))).

Definition chr_ok (ci : bool) (x c : ascii) : bool :=
  if ci then Ascii.eqb (lower_char x) (lower_char c) else Ascii.eqb x c.

Fixpoint lit (ci : bool) (s : list ascii) (st : mstate) : option mstate :=
  match s with
  | [] => Some st
  | x :: s' =>
      match rest st with
      | c :: t => if chr_ok ci x c then lit ci s' (step st c t) else None
      | [] => None
      end
  end.

Definition word_at (o : option ascii) : bool :=
  match o with Some c => is_word c | None => false end.

Definition at_boundary (st : mstate) : bool :=
  xorb (word_at (prev st)) (word_at (hd_error (rest st))).

(** [$] without [re.MULTILINE]: the end, or just before a final newline. *)
Definition at_eol (st : mstate) : bool :=
  match rest st with
  | [] => true
  | c :: [] => Ascii.eqb c "010"%char
  | _ => false
  end.

Fixpoint run (ci : bool) (r : regex) (st : mstate)
    (k : mstate -> option mstate) {struct r} : option mstate :=
  match r with
  | Eps => k st
  | Cls p =>
      match rest st with
      | c :: t => if cls_ok ci p c then k (step st c t) else None
      | [] => None
      end
  | Lit s =>
      match lit ci (chars s) st with
      | Some st' => k st'
      | None => None
      end
  | Seq a b => run ci a st (fun st' => run ci b st' k)
  | Alt a b =>
      match run ci a st k with
      | Some m => Some m
      | None => run ci b st k
      end
  | Rep greedy mn a =>
      (fix loop (fuel cnt : nat) (st : mstate) {struct fuel} : option mstate :=
         match fuel with
         | O => None
         | S f =>
             if greedy then
               match run ci a st
                       (fun st' => if Nat.ltb (pos st) (pos st')
                                   then loop f (S cnt) st' else None) with
               | Some m => Some m
               | None => if Nat.leb mn cnt then k st else None
               end
             else
               match (if Nat.leb mn cnt then k st else None) with
               | Some m => Some m
               | None =>
                   run ci a st
                     (fun st' => if Nat.ltb (pos st) (pos st')
                                 then loop f (S cnt) st' else None)
               end
         end) (S (List.length (rest st))) 0 st
  | Group a =>
      run ci a st
        (fun st' => k (MState (pos st') (prev st') (rest st')
                              (Some (pos st, pos st'))))
  | Bol => if Nat.eqb (pos st) 0 then k st else None
  | Eol => if at_eol st then k st else None
  | WordB => if at_boundary st then k st else None
  end.

(** A match object: where the match starts and the final matcher state. *)
Record rmatch : Type := RMatch { m_start : nat; m_final : mstate }.

Definition m_end (m : rmatch) : nat := pos (m_final m).

(** Try the pattern at the current position, then at each later one. *)
Fixpoint search_at (ci : bool) (r : regex) (p : nat) (pv : option ascii)
    (l : list ascii) : option rmatch :=
  match run ci r (MState p pv l None) Some with
  | Some st => Some (RMatch p st)
  | None =>
      match l with
      | [] => None
      | c :: t => search_at ci r (S p) (Some c) t
      end
  end.

(** [re.search(pattern, s)] and [re.search(pattern, s, re.IGNORECASE)]. *)
Definition search (ci : bool) (r : regex) (s : string) : option rmatch :=
  search_at ci r 0 None (chars s).

Definition slice (s : string) (a b : nat) : string := substring a (b - a) s.

(** [m.group(1)] of a match on [s] (the empty string stands for an unset
    group, which the patterns below never leave unset). *)
Definition group1 (s : string) (m : rmatch) : string :=
  match g1 (m_final m) with
  | Some (a, b) => slice s a b
  | None => EmptyString
  end.

(** [m.group(0)]. *)
Definition group0 (s : string) (m : rmatch) : string :=
  slice s (m_start m) (m_end m).

(** [re.findall(pattern, s)] for a pattern without capturing groups: the
    successive non-overlapping matches, left to right. *)
Fixpoint findall_from (fuel : nat) (ci : bool) (r : regex) (s : string)
    (p : nat) (pv : option ascii) (l : list ascii) : list string :=
  match fuel with
  | O => []
  | S f =>
      match search_at ci r p pv l with
      | None => []
      | Some m =>
          let st := m_final m in
          group0 s m ::
          (if Nat.ltb (m_start m) (pos st)
           then findall_from f ci r s (pos st) (prev st) (rest st)
           else match rest st with
                | [] => []
                | c :: t => findall_from f ci r s (S (pos st)) (Some c) t
                end)
      end
  end.

Definition findall (ci : bool) (r : regex) (s : string) : list string :=
  findall_from (S (String.length s)) ci r s 0 None (chars s).

(** Concatenation of several patterns, and the usual abbreviations. *)
Definition cat (rs : list regex) : regex := fold_right Seq Eps rs.
Definition plus (a : regex) : regex := Rep true 1 a.
Definition star (a : regex) : regex := Rep true 0 a.
Definition lazy_plus (a : regex) : regex := Rep false 1 a.
Definition alts (rs : list regex) : regex :=
  match rs with
  | [] => Eps
  | r :: rs' => fold_left Alt rs' r
  end.

(** The character classes of the patterns. *)
Definition ws : regex := Cls is_space.                     (* \s *)
Definition upper_cls : regex := Cls is_upper.              (* [A-Z] *)
Definition alpha_cls : regex := Cls is_alpha.              (* [a-zA-Z] *)
Definition is_loc_char (c : ascii) : bool :=               (* [a-zA-Z\s,-] *)
  is_alpha c || is_space c || Ascii.eqb c ","%char || Ascii.eqb c "-"%char.
Definition loc_cls : regex := Cls is_loc_char.
Definition is_alpha_space (c : ascii) : bool :=            (* [a-zA-Z\s] *)
  is_alpha c || is_space c.

End Re.

(* ================================================================== *)
(** ** Location patterns *)
(* ================================================================== *)

Module Patterns.
Import PyStr Re.

(** tools/weather_api.py, the terminator shared by patterns 1 and 2:
    [(?:\s+including|\s+with|\?|$)]. *)
Definition tail_for_in : regex :=
  Alt (Seq (plus ws) (Lit "including"))
      (Alt (Seq (plus ws) (Lit "with"))
           (Alt (Lit "?") Eol)).

(** [([a-zA-Z][a-zA-Z\s,-]+?)] *)
Definition lazy_place : regex :=
  Group (Seq alpha_cls (lazy_plus loc_cls)).

(** Pattern 1: [\bfor\s+([a-zA-Z][a-zA-Z\s,-]+?)(?:\s+including|\s+with|\?|$)] *)
Definition for_pattern : regex :=
  cat [WordB; Lit "for"; plus ws; lazy_place; tail_for_in].

(** Pattern 2: [\bin\s+([a-zA-Z][a-zA-Z\s,-]+?)(?:\s+including|\s+with|\?|$)] *)
Definition in_pattern : regex :=
  cat [WordB; Lit "in"; plus ws; lazy_place; tail_for_in].

(** Pattern 3:
    [^([a-zA-Z][a-zA-Z\s,-]+?)\s+(?:weather|climate|analysis|temperature)] *)
Definition start_pattern : regex :=
  cat [Bol; lazy_place; plus ws;
       Alt (Lit "weather") (Alt (Lit "climate")
         (Alt (Lit "analysis") (Lit "temperature")))].

(** Pattern 4: [\b[A-Z][a-zA-Z]+(?:\s+[A-Z][a-zA-Z]+)*\b] *)
Definition caps_pattern : regex :=
  cat [WordB; upper_cls; plus alpha_cls;
       star (cat [plus ws; upper_cls; plus alpha_cls]); WordB].

(** main_backup.py:
    [\b<prep>\s+([A-Z][a-zA-Z\s,-]{2,}?)(?:\s|$|\?|!)] for the
    prepositions in, for, at, of. *)
Definition prep_pattern (prep : string) : regex :=
  cat [WordB; Lit prep; plus ws;
       Group (Seq upper_cls (Rep false 2 loc_cls));
       Alt ws (Alt Eol (Alt (Lit "?") (Lit "!")))].

(** frontend/gradio_app.py: [<word> in ([a-zA-Z\s]+)]. *)
Definition word_in_pattern (word : string) : regex :=
  cat [Lit word; Lit " in "; Group (plus (Cls is_alpha_space))].

End Patterns.

(* ================================================================== *)
(** ** Python values, exceptions and the outside world *)
(* ================================================================== *)

Module Py.
Import PyStr.

(** *** Exceptions *)

(** The subclasses of [requests.exceptions.RequestException] that
    [requests.get] and [raise_for_status] raise. *)
Inductive request_error : Type :=
| ConnectionError | Timeout | HTTPError | OtherRequestError.

Inductive exn_class : Type :=
| RequestException (k : request_error)
| JSONDecodeError
| KeyError | IndexError | TypeError | AttributeError | ValueError
| OtherError.

(** An exception object; [e_msg] is what [str(e)] gives. *)
Record exn : Type := Exn { e_class : exn_class; e_msg : string }.

(** [except Exception] and [except requests.exceptions.RequestException].
    (Recent versions of requests derive their JSON decoding error from
    [RequestException] too; the only handler for [RequestException]
    here, in the Bhuvan tool, guards a body that decodes nothing.) *)
Definition catch_Exception (e : exn) : bool := true.
Definition catch_RequestException (e : exn) : bool :=
  match e_class e with RequestException _ => true | _ => false end.

Inductive result (A : Type) : Type :=
| Ok (a : A)
| Raise (e : exn).
Arguments Ok {A} a.
Arguments Raise {A} e.

Definition rbind {A B : Type} (c : result A) (k : A -> result B) : result B :=
  match c with Ok a => k a | Raise e => Raise e end.

Definition fail {A : Type} (c : exn_class) (m : string) : result A :=
  Raise (Exn c m).

(** *** Decoded JSON payloads *)

(** What [response.json()] returns.  A float carries the text [repr]
    prints for it; a dict is the list of its items in insertion order. *)
#[warnings="-register-all"] Inductive json : Type :=
| JNull
| JBool (b : bool)
| JInt (z : Z)
| JFloat (f : float) (repr : string)
| JStr (s : string)
| JList (l : list json)
| JDict (items : list (string * json)).

Definition str_of_Z (z : Z) : string :=
  DecimalString.NilZero.string_of_int (Z.to_int z).

Definition join (sep : string) (l : list string) : string := String.concat sep l.

(** [repr] of a string.  The text goes between single quotes, or
    between double quotes when it has a single quote and no double
    quote; the quote in use and the backslash are escaped, TAB, LF and
    CR are written [\t], [\n] and [\r], and any other control character
    of ASCII [\xNN].  (A character outside ASCII is left as it is, which
    is what [repr] does with the printable ones.) *)
Definition backslash : ascii := "092"%char.
Definition single_quote : ascii := "039"%char.
Definition double_quote : ascii := "034"%char.

Definition hex_digit (n : nat) : ascii :=
  ascii_of_nat (if Nat.ltb n 10 then 48 + n else 87 + n).

Definition repr_char (quote c : ascii) : list ascii :=
  if Ascii.eqb c quote || Ascii.eqb c backslash then [backslash; c]
  else if Nat.eqb (code c) 9 then [backslash; "t"%char]
  else if Nat.eqb (code c) 10 then [backslash; "n"%char]
  else if Nat.eqb (code c) 13 then [backslash; "r"%char]
  else if Nat.ltb (code c) 32 || Nat.eqb (code c) 127
  then [backslash; "x"%char;
        hex_digit (Nat.div (code c) 16); hex_digit (Nat.modulo (code c) 16)]
  else [c].

Definition repr_quote (s : string) : ascii :=
  if existsb (Ascii.eqb single_quote) (chars s)
     && negb (existsb (Ascii.eqb double_quote) (chars s))
  then double_quote else single_quote.

Definition repr_str (s : string) : string :=
  let quote := repr_quote s in
  String quote
    (text (flat_map (repr_char quote) (chars s)) ++ String quote EmptyString).

(** [repr(v)] and [str(v)].  The two differ on strings only. *)
Fixpoint py_repr (v : json) : string :=
  match v with
  | JNull => "None"
  | JBool true => "True"
  | JBool false => "False"
  | JInt z => str_of_Z z
  | JFloat _ r => r
  | JStr s => repr_str s
  | JList l => "[" ++ join ", " (map py_repr l) ++ "]"
  | JDict items =>
      "{" ++ join ", "
               (map (fun kv => let '(k, x) := kv in
                               repr_str k ++ ": " ++ py_repr x) items)
          ++ "}"
  end.

Definition py_str (v : json) : string :=
  match v with
  | JStr s => s
  | _ => py_repr v
  end.

(** The truth value of a payload: [if data], [if not data]. *)
Definition truthy (v : json) : bool :=
  match v with
  | JNull => false
  | JBool b => b
  | JInt z => negb (Z.eqb z 0)
  | JFloat f _ => negb (PrimFloat.eqb f 0%float)
  | JStr s => PyStr.truthy s
  | JList l => match l with [] => false | _ => true end
  | JDict items => match items with [] => false | _ => true end
  end.

Fixpoint assoc (k : string) (items : list (string * json)) : option json :=
  match items with
  | [] => None
  | (k', v) :: r => if String.eqb k k' then Some v else assoc k r
  end.

Definition type_name (v : json) : string :=
  match v with
  | JNull => "NoneType" | JBool _ => "bool" | JInt _ => "int"
  | JFloat _ _ => "float" | JStr _ => "str" | JList _ => "list"
  | JDict _ => "dict"
  end.

(** [v.get(key, default)]: only a dict has [get]. *)
Definition get (v : json) (key : string) (default : json) : result json :=
  match v with
  | JDict items =>
      Ok (match assoc key items with Some x => x | None => default end)
  | _ => fail AttributeError
           ("'" ++ type_name v ++ "' object has no attribute 'get'")
  end.

(** [v[key]] for a string key. *)
Definition item (v : json) (key : string) : result json :=
  match v with
  | JDict items =>
      match assoc key items with
      | Some x => Ok x
      | None => fail KeyError (repr_str key)
      end
  | JList _ => fail TypeError "list indices must be integers or slices, not str"
  | JStr _ => fail TypeError "string indices must be integers, not 'str'"
  | _ => fail TypeError ("'" ++ type_name v ++ "' object is not subscriptable")
  end.

(** [v[i]] for a non-negative integer index. *)
Definition index (v : json) (i : nat) : result json :=
  match v with
  | JList l =>
      match nth_error l i with
      | Some x => Ok x
      | None => fail IndexError "list index out of range"
      end
  | JStr s =>
      match char_at i s with
      | Some c => Ok (JStr c)
      | None => fail IndexError "string index out of range"
      end
  | JDict _ => fail KeyError (str_of_Z (Z.of_nat i))
  | _ => fail TypeError ("'" ++ type_name v ++ "' object is not subscriptable")
  end.

(** [v[:n]]. *)
Definition slice_to (v : json) (n : nat) : result json :=
  match v with
  | JList l => Ok (JList (firstn n l))
  | JStr s => Ok (JStr (take n s))
  | JDict _ => fail TypeError "unhashable type: 'slice'"
  | _ => fail TypeError ("'" ++ type_name v ++ "' object is not subscriptable")
  end.

(** [for x in v]: the elements the loop visits. *)
Definition iter (v : json) : result (list json) :=
  match v with
  | JList l => Ok l
  | JStr s => Ok (map (fun c => JStr (text c)) (code_points (chars s)))
  | JDict items => Ok (map (fun kv => JStr (fst kv)) items)
  | _ => fail TypeError ("'" ++ type_name v ++ "' object is not iterable")
  end.

(** [v.items()] and [v.values()]. *)
Definition items (v : json) : result (list (string * json)) :=
  match v with
  | JDict l => Ok l
  | _ => fail AttributeError
           ("'" ++ type_name v ++ "' object has no attribute 'items'")
  end.

Definition values (v : json) : result (list json) :=
  match v with
  | JDict l => Ok (map snd l)
  | _ => fail AttributeError
           ("'" ++ type_name v ++ "' object has no attribute 'values'")
  end.

(** [len(v)]. *)
Definition len (v : json) : result nat :=
  match v with
  | JList l => Ok (List.length l)
  | JStr s => Ok (str_len s)
  | JDict l => Ok (List.length l)
  | _ => fail TypeError ("object of type '" ++ type_name v ++ "' has no len()")
  end.

(** *** HTTP *)

(** A [requests.Response]: the status code, the body as text, the body
    decoded by [json()] ([None] when decoding raises), the message of
    the [HTTPError] that [raise_for_status] builds, and the message of
    the error that [json()] raises for a body that does not decode
    (the decoder words it after the body: what it expected, and where). *)
Record response : Type := Response {
  status_code : nat;
  resp_text : string;
  resp_json : option json;
  status_msg : string;
  decode_msg : string
}.

Inductive http_outcome : Type :=
| HttpFail (k : request_error) (m : string)   (* requests.get raised *)
| HttpResp (r : response).

(** [r.raise_for_status()]: raises for a 4xx or 5xx status. *)
Definition raise_for_status (r : response) : result unit :=
  if Nat.leb 400 (status_code r) && Nat.ltb (status_code r) 600
  then fail (RequestException HTTPError) (status_msg r)
  else Ok tt.

(** [r.json()]. *)
Definition json_of (r : response) : result json :=
  match resp_json r with
  | Some v => Ok v
  | None => fail JSONDecodeError (decode_msg r)
  end.

(** *** The vector index *)

(** What [collection.query(..., include=['documents', 'distances'])]
    returns: the two entries the code reads. *)
Record query_result : Type := QueryResult {
  documents : option (list (list string));
  distances : option (list (list float))
}.

(** *** The world and the trace *)

Definition params : Type := list (string * string).

(** The calls that leave the process.  [EvClassify] is a ghost event:
    it marks the point where [process_query] calls the router or the
    intent analysis, so that a run without classification can be told
    from one with it. *)
Inductive event : Type :=
| EvHttp (url : string) (ps : params)          (* requests.get *)
| EvEncode (q : string)                        (* embedding_model.encode *)
| EvQuery (q : string) (k : nat)               (* collection.query *)
| EvCrew (topic : string)                      (* crew().kickoff *)
| EvClassify (q : string).                     (* router / intent analysis *)

Definition trace : Type := list event.

(** The answers of the outside, which may depend on what happened
    before. *)
Record World : Type := {
  w_http : trace -> string -> params -> http_outcome;
  w_encode : trace -> string -> option exn;
  w_query : trace -> string -> nat -> result query_result;
  w_crew : trace -> string -> result string;
  w_now : string
}.

Definition M (A : Type) : Type := World -> trace -> result A * trace.

Definition ret {A : Type} (a : A) : M A := fun _ t => (Ok a, t).

Definition bind {A B : Type} (c : M A) (k : A -> M B) : M B :=
  fun w t =>
    match c w t with
    | (Ok a, t') => k a w t'
    | (Raise e, t') => (Raise e, t')
    end.

Definition lift {A : Type} (r : result A) : M A := fun _ t => (r, t).

Definition raise {A : Type} (e : exn) : M A := fun _ t => (Raise e, t).

(** [try: body  except C as e: handler e]. *)
Definition try_except {A : Type} (body : M A) (catches : exn -> bool)
    (handler : exn -> M A) : M A :=
  fun w t =>
    match body w t with
    | (Ok a, t') => (Ok a, t')
    | (Raise e, t') => if catches e then handler e w t' else (Raise e, t')
    end.

Definition emit (ev : event) : M unit := fun _ t => (Ok tt, t ++ [ev])%list.

(** [requests.get(url, params=ps, timeout=...)]. *)
Definition requests_get (url : string) (ps : params) : M response :=
  fun w t =>
    let t' := (t ++ [EvHttp url ps])%list in
    match w_http w t url ps with
    | HttpFail k m => (Raise (Exn (RequestException k) m), t')
    | HttpResp r => (Ok r, t')
    end.

(** [embedding_model.encode([q])]. *)
Definition encode (q : string) : M unit :=
  fun w t =>
    let t' := (t ++ [EvEncode q])%list in
    match w_encode w t q with
    | Some e => (Raise e, t')
    | None => (Ok tt, t')
    end.

(** [collection.query(query_embeddings=..., n_results=k, include=...)]. *)
Definition collection_query (q : string) (k : nat) : M query_result :=
  fun w t => (w_query w t q k, (t ++ [EvQuery q k])%list).

(** [crew().kickoff(inputs=...)], as text. *)
Definition crew_kickoff (topic : string) : M string :=
  fun w t => (w_crew w t topic, (t ++ [EvCrew topic])%list).

(** [datetime.now().strftime(...)]. *)
Definition now : M string := fun w t => (Ok (w_now w), t).

Definition run {A : Type} (c : M A) (w : World) : result A * trace := c w [].

Definition returns {A : Type} (c : M A) (w : World) (t : trace) : Prop :=
  exists a t', c w t = (Ok a, t').

End Py.

Declare Scope py_scope.
Delimit Scope py_scope with py.
Notation "x <- c ;; k" := (Py.bind c (fun x => k))
  (at level 61, c at next level, right associativity) : py_scope.
Notation "c ;;; k" := (Py.bind c (fun _ => k))
  (at level 61, right associativity) : py_scope.
Notation "x <~ c ;; k" := (Py.rbind c (fun x => k))
  (at level 61, c at next level, right associativity) : py_scope.
Open Scope py_scope.

Module PyLoop.
Import Py.

(** [for x in l: acc = body acc x], where the body may raise. *)
Fixpoint for_each {A S : Type} (l : list A) (acc : S)
    (body : S -> A -> result S) : result S :=
  match l with
  | [] => Ok acc
  | x :: r => acc' <~ body acc x ;; for_each r acc' body
  end.

(** The line feed, [\n]. *)
Definition nl : string := String "010"%char EmptyString.

End PyLoop.

(* ================================================================== *)
(** ** tools/nasa_api.py and tools/bhuvan_api.py: the provider tools *)
(* ================================================================== *)

Module NasaApi.
Import PyStr Py PyLoop.

(** [NasaApodTool._run] *)
Definition NasaApodTool_run (api_key : string) : M string :=
  try_except
    (r <- requests_get "https://api.nasa.gov/planetary/apod"
                       [("api_key", api_key)] ;;
     lift (raise_for_status r) ;;;
     d <- lift (json_of r) ;;
     title <- lift (get d "title" JNull) ;;
     date <- lift (get d "date" JNull) ;;
     explanation <- lift (get d "explanation" JNull) ;;
     url <- lift (get d "url" JNull) ;;
     ret ("Today's NASA APOD is titled '" ++ py_str title ++ "' ("
            ++ py_str date ++ "). " ++ py_str explanation
            ++ " Image URL: " ++ py_str url))
    catch_Exception
    (fun e => ret ("Error fetching APOD: " ++ e_msg e)).

(** One line of the Mars rover listing:
    [f"- {p['earth_date']} {p['camera']['full_name']}: {p['img_src']}\n"]. *)
Definition mars_line (text : string) (p : json) : result string :=
  earth_date <~ item p "earth_date" ;;
  camera <~ item p "camera" ;;
  full_name <~ item camera "full_name" ;;
  img_src <~ item p "img_src" ;;
  Ok (text ++ "- " ++ py_str earth_date ++ " " ++ py_str full_name ++ ": "
        ++ py_str img_src ++ nl).

(** [NasaMarsRoverTool._run] *)
Definition NasaMarsRoverTool_run (api_key : string) (sol : Z) : M string :=
  try_except
    (r <- requests_get
            "https://api.nasa.gov/mars-photos/api/v1/rovers/curiosity/photos"
            [("sol", str_of_Z sol); ("api_key", api_key)] ;;
     lift (raise_for_status r) ;;;
     body <- lift (json_of r) ;;
     photos <- lift (get body "photos" (JList [])) ;;
     if negb (truthy photos) then ret "No Mars photos found for that sol."
     else
       items <- lift (slice_to photos 3) ;;
       ps <- lift (iter items) ;;
       lift (for_each ps ("Here are some recent Mars rover images:" ++ nl)
                      mars_line))
    catch_Exception
    (fun e => ret ("Error fetching Mars photos: " ++ e_msg e)).

(** The inner loop of the asteroid listing, over [arr[:2]]. *)
Definition asteroid_entry (items : list string) (a : json)
    : result (list string) :=
  name <~ item a "name" ;;
  hazardous <~ item a "is_potentially_hazardous_asteroid" ;;
  Ok (app items [py_str name ++ " (Potentially Hazardous: "
                     ++ py_str hazardous ++ ")"]).

(** The outer loop, over [list(data.items())[:2]]. *)
Definition asteroid_day (items : list string) (day : string * json)
    : result (list string) :=
  head <~ slice_to (snd day) 2 ;;
  arr <~ iter head ;;
  for_each arr items asteroid_entry.

(** [NasaAsteroidTool._run] *)
Definition NasaAsteroidTool_run (api_key : string) : M string :=
  try_except
    (r <- requests_get "https://api.nasa.gov/neo/rest/v1/feed"
                       [("api_key", api_key)] ;;
     lift (raise_for_status r) ;;;
     body <- lift (json_of r) ;;
     data <- lift (get body "near_earth_objects" (JDict [])) ;;
     days <- lift (items data) ;;
     entries <- lift (for_each (firstn 2 days) [] asteroid_day) ;;
     ret ("The recent near-Earth asteroids are:" ++ nl ++ join nl entries))
    catch_Exception
    (fun e => ret ("Error fetching asteroid data: " ++ e_msg e)).

(** [NasaSolarActivityTool._run] *)
Definition NasaSolarActivityTool_run (api_key : string) : M string :=
  try_except
    (r <- requests_get "https://api.nasa.gov/DONKI/FLR"
                       [("api_key", api_key)] ;;
     lift (raise_for_status r) ;;;
     arr <- lift (json_of r) ;;
     if negb (truthy arr) then ret "No recent solar flare data found."
     else
       flare <- lift (index arr 0) ;;
       classType <- lift (get flare "classType" JNull) ;;
       peakTime <- lift (get flare "peakTime" JNull) ;;
       ret ("Recent solar activity: Solar flare of class " ++ py_str classType
              ++ " peaked at " ++ py_str peakTime ++ "."))
    catch_Exception
    (fun e => ret ("Error fetching solar activity: " ++ e_msg e)).

End NasaApi.

Module BhuvanApi.
Import PyStr Py.

Definition base_url : string := "https://bhuvan-app1.nrsc.gov.in/api".

(** [BhuvanApiTool._run]; the two logger calls leave no mark on the
    result. *)
Definition BhuvanApiTool_run (endpoint : string) (ps : option params)
    : M string :=
  let ps := match ps with None => [] | Some d => d end in
  try_except
    (let url := base_url ++ "/" ++ lstrip_char "/"%char endpoint in
     response <- requests_get url ps ;;
     lift (raise_for_status response) ;;;
     ret (resp_text response))
    catch_RequestException
    (fun e =>
       let error_msg :=
         "Bhuvan API request failed for " ++ endpoint ++ ": " ++ e_msg e in
       ret error_msg).

End BhuvanApi.

(* ================================================================== *)
(** ** tools/weather_api.py: location extraction and validation *)
(* ================================================================== *)

Module WeatherApi.
Import PyStr Py PyLoop Re Patterns.

(** The words that a capitalized phrase must not be (compared in lower
    case). *)
Definition stoplist : list string :=
  ["weather"; "analysis"; "environmental"; "air"; "quality"; "temperature";
   "climate"].

(** The candidate of a capturing pattern: [m.group(1).strip()], when the
    pattern matches. *)
Definition stripped_group (r : regex) (query : string) : list string :=
  match search true r query with
  | Some m => [strip (group1 query m)]
  | None => []
  end.

(** The capitalized phrases that pass the stoplist. *)
Definition caps_candidates (query : string) : list string :=
  filter (fun word => negb (mem (lower word) stoplist))
         (findall false caps_pattern query).

(** [potential_locations] as it stands after the four patterns. *)
Definition potential_locations (query : string) : list string :=
  (stripped_group for_pattern query
   ++ stripped_group in_pattern query
   ++ stripped_group start_pattern query
   ++ caps_candidates query)%list.

Definition geo_url : string := "https://api.openweathermap.org/geo/1.0/direct".

Definition is_str (v : json) (s : string) : bool :=
  match v with JStr x => String.eqb x s | _ => false end.

(** [_validate_location_with_geocoding_api]; the logger call of the
    handler leaves no mark on the result. *)
Definition _validate_location_with_geocoding_api (api_key : string)
    (location_candidate : string) : M (option string) :=
  try_except
    (let location_clean := sub_ws_space (strip location_candidate) in
     let ps := [("q", location_clean); ("limit", "3"); ("appid", api_key)] in
     response <- requests_get geo_url ps ;;
     lift (raise_for_status response) ;;;
     locations <- lift (json_of response) ;;
     if truthy locations then
       best_match <- lift (index locations 0) ;;
       city_name <- lift (item best_match "name") ;;
       country <- lift (item best_match "country") ;;
       if is_str country "IN"
       then ret (Some (py_str city_name ++ ",IN"))
       else ret (Some (py_str city_name ++ "," ++ py_str country))
     else
       if negb (truthy locations) && negb (contains "," location_clean) then
         let params_india :=
           [("q", location_clean ++ ", India"); ("limit", "2");
            ("appid", api_key)] in
         response_india <- requests_get geo_url params_india ;;
         if Nat.eqb (status_code response_india) 200 then
           locations_india <- lift (json_of response_india) ;;
           if truthy locations_india then
             first <- lift (index locations_india 0) ;;
             city_name <- lift (item first "name") ;;
             ret (Some (py_str city_name ++ ",IN"))
           else ret None
         else ret None
       else ret None)
    catch_Exception
    (fun e => ret None).

(** The truth value of an optional string: [if validated]. *)
Definition opt_truthy (o : option string) : bool :=
  match o with Some s => PyStr.truthy s | None => false end.

(** The validation loop: the first candidate whose validation gives a
    true value. *)
Fixpoint validate_first (api_key : string) (cands : list string)
    : M (option string) :=
  match cands with
  | [] => ret None
  | location_candidate :: r =>
      validated <- _validate_location_with_geocoding_api api_key
                     location_candidate ;;
      if opt_truthy validated then ret validated
      else validate_first api_key r
  end.

(** [_extract_and_validate_location] *)
Definition _extract_and_validate_location (api_key : string) (query : string)
    : M (option string) :=
  let potential_locations := potential_locations query in
  if String.eqb api_key "DEMO_KEY" then
    ret (match potential_locations with
         | c :: _ => Some c
         | [] => None
         end)
  else validate_first api_key potential_locations.

End WeatherApi.

(* ================================================================== *)
(** ** main_backup.py: [GeospatialAgent._extract_location] *)
(* ================================================================== *)

Module MainBackup.
Import PyStr Re Patterns.

Definition patterns : list regex :=
  [prep_pattern "in"; prep_pattern "for"; prep_pattern "at"; prep_pattern "of"].

(** [match.group(1).strip().rstrip(',').rstrip('?').rstrip('!')] *)
Definition trim (g : string) : string :=
  rstrip_char "!"%char (rstrip_char "?"%char (rstrip_char ","%char (strip g))).

(** What one pattern contributes: the trimmed group when the pattern
    matches and more than two characters are left.  (The class of the
    group holds ASCII characters only, so the [len] of the location is
    the length of the string.) *)
Definition try_pattern (query : string) (r : regex) : option string :=
  match search false r query with
  | Some m =>
      let location := trim (group1 query m) in
      if Nat.ltb 2 (String.length location) then Some location else None
  | None => None
  end.

Fixpoint first_location (query : string) (ps : list regex) : option string :=
  match ps with
  | [] => None
  | r :: ps' =>
      match try_pattern query r with
      | Some location => Some location
      | None => first_location query ps'
      end
  end.

Definition _extract_location (query : string) : option string :=
  first_location query patterns.

End MainBackup.

(* ================================================================== *)
(** ** frontend/gradio_app.py: intent and location of a query *)
(* ================================================================== *)

Module GradioApp.
Import PyStr Re Patterns.

Inductive task : Type :=
| geospatial_analysis | astronomical_analysis | data_harvesting.

Definition weather_terms : list string :=
  ["weather"; "temperature"; "rain"; "rainfall"; "climate"; "humidity";
   "precipitation"].
Definition nasa_terms : list string :=
  ["nasa"; "apod"; "mars rover"; "solar activity"; "asteroid"; "space picture"].
Definition isro_terms : list string :=
  ["isro"; "bhuvan"; "chandrayaan"; "mangalyaan"; "indian space"].

(** [AstroGeoGradioApp.analyze_query_intent] *)
Definition analyze_query_intent (query : string) : task :=
  let query_lower := lower query in
  if any_in weather_terms query_lower then geospatial_analysis
  else if any_in nasa_terms query_lower then astronomical_analysis
  else if any_in isro_terms query_lower then data_harvesting
  else astronomical_analysis.

Definition location_patterns : list regex :=
  [word_in_pattern "weather"; word_in_pattern "rainfall";
   word_in_pattern "temperature"; word_in_pattern "climate"].

Fixpoint first_match (query_lower : string) (ps : list regex) : option string :=
  match ps with
  | [] => None
  | r :: ps' =>
      match search false r query_lower with
      | Some m => Some (title (strip (group1 query_lower m)))
      | None => first_match query_lower ps'
      end
  end.

(** [AstroGeoGradioApp.extract_location_from_query] *)
Definition extract_location_from_query (query : string) : string :=
  let query_lower := lower query in
  match first_match query_lower location_patterns with
  | Some location => location
  | None => "Delhi"
  end.

End GradioApp.

(* ================================================================== *)
(** ** More of Python on payloads *)
(* ================================================================== *)

Module PyOps.
Import PyStr Py PyLoop.

(** [s.split(sep)] for a non-empty separator. *)
Fixpoint split_go (sep : string) (skip : nat) (cur : list ascii) (s : string)
    : list string :=
  match s with
  | EmptyString => [text (rev cur)]
  | String c r =>
      match skip with
      | S n => split_go sep n cur r
      | O =>
          if String.prefix sep s
          then text (rev cur) :: split_go sep (String.length sep - 1) [] r
          else split_go sep 0 (c :: cur) r
      end
  end.
Definition split (sep s : string) : list string := split_go sep 0 [] s.

Definition no_attr {A : Type} (v : json) (name : string) : result A :=
  fail AttributeError
    ("'" ++ type_name v ++ "' object has no attribute '" ++ name ++ "'").

(** [v.startswith(p)], [v.split(sep)], [v.title()], [v.strip()],
    [v.lower()]: string methods. *)
Definition startswith (v : json) (p : string) : result bool :=
  match v with JStr s => Ok (String.prefix p s) | _ => no_attr v "startswith" end.
Definition split_of (v : json) (sep : string) : result (list string) :=
  match v with JStr s => Ok (split sep s) | _ => no_attr v "split" end.

(** [1, 2, 3, ...] as [enumerate(l, 1)] numbers the elements. *)
Fixpoint enumerate_from {A : Type} (i : nat) (l : list A) : list (nat * A) :=
  match l with
  | [] => []
  | x :: r => (i, x) :: enumerate_from (S i) r
  end.

Definition str_of_nat (n : nat) : string := str_of_Z (Z.of_nat n).

(** [s[:n] + "..." if len(s) > n else s] *)
Definition ellipsis (n : nat) (s : string) : string :=
  if Nat.ltb n (str_len s) then take n s ++ "..." else s.

End PyOps.

(* ================================================================== *)
(** ** The vector-database search *)
(* ================================================================== *)

Module VectorDb.
Import PyStr Py PyLoop.

(** [{'content': doc, 'score': score}] *)
Record fragment : Type := Fragment { content : string; score : float }.

(** [x[0]] where [x] is [results['documents']] or [results['distances']]. *)
Definition first_row {A : Type} (x : option (list (list A))) : result (list A) :=
  match x with
  | None => fail TypeError "'NoneType' object is not subscriptable"
  | Some [] => fail IndexError "list index out of range"
  | Some (row :: _) => Ok row
  end.

(** [1 - results['distances'][0][i] if results['distances'][0] else 0] *)
Definition score_of (results : query_result) (i : nat) : result float :=
  row <~ first_row (distances results) ;;
  match row with
  | [] => Ok 0%float
  | _ =>
      match nth_error row i with
      | Some d => Ok (PrimFloat.sub 1%float d)
      | None => fail IndexError "list index out of range"
      end
  end.

(** The loop over [enumerate(results['documents'][0])]. *)
Fixpoint collect (floor : float) (results : query_result) (i : nat)
    (docs : list string) (documents : list fragment)
    : result (list fragment) :=
  match docs with
  | [] => Ok documents
  | doc :: r =>
      score <~ score_of results i ;;
      collect floor results (S i) r
        (if PrimFloat.ltb floor score
         then app documents [Fragment doc score]
         else documents)
  end.

(** From [documents = []] to [return documents]: the fragments whose
    score is above [floor].  The guard is
    [results and results['documents'] and results['documents'][0]]; the
    result of a query is a dict with entries, so it counts as true. *)
Definition scored_documents (floor : float) (results : query_result)
    : result (list fragment) :=
  match documents results with
  | Some ((_ :: _) as docs :: _) => collect floor results 0 docs []
  | _ => Ok []
  end.

(** The relevance floors of the call sites. *)
#[warnings="-inexact-float"] Definition floor_02 : float := 0.2%float.
#[warnings="-inexact-float"] Definition floor_03 : float := 0.3%float.

(** What an application holds after start-up: whether the collection and
    the embedding model are there ([None] otherwise). *)
Record handles : Type := Handles {
  collection : bool;
  embedding_model : bool
}.

Definition none_has_no (name : string) : exn :=
  Exn AttributeError ("'NoneType' object has no attribute '" ++ name ++ "'").

(** [self.embedding_model.encode([query])] then
    [self.collection.query(...)] on handles that may be [None]. *)
Definition encode_and_query (h : handles) (query : string) (k : nat)
    : M query_result :=
  (if embedding_model h then encode query else raise (none_has_no "encode")) ;;;
  (if collection h then collection_query query k
   else raise (none_has_no "query")).

End VectorDb.

(* ================================================================== *)
(** ** run_astrogeo.py: [IntelligentAstroGeo] *)
(* ================================================================== *)

Module RunAstrogeo.
Import PyStr Py PyLoop PyOps VectorDb.

(** [IntelligentAstroGeo.search_vector_db] *)
Definition search_vector_db (h : handles) (query : string) (k : nat)
    : M (list fragment) :=
  try_except
    (if negb (collection h) || negb (embedding_model h) then ret []
     else
       results <- encode_and_query h query k ;;
       lift (scored_documents floor_03 results))
    catch_Exception
    (fun e => ret []).

Inductive agent : Type :=
| isro_geospatial | nasa_live | space_weather | asteroid_tracker
| mars_expert | space_agency_expert | geospatial_expert | general_space.

Inductive data_source : Type :=
| vector_db | nasa_api | mixed | knowledge_base.

(** The dict that [analyze_query_intent] returns. *)
Record intent : Type := Intent {
  i_agent : agent;
  i_data_source : data_source;
  i_reason : string
}.

Definition agent_name (a : agent) : string :=
  match a with
  | isro_geospatial => "isro_geospatial"
  | nasa_live => "nasa_live"
  | space_weather => "space_weather"
  | asteroid_tracker => "asteroid_tracker"
  | mars_expert => "mars_expert"
  | space_agency_expert => "space_agency_expert"
  | geospatial_expert => "geospatial_expert"
  | general_space => "general_space"
  end.

Definition data_source_name (d : data_source) : string :=
  match d with
  | vector_db => "vector_db"
  | nasa_api => "nasa_api"
  | mixed => "mixed"
  | knowledge_base => "knowledge_base"
  end.

(** The keyword list that opens each branch of [analyze_query_intent]. *)
Definition keywords (a : agent) : list string :=
  match a with
  | isro_geospatial =>
      ["bhuvan"; "isro"; "saphir"; "ocm"; "indian space"; "chandrayaan";
       "mangalyaan"]
  | nasa_live => ["nasa picture"; "apod"; "today"; "current nasa"]
  | space_weather =>
      ["solar"; "space weather"; "flare"; "sun activity"; "today"; "current"]
  | asteroid_tracker => ["asteroid"; "space rock"; "dangerous"; "near earth"]
  | mars_expert => ["mars"; "red planet"; "rover"; "perseverance"; "curiosity"]
  | space_agency_expert => ["nasa"; "esa"; "spacex"]
  | geospatial_expert =>
      ["satellite"; "geospatial"; "remote sensing"; "earth observation"]
  | general_space => []
  end.

(** [IntelligentAstroGeo.analyze_query_intent] *)
Definition analyze_query_intent (query : string) : intent :=
  let query_lower := lower query in
  if any_in (keywords isro_geospatial) query_lower then
    Intent isro_geospatial vector_db
      "ISRO/Indian space query - checking specialized knowledge base"
  else if any_in (keywords nasa_live) query_lower
          && negb (any_in ["solar"; "mars"] query_lower) then
    Intent nasa_live nasa_api "Live NASA APOD request"
  else if any_in (keywords space_weather) query_lower
          && contains "solar" query_lower then
    Intent space_weather nasa_api "Space weather monitoring query"
  else if any_in (keywords asteroid_tracker) query_lower then
    Intent asteroid_tracker nasa_api "Asteroid monitoring query"
  else if any_in (keywords mars_expert) query_lower then
    Intent mars_expert mixed "Mars exploration query"
  else if any_in (keywords space_agency_expert) query_lower
          && negb (any_in ["picture"; "today"; "current"] query_lower) then
    Intent space_agency_expert knowledge_base "General space agency information"
  else if any_in (keywords geospatial_expert) query_lower then
    Intent geospatial_expert vector_db "Geospatial/satellite technology query"
  else
    Intent general_space knowledge_base "General space knowledge query".

(** *** [get_nasa_live_data] *)

Definition solar_report (NASA_API_KEY : string) : M string :=
  response <- requests_get "https://api.nasa.gov/DONKI/FLR"
                [("api_key", NASA_API_KEY)] ;;
  lift (raise_for_status response) ;;;
  data <- lift (json_of response) ;;
  if negb (truthy data) then
    ret "☀️ **Solar Weather Report**: The Sun is currently in a calm phase with no significant solar flare activity detected. This is completely normal - our star has quiet periods between active cycles!"
  else
    flare <- lift (index data 0) ;;
    flare_class <- lift (get flare "classType" (JStr "Unknown")) ;;
    peak_time <- lift (get flare "peakTime" (JStr "Unknown")) ;;
    source <- lift (get flare "sourceLocation" (JStr "Unknown")) ;;
    isX <- lift (startswith flare_class "X") ;;
    desc <-
      (if isX then
         ret ("🔥 **Major Solar Flare**",
              "This is a powerful flare that can affect satellite communications and create spectacular auroras!")
       else
         isM <- lift (startswith flare_class "M") ;;
         if isM then
           ret ("⚡ **Moderate Solar Flare**",
                "This medium-strength flare might cause minor radio disruptions and enhance aurora displays.")
         else
           isC <- lift (startswith flare_class "C") ;;
           if isC then
             ret ("✨ **Minor Solar Flare**",
                  "This is a small flare with minimal Earth impact, but scientifically interesting!")
           else
             ret ("🌟 **Solar Activity Detected**",
                  "The Sun released energy in our direction.")) ;;
    let '(intensity_desc, impact) := desc in
    ret ("☀️ **Live Solar Activity Report**:

" ++ intensity_desc ++ " (Class " ++ py_str flare_class ++ ")
**When**: " ++ py_str peak_time ++ "
**Location**: " ++ py_str source ++ " on the Sun's surface

**What this means**: " ++ impact ++ "

**Space Weather Impact**: NASA continuously monitors solar activity to protect astronauts, satellites, and power grids on Earth. Solar flares are a natural part of our Sun's 11-year activity cycle.").

(** [explanation and len(explanation) > 200] *)
Definition long_text (explanation : json) : result bool :=
  if truthy explanation then
    n <~ len explanation ;; Ok (Nat.ltb 200 n)
  else Ok false.

Definition apod_report (NASA_API_KEY : string) : M string :=
  response <- requests_get "https://api.nasa.gov/planetary/apod"
                [("api_key", NASA_API_KEY)] ;;
  lift (raise_for_status response) ;;;
  data <- lift (json_of response) ;;
  title <- lift (get data "title" (JStr "Unknown")) ;;
  explanation <- lift (get data "explanation" (JStr "No description available")) ;;
  url <- lift (get data "url" (JStr "")) ;;
  media_type <- lift (get data "media_type" (JStr "image")) ;;
  let result := "🌟 **Today's NASA Space Highlight**: " ++ py_str title ++ "

" in
  long <- lift (long_text explanation) ;;
  result <-
    (if long then
       sentences <- lift (split_of explanation ". ") ;;
       let result := result ++ "**What you're seeing**: "
                       ++ hd "" sentences ++ ".

" in
       if Nat.ltb 1 (List.length sentences) then
         ret (result ++ "**Fascinating details**: "
                ++ join ". " (firstn 1 (skipn 1 sentences)) ++ ".

")
       else ret result
     else
       ret (result ++ "**About this cosmic wonder**: " ++ py_str explanation ++ "

")) ;;
  if WeatherApi.is_str media_type "video"
  then ret (result ++ "🎥 **Watch the video**: " ++ py_str url)
  else ret (result ++ "🖼️ **View full resolution image**: " ++ py_str url).

(** The body of the loop over [enumerate(photos[:3], 1)]. *)
Definition mars_photo (result : string) (ip : nat * json) : Py.result string :=
  let '(i, photo) := ip in
  earth_date <~ get photo "earth_date" (JStr "Unknown") ;;
  cam <~ get photo "camera" (JDict []) ;;
  camera <~ get cam "full_name" (JStr "Unknown camera") ;;
  img_url <~ get photo "img_src" (JStr "") ;;
  Ok (result ++ "**Photo " ++ str_of_nat i ++ "**: " ++ py_str earth_date ++ nl
        ++ "**Camera**: " ++ py_str camera ++ nl
        ++ "**Image**: " ++ py_str img_url ++ nl ++ nl).

Definition mars_report (NASA_API_KEY : string) : M string :=
  response <- requests_get
                "https://api.nasa.gov/mars-photos/api/v1/rovers/curiosity/photos"
                [("sol", "1000"); ("api_key", NASA_API_KEY)] ;;
  lift (raise_for_status response) ;;;
  data <- lift (json_of response) ;;
  photos <- lift (get data "photos" (JList [])) ;;
  if negb (truthy photos) then
    ret "🔴 **Mars Rover Update**: Curiosity hasn't taken photos on this Martian day. Mars rovers are busy with science experiments and don't photograph every day!"
  else
    head <- lift (slice_to photos 3) ;;
    ps <- lift (iter head) ;;
    result <- lift (for_each (enumerate_from 1 ps)
                      "🔴 **Live from Mars - Curiosity Rover Photos**:

" mars_photo) ;;
    ret (result ++ "🤖 **Rover Status**: Curiosity continues exploring Mars, analyzing rocks and soil to understand the Red Planet's history!").

(** [sum(len(asteroids) for asteroids in neo_objects.values())] *)
Definition total_len (groups : list json) : result nat :=
  for_each groups 0 (fun acc asteroids => n <~ len asteroids ;; Ok (acc + n)).

(** The two nested loops that count the hazardous asteroids. *)
Definition count_hazardous (groups : list json) : result nat :=
  for_each groups 0
    (fun acc asteroids =>
       l <~ iter asteroids ;;
       for_each l acc
         (fun acc asteroid =>
            flag <~ get asteroid "is_potentially_hazardous_asteroid" (JBool false) ;;
            Ok (if truthy flag then acc + 1 else acc))).

Definition asteroid_report (NASA_API_KEY : string) : M string :=
  response <- requests_get "https://api.nasa.gov/neo/rest/v1/feed"
                [("api_key", NASA_API_KEY)] ;;
  lift (raise_for_status response) ;;;
  data <- lift (json_of response) ;;
  neo_objects <- lift (get data "near_earth_objects" (JDict [])) ;;
  groups <- lift (values neo_objects) ;;
  total_count <- lift (total_len groups) ;;
  hazardous_count <- lift (count_hazardous groups) ;;
  let result := "🌌 **Live Asteroid Tracking**: NASA is currently monitoring **"
                  ++ str_of_nat total_count ++ " near-Earth asteroids**.

" in
  let result :=
    if Nat.ltb 0 hazardous_count then
      result ++ "⚠️ **" ++ str_of_nat hazardous_count ++ " are classified as potentially hazardous** - but don't worry! This just means they're large enough and close enough that we monitor them carefully.

"
    else
      result ++ "✅ **Good news!** None of the currently tracked asteroids pose any threat to Earth.

" in
  ret (result ++ "🛡️ **Earth's Defense**: NASA's Planetary Defense team continuously scans the skies to protect our planet!").

(** [IntelligentAstroGeo.get_nasa_live_data] *)
Definition get_nasa_live_data (NASA_API_KEY : string) (query_lower : string)
    : M string :=
  try_except
    (if any_in ["solar"; "space weather"; "flare"; "sun"] query_lower then
       solar_report NASA_API_KEY
     else if any_in ["apod"; "picture"; "image"; "photo"] query_lower
             && negb (contains "mars" query_lower) then
       apod_report NASA_API_KEY
     else if any_in ["mars"] query_lower
             && any_in ["photo"; "image"; "rover"; "picture"] query_lower then
       mars_report NASA_API_KEY
     else if any_in ["asteroid"; "space rock"; "dangerous"; "near earth"]
               query_lower then
       asteroid_report NASA_API_KEY
     else
       ret "Live NASA data is available! Please specify what you'd like: today's space picture, solar activity, Mars rover photos, or asteroid tracking.")
    catch_Exception
    (fun e => ret ("❌ Unable to fetch live NASA data: " ++ e_msg e)).

(** *** The knowledge sections *)

(** ['bhuvan' in c or 'saphir' in c or 'ocm' in c] for
    [c = result['content'].lower()]. *)
Definition mentions_bhuvan (result : fragment) : bool :=
  let c := lower (content result) in
  contains "bhuvan" c || contains "saphir" c || contains "ocm" c.

Definition bhuvan_fallback : string :=
"🇮🇳 **Bhuvan - ISRO's Geospatial Platform**

**Bhuvan** is India's geoportal developed by ISRO (Indian Space Research Organisation) that provides satellite imagery and geospatial services.

**Key Features**:
• **Satellite Imagery**: High-resolution images of India and the world
• **Thematic Services**: Land use, urban planning, disaster management
• **APIs**: For developers to integrate geospatial data
• **Mobile Apps**: Bhuvan for citizen services

**Instruments & Data**:
• **SAPHIR**: Atmospheric humidity profiling instrument
• **OCM (Ocean Colour Monitor)**: Marine and coastal monitoring
• **Cartosat**: High-resolution earth imaging
• **ResourceSat**: Natural resource monitoring

**Applications**: Agriculture, water resources, forestry, urban planning, and disaster management.

*Your vector database contains technical details about specific SAPHIR and OCM data processing methods.*".

(** [IntelligentAstroGeo.process_isro_bhuvan_query] *)
Definition process_isro_bhuvan_query (h : handles) (query : string) : M string :=
  vector_results <- search_vector_db h query 5 ;;
  if negb (Nat.eqb (List.length vector_results) 0)
     && existsb mentions_bhuvan vector_results then
    let response :=
      fold_left
        (fun response ir =>
           let '(i, result) := ir in
           let content := strip (content result) in
           let content :=
             if Nat.ltb 200 (str_len content)
             then take 200 content ++ "..." else content in
           response ++ "**" ++ str_of_nat i ++ ".** " ++ content ++ nl ++ nl)
        (enumerate_from 1 (firstn 3 vector_results))
        "🇮🇳 **ISRO/Bhuvan Intelligence** (from specialized knowledge base):

" in
    if contains "bhuvan" (lower query) then
      ret (response
             ++ "**About Bhuvan**: Bhuvan is ISRO's geoportal providing satellite imagery and geospatial services. "
             ++ "It includes various instruments like SAPHIR for atmospheric profiling and OCM for ocean color monitoring.")
    else ret response
  else
    if contains "bhuvan" (lower query) then ret bhuvan_fallback
    else ret "Please specify what aspect of ISRO or Bhuvan you'd like to know about.".

(** [IntelligentAstroGeo.get_general_space_knowledge] *)
Definition get_general_space_knowledge (query_lower : string) : string :=
  if contains "nasa" query_lower then
"🚀 **NASA - America's Space Agency**

NASA has been exploring space since 1958! Current major projects include:
• **Artemis Program**: Taking humans back to the Moon by 2026
• **Mars Exploration**: Multiple rovers studying the Red Planet  
• **James Webb Telescope**: Revolutionary deep space observations
• **International Space Station**: Continuous human presence in orbit

**Recent Achievements**: Successfully landed Perseverance rover on Mars, launched James Webb telescope, and preparing for human lunar missions.

NASA's missions help us understand our universe and develop technologies that benefit life on Earth!"
  else if contains "mars" query_lower then
"🔴 **Mars - The Red Planet**

Mars fascinates scientists because it's the most Earth-like planet in our solar system!

**Key Facts**:
• About half the size of Earth
• Day is 24 hours 37 minutes (similar to Earth!)
• Has seasons like Earth due to tilted axis
• Evidence of ancient rivers and lakes
• Two small moons: Phobos and Deimos

**Current Exploration**: NASA's Perseverance and Curiosity rovers are actively exploring, searching for signs of ancient microbial life and studying Martian geology."
  else
"🌌 **The Amazing Universe**

Space is full of incredible wonders:
• **Our Solar System**: 8 planets, over 200 moons, and countless asteroids
• **The Sun**: A middle-aged star that powers all life on Earth
• **Exoplanets**: Over 5,000 confirmed planets orbiting other stars
• **Galaxies**: Billions of galaxies, each with billions of stars

**Current Discoveries**: We're finding potentially habitable worlds, studying black holes, and even detecting gravitational waves from cosmic collisions!

Ask me about specific topics like NASA missions, Mars exploration, or space agencies!".

(** *** [process_query] *)

(** The application: the API key read at import time and the handles
    that [initialize_vector_db] left. *)
Record IntelligentAstroGeo : Type := MkApp {
  NASA_API_KEY : string;
  db : handles
}.

Definition welcome : string :=
  "Hi! I'm AstroGeo, your intelligent space assistant. I can access live NASA data, search specialized knowledge bases, and provide expert analysis on space topics!".

Definition is_live_agent (a : agent) : bool :=
  match a with
  | nasa_live | space_weather | asteroid_tracker => true
  | _ => false
  end.

Definition is_agent (a b : agent) : bool :=
  String.eqb (agent_name a) (agent_name b).

Definition is_vector_db (d : data_source) : bool :=
  match d with vector_db => true | _ => false end.

(** The response is built by [response += ...]; the model keeps the
    pieces apart, in order, and [render] joins them into the string the
    function returns.  The [progress(...)] calls only drive the
    progress bar and are left out. *)
Definition render (sections : list string) : string := String.concat "" sections.

(** The [try] block of [process_query]. *)
Definition process_query_body (self : IntelligentAstroGeo) (query : string) (use_nasa_api : bool)
    : M (list string) :=
  emit (EvClassify query) ;;;
  let intent := analyze_query_intent query in
  let response :=
    ["🧠 **AstroGeo Intelligent Analysis**" ++ nl ++ nl;
     "**Query**: " ++ query ++ nl;
     "**Detected Intent**: " ++ i_reason intent ++ nl;
     "**Agent**: " ++ agent_name (i_agent intent) ++ nl;
     "**Data Source**: " ++ data_source_name (i_data_source intent) ++ nl ++ nl] in
  if is_agent (i_agent intent) isro_geospatial then
    analysis <- process_isro_bhuvan_query (db self) query ;;
    ret (app response [analysis])
  else if is_live_agent (i_agent intent) && use_nasa_api then
    nasa_data <- get_nasa_live_data (NASA_API_KEY self) (lower query) ;;
    ret (app response ["📡 **Live NASA Data**:" ++ nl ++ nl ++ nasa_data])
  else if is_agent (i_agent intent) mars_expert then
    if use_nasa_api && any_in ["photo"; "image"; "picture"] (lower query) then
      nasa_data <- get_nasa_live_data (NASA_API_KEY self) (lower query) ;;
      ret (app response ["📡 **Live Mars Data**:" ++ nl ++ nl ++ nasa_data])
    else
      let mars_knowledge := get_general_space_knowledge (lower query) in
      ret (app response ["🔴 **Mars Expert Analysis**:" ++ nl ++ nl ++ mars_knowledge])
  else if is_vector_db (i_data_source intent) then
    vector_results <- search_vector_db (db self) query 3 ;;
    match vector_results with
    | _ :: _ =>
        ret (app response
               (("📚 **From Specialized Knowledge Base**:" ++ nl ++ nl)
                :: map (fun ir : nat * fragment =>
                          let '(i, result) := ir in
                          "**" ++ str_of_nat i ++ ".** "
                            ++ ellipsis 300 (content result) ++ nl ++ nl)
                       (enumerate_from 1 (firstn 2 vector_results))))
    | [] =>
        ret (app response
               ["No specific information found in knowledge base. Providing general knowledge:" ++ nl ++ nl;
                get_general_space_knowledge (lower query)])
    end
  else
    let general_knowledge := get_general_space_knowledge (lower query) in
    ret (app response ["📖 **Space Knowledge**:" ++ nl ++ nl ++ general_knowledge]).

(** [IntelligentAstroGeo.process_query], as the list of its sections. *)
Definition process_query_sections (self : IntelligentAstroGeo) (query : string)
    (use_nasa_api : bool) : M (list string) :=
  if negb (PyStr.truthy (strip query)) then ret [welcome]
  else
    try_except
      (process_query_body self query use_nasa_api)
      catch_Exception
      (fun e => ret ["❌ Error processing query: " ++ e_msg e]).

(** [IntelligentAstroGeo.process_query] *)
Definition process_query (self : IntelligentAstroGeo) (query : string) (use_nasa_api : bool)
    : M string :=
  sections <- process_query_sections self query use_nasa_api ;;
  ret (render sections).

End RunAstrogeo.

(* ================================================================== *)
(** ** multi_agent_astrogeo.py: the agents, the router and the system *)
(* ================================================================== *)

Module MultiAgent.
Import PyStr Py PyLoop PyOps VectorDb.

(** The four agents that [IntelligentAstroGeoSystem.__init__] creates. *)
Inductive agent : Type :=
| ISROGeospatialAgent | NASALiveDataAgent | SpaceWeatherAgent | GeospatialAgent.

Definition name (a : agent) : string :=
  match a with
  | ISROGeospatialAgent => "ISRO Geospatial Expert"
  | NASALiveDataAgent => "NASA Live Data Specialist"
  | SpaceWeatherAgent => "Space Weather Monitor"
  | GeospatialAgent => "Geospatial Intelligence Expert"
  end.

Definition role (a : agent) : string :=
  match a with
  | ISROGeospatialAgent =>
      "Specialist in ISRO missions, Bhuvan platform, and Indian space technology"
  | NASALiveDataAgent => "Real-time NASA data access and analysis"
  | SpaceWeatherAgent => "Space weather analysis and Earth impact assessment"
  | GeospatialAgent => "Satellite imagery and Earth observation analysis"
  end.

(** [can_handle] of each agent. *)
Definition can_handle (a : agent) (query : string) : bool :=
  let query_lower := lower query in
  match a with
  | ISROGeospatialAgent =>
      any_in ["isro"; "bhuvan"; "saphir"; "ocm"; "chandrayaan"; "mangalyaan";
              "indian space"; "aryabhatta"] query_lower
  | NASALiveDataAgent =>
      any_in ["today"; "current"; "now"; "recent"; "live"; "latest"] query_lower
      && any_in ["nasa"; "apod"; "picture"; "mars rover"; "solar"; "asteroid"]
           query_lower
  | SpaceWeatherAgent =>
      any_in ["space weather"; "solar wind"; "geomagnetic"; "aurora";
              "solar storm"] query_lower
  | GeospatialAgent =>
      any_in ["satellite"; "imagery"; "remote sensing"; "gis";
              "earth observation"; "landsat"; "sentinel"] query_lower
  end.

(** The system: the API key and whether [_initialize_vector_db] gave a
    [VectorStore] ([None] otherwise). *)
Record IntelligentAstroGeoSystem : Type := MkSystem {
  NASA_API_KEY : string;
  vector_store : bool
}.

(** [VectorStore.search_vector_db]: no handler here. *)
Definition VectorStore_search_vector_db (query : string) (k : nat)
    : M (list fragment) :=
  encode query ;;;
  results <- collection_query query k ;;
  lift (scored_documents floor_03 results).

(** [IntelligentAstroGeoSystem.search_vector_db] *)
Definition search_vector_db (self : IntelligentAstroGeoSystem)
    (query : string) (k : nat) : M (list fragment) :=
  if vector_store self then VectorStore_search_vector_db query k
  else ret [].

(** *** [ISROGeospatialAgent] *)

Definition _get_fallback_knowledge (query : string) : string :=
  let query_lower := lower query in
  if contains "bhuvan" query_lower then
"🇮🇳 **ISRO Bhuvan Platform**:

**Bhuvan** is India's comprehensive geospatial platform providing:
• High-resolution satellite imagery of India and global locations
• Thematic mapping for agriculture, forestry, and urban planning
• Disaster management and emergency response capabilities
• APIs for developers and government services
• Mobile applications for citizen services

**Key Instruments**:
• **SAPHIR**: Atmospheric humidity profiling
• **OCM**: Ocean color monitoring for marine studies
• **Cartosat series**: High-resolution Earth imaging
• **ResourceSat**: Natural resource monitoring"
  else if contains "isro" query_lower then
"🇮🇳 **ISRO - Indian Space Research Organisation**:

**Established**: 1969, Headquarters: Bengaluru

**Major Achievements**:
• **Chandrayaan-3**: First successful lunar south pole landing (2023)
• **Mangalyaan**: Mars orbit mission for just $74 million
• **Record Launch**: 104 satellites in single mission (2017)
• **Aryabhatta**: India's first satellite (1975)

**Current Programs**:
• **Gaganyaan**: Human spaceflight mission
• **Aditya-L1**: Solar observation mission
• **Shukrayaan**: Planned Venus mission"
  else "Please specify which aspect of ISRO or Bhuvan you'd like to know about.".

(** [any(keyword in result['content'].lower() for result in results
         for keyword in ['isro', 'bhuvan', 'saphir', 'ocm'])] *)
Definition mentions_isro (results : list fragment) : bool :=
  existsb (fun result =>
             any_in ["isro"; "bhuvan"; "saphir"; "ocm"] (lower (content result)))
          results.

Definition ISRO_process (self : IntelligentAstroGeoSystem) (query : string)
    : M string :=
  results <- search_vector_db self query 5 ;;
  if negb (Nat.eqb (List.length results) 0) && mentions_isro results then
    let response :=
      fold_left
        (fun response ir =>
           let '(i, result) := ir in
           let content := ellipsis 250 (content result) in
           response ++ "**" ++ str_of_nat i ++ ".** " ++ content ++ nl ++ nl)
        (enumerate_from 1 (firstn 3 results))
        ("🇮🇳 **" ++ name ISROGeospatialAgent ++ " Analysis**:" ++ nl ++ nl) in
    if contains "bhuvan" (lower query) then
      ret (response ++ "**About Bhuvan**: India's geoportal developed by ISRO for satellite imagery and geospatial services, supporting applications in agriculture, disaster management, and urban planning.")
    else ret response
  else ret (_get_fallback_knowledge query).

(** *** [NASALiveDataAgent] *)

(** [flare_class[0] if flare_class else 'C'] *)
Definition flare_key (flare_class : json) : result json :=
  if truthy flare_class then index flare_class 0 else Ok (JStr "C").

(** [intensity_map.get(key, default)]: a list or a dict is no key. *)
Definition intensity_map_get (key : json) : result (string * string) :=
  match key with
  | JList _ => fail TypeError "unhashable type: 'list'"
  | JDict _ => fail TypeError "unhashable type: 'dict'"
  | JStr s =>
      if String.eqb s "X" then
        Ok ("🔥 **Major Solar Flare**",
            "Can affect satellites and create spectacular auroras!")
      else if String.eqb s "M" then
        Ok ("⚡ **Moderate Solar Flare**",
            "May cause minor radio disruptions and enhance auroras.")
      else if String.eqb s "C" then
        Ok ("✨ **Minor Solar Flare**",
            "Minimal Earth impact but scientifically interesting!")
      else Ok ("🌟 **Solar Activity**", "Energy release detected.")
  | _ => Ok ("🌟 **Solar Activity**", "Energy release detected.")
  end.

Definition _get_solar_activity (key : string) : M string :=
  response <- requests_get "https://api.nasa.gov/DONKI/FLR" [("api_key", key)] ;;
  lift (raise_for_status response) ;;;
  data <- lift (json_of response) ;;
  if negb (truthy data) then
    ret "☀️ **Solar Status**: The Sun is currently calm with no major flare activity - completely normal!"
  else
    flare <- lift (index data 0) ;;
    flare_class <- lift (get flare "classType" (JStr "Unknown")) ;;
    peak_time <- lift (get flare "peakTime" (JStr "Unknown")) ;;
    k <- lift (flare_key flare_class) ;;
    found <- lift (intensity_map_get k) ;;
    let '(intensity, impact) := found in
    ret ("☀️ **Live Solar Weather**:" ++ nl
           ++ intensity ++ " (Class " ++ py_str flare_class ++ ")" ++ nl
           ++ "**Peak Time**: " ++ py_str peak_time ++ nl
           ++ "**Impact**: " ++ impact ++ nl
           ++ "**Status**: Continuously monitored by NASA for space weather alerts.").

(** [x[:200] + "..."]: only a string can be extended by a string. *)
Definition cut_200 (x : json) : result json :=
  head <~ slice_to x 200 ;;
  match head with
  | JStr s => Ok (JStr (s ++ "..."))
  | _ => fail TypeError
           ("can only concatenate " ++ type_name head ++ " (not "
              ++ dquote ++ "str" ++ dquote ++ ") to " ++ type_name head)
  end.

Definition _get_apod (key : string) : M string :=
  response <- requests_get "https://api.nasa.gov/planetary/apod"
                [("api_key", key)] ;;
  lift (raise_for_status response) ;;;
  data <- lift (json_of response) ;;
  title <- lift (get data "title" (JStr "Unknown")) ;;
  raw <- lift (get data "explanation" (JStr "")) ;;
  n <- lift (len raw) ;;
  explanation <- (if Nat.ltb 200 n then lift (cut_200 raw) else ret raw) ;;
  url <- lift (get data "url" (JStr "")) ;;
  ret ("🌟 **Today's Space Highlight**: " ++ py_str title ++ nl
         ++ "**About**: " ++ py_str explanation ++ nl
         ++ "**View**: " ++ py_str url).

(** The body of the loop over [enumerate(photos[:2], 1)]. *)
Definition mars_photo (result : string) (ip : nat * json) : Py.result string :=
  let '(i, photo) := ip in
  earth_date <~ get photo "earth_date" JNull ;;
  cam <~ get photo "camera" (JDict []) ;;
  full_name <~ get cam "full_name" (JStr "Unknown") ;;
  img_src <~ get photo "img_src" (JStr "") ;;
  Ok (result ++ "**Photo " ++ str_of_nat i ++ "**: " ++ py_str earth_date
        ++ " - " ++ py_str full_name ++ nl ++ py_str img_src ++ nl ++ nl).

Definition _get_mars_photos (key : string) : M string :=
  response <- requests_get
                "https://api.nasa.gov/mars-photos/api/v1/rovers/curiosity/photos"
                [("sol", "1000"); ("api_key", key)] ;;
  lift (raise_for_status response) ;;;
  data <- lift (json_of response) ;;
  photos <- lift (get data "photos" (JList [])) ;;
  if negb (truthy photos) then
    ret "🔴 **Mars Update**: Curiosity is busy with science - no photos from this sol!"
  else
    head <- lift (slice_to photos 2) ;;
    ps <- lift (iter head) ;;
    lift (for_each (enumerate_from 1 ps) ("🔴 **Live from Mars**:" ++ nl)
                   mars_photo).

(** [sum(1 for asteroids in groups for asteroid in asteroids
          if asteroid.get('is_potentially_hazardous_asteroid'))] *)
Definition count_hazardous (groups : list json) : result nat :=
  for_each groups 0
    (fun acc asteroids =>
       l <~ iter asteroids ;;
       for_each l acc
         (fun acc asteroid =>
            flag <~ get asteroid "is_potentially_hazardous_asteroid" JNull ;;
            Ok (if truthy flag then acc + 1 else acc))).

Definition _get_asteroid_data (key : string) : M string :=
  response <- requests_get "https://api.nasa.gov/neo/rest/v1/feed"
                [("api_key", key)] ;;
  lift (raise_for_status response) ;;;
  data <- lift (json_of response) ;;
  neo <- lift (get data "near_earth_objects" (JDict [])) ;;
  groups <- lift (values neo) ;;
  total <- lift (RunAstrogeo.total_len groups) ;;
  neo' <- lift (get data "near_earth_objects" (JDict [])) ;;
  groups' <- lift (values neo') ;;
  hazardous <- lift (count_hazardous groups') ;;
  ret ("🌌 **Asteroid Watch**: Tracking " ++ str_of_nat total
         ++ " near-Earth objects" ++ nl
         ++ (if Nat.ltb 0 hazardous then "⚠️" else "✅")
         ++ " **Hazardous**: " ++ str_of_nat hazardous ++ " (closely monitored)" ++ nl
         ++ "🛡️ **Defense**: NASA's planetary defense systems active").

Definition NASA_process (self : IntelligentAstroGeoSystem) (query : string)
    : M string :=
  let query_lower := lower query in
  let response := "📡 **" ++ name NASALiveDataAgent ++ " Report**:" ++ nl ++ nl in
  try_except
    (if any_in ["solar"; "space weather"; "flare"; "sun"] query_lower then
       solar_data <- _get_solar_activity (NASA_API_KEY self) ;;
       ret (response ++ solar_data)
     else if any_in ["apod"; "picture"; "image"] query_lower
             && negb (contains "mars" query_lower) then
       apod_data <- _get_apod (NASA_API_KEY self) ;;
       ret (response ++ apod_data)
     else if contains "mars" query_lower
             && any_in ["rover"; "photo"; "image"] query_lower then
       mars_data <- _get_mars_photos (NASA_API_KEY self) ;;
       ret (response ++ mars_data)
     else if any_in ["asteroid"; "space rock"] query_lower then
       asteroid_data <- _get_asteroid_data (NASA_API_KEY self) ;;
       ret (response ++ asteroid_data)
     else
       ret (response ++ "I can provide live data on: Solar activity, NASA's daily space picture, Mars rover photos, or asteroid tracking. Please specify!"))
    catch_Exception
    (fun e => ret ("❌ Unable to fetch live NASA data: " ++ e_msg e)).

(** [process] of each agent. *)
Definition process (self : IntelligentAstroGeoSystem) (a : agent)
    (query : string) : M string :=
  match a with
  | ISROGeospatialAgent => ISRO_process self query
  | NASALiveDataAgent => NASA_process self query
  | SpaceWeatherAgent =>
      ret ("☀️ **" ++ name SpaceWeatherAgent
             ++ "**: Space weather analysis with solar activity monitoring, geomagnetic storm tracking, and satellite impact assessment.")
  | GeospatialAgent =>
      ret ("🛰️ **" ++ name GeospatialAgent
             ++ "**: Satellite imagery analysis, remote sensing data processing, and environmental monitoring using advanced GIS techniques.")
  end.

(** *** [QueryRouter] *)

Definition space_keywords : list string :=
  ["space"; "astronomy"; "planet"; "star"; "galaxy"; "nasa"; "isro"; "esa";
   "satellite"; "rocket"; "mars"; "moon"; "sun"; "solar"; "asteroid";
   "comet"; "telescope"; "rover"; "spacecraft"; "orbit"; "mission";
   "apollo"; "chandrayaan"; "bhuvan"; "saphir"; "ocm"; "cosmic";
   "universe"; "celestial"; "nebula"; "meteor"; "spacex"; "apod"].

Definition is_space_query (query : string) : bool :=
  any_in space_keywords (lower query).

Definition identify_non_space_domain (query : string) : string :=
  let query_lower := lower query in
  if any_in ["weather in"; "temperature in"; "climate in"] query_lower
  then "weather/climate"
  else if any_in ["news"; "current events"] query_lower then "news"
  else if any_in ["movie"; "film"; "entertainment"] query_lower
  then "entertainment"
  else if any_in ["food"; "restaurant"; "recipe"] query_lower then "food/dining"
  else if any_in ["travel"; "hotel"; "flight"] query_lower then "travel"
  else "general information".

(** The dict that [route_query] returns. *)
Record routing : Type := Routing {
  r_agent : option agent;
  r_message : option string;
  r_suggestions : list string
}.

(** The message for a query that is not about space. *)
Definition redirect_message (query : string) : string :=
  "🤖 I'm AstroGeo, specialized in space and astronomy topics. Your query appears to be about "
    ++ identify_non_space_domain query
    ++ ". Please ask me about space agencies, planets, satellites, missions, or astronomical phenomena!".

Definition redirect_suggestions : list string :=
  ["What's today's NASA picture?"; "Tell me about ISRO missions";
   "Current solar activity"; "Mars exploration updates"].

(** [QueryRouter.route_query] *)
Definition route_query (query : string) (agents : list agent) : routing :=
  if negb (is_space_query query) then
    Routing None (Some (redirect_message query)) redirect_suggestions
  else
    match find (fun a => can_handle a query) agents with
    | Some a => Routing (Some a) None []
    | None =>
        Routing None
          (Some "🌌 I can help with space topics! Try asking about specific space agencies (NASA, ISRO), planets, missions, or current space events.")
          ["What is the International Space Station?";
           "Tell me about Mars rovers"; "ISRO's recent achievements";
           "Current space missions"]
    end.

(** *** [IntelligentAstroGeoSystem.process_query] *)

Definition agents : list agent :=
  [ISROGeospatialAgent; NASALiveDataAgent; SpaceWeatherAgent; GeospatialAgent].

Definition welcome : string :=
"🤖 **Welcome to AstroGeo!**

I'm your intelligent space assistant with specialized agents for:
• 🇮🇳 **ISRO & Bhuvan**: Indian space missions and geospatial data
• 📡 **NASA Live Data**: Real-time space information
• ☀️ **Space Weather**: Solar activity and space environment
• 🛰️ **Geospatial Intelligence**: Satellite imagery and Earth observation

Ask me anything about space, astronomy, or space agencies!".

Definition render (sections : list string) : string := String.concat "" sections.

(** [response += routing_result['message']]: a message that is [None]
    cannot be added to a string. *)
Definition message_text (m : option string) : result string :=
  match m with
  | Some s => Ok s
  | None => fail TypeError
              ("can only concatenate str (not " ++ dquote ++ "NoneType"
                 ++ dquote ++ ") to str")
  end.

(** The [try] block of [process_query]; the response is kept as the
    list of the pieces that [response += ...] adds, and the
    [progress(...)] calls, which only drive the progress bar, are left
    out. *)
Definition process_query_body (self : IntelligentAstroGeoSystem)
    (query : string) (use_nasa_api : bool) : M (list string) :=
  emit (EvClassify query) ;;;
  let routing_result := route_query query agents in
  let response :=
    ["🧠 **AstroGeo Multi-Agent Analysis**" ++ nl ++ nl;
     "**Your Query**: " ++ query ++ nl ++ nl] in
  match r_agent routing_result with
  | None =>
      message <- lift (message_text (r_message routing_result)) ;;
      let response := app response [message] in
      match r_suggestions routing_result with
      | _ :: _ =>
          ret (app response
                 ((nl ++ nl ++ "**🎯 Try these space topics instead:**" ++ nl)
                  :: map (fun suggestion => "• " ++ suggestion ++ nl)
                       (r_suggestions routing_result)))
      | [] => ret response
      end
  | Some agent =>
      let response :=
        app response
          ["**Assigned Agent**: " ++ name agent ++ nl;
           "**Agent Role**: " ++ role agent ++ nl ++ nl] in
      agent_response <- process self agent query ;;
      ret (app response [agent_response])
  end.

(** [IntelligentAstroGeoSystem.process_query], as the list of its
    sections. *)
Definition process_query_sections (self : IntelligentAstroGeoSystem)
    (query : string) (use_nasa_api : bool) : M (list string) :=
  if negb (PyStr.truthy (strip query)) then ret [welcome]
  else
    try_except
      (process_query_body self query use_nasa_api)
      catch_Exception
      (fun e => ret ["❌ System Error: " ++ e_msg e ++ nl ++ nl
                       ++ "Please try rephrasing your space-related query!"]).

(** [IntelligentAstroGeoSystem.process_query] *)
Definition process_query (self : IntelligentAstroGeoSystem) (query : string)
    (use_nasa_api : bool) : M string :=
  sections <- process_query_sections self query use_nasa_api ;;
  ret (render sections).

End MultiAgent.

(* ================================================================== *)
(** ** final_astrogeo_app.py: [FinalAstroGeoApp] *)
(* ================================================================== *)

Module FinalApp.
Import PyStr Py PyLoop PyOps VectorDb.

(** The application after [initialize_components]: the handles, whether
    a crew was created, and the module-level flag [CREWAI_AVAILABLE]. *)
Record FinalAstroGeoApp : Type := MkFinal {
  db : handles;
  crew : bool;
  CREWAI_AVAILABLE : bool
}.

(** [FinalAstroGeoApp.search_vector_db] *)
Definition search_vector_db (self : FinalAstroGeoApp) (query : string) (k : nat)
    : M (list fragment) :=
  try_except
    (if negb (collection (db self)) then ret []
     else
       results <- encode_and_query (db self) query k ;;
       lift (scored_documents floor_02 results))
    catch_Exception
    (fun e => ret []).

(** The value of ['achievements']: a list for ISRO, a text for NASA. *)
Inductive achievements : Type :=
| AchList (l : list string)
| AchText (s : string).

(** One entry of the knowledge dict, with the keys it may have. *)
Record info : Type := Info {
  overview : option string;
  achieved : option achievements;
  current_missions : option (list string);
  facts : option (list string);
  upcoming : option string;
  exploration : option string
}.

(** [FinalAstroGeoApp.get_space_knowledge] *)
Definition get_space_knowledge (query_lower : string) : list (string * info) :=
  app
    (if contains "nasa" query_lower then
       [("nasa",
         Info (Some "NASA (National Aeronautics and Space Administration) - Leading space agency since 1958")
              (Some (AchText "Apollo Moon landings, Space Shuttle, ISS, Mars rovers, Hubble telescope"))
              (Some ["Artemis Program - Return humans to Moon by 2026";
                     "Mars Sample Return - Bringing Mars rocks to Earth";
                     "James Webb Space Telescope - Revolutionary space observations";
                     "Parker Solar Probe - Touching the Sun's corona";
                     "Europa Clipper - Studying Jupiter's icy moon"])
              None None None)]
     else [])
    (app
       (if contains "isro" query_lower then
          [("isro",
            Info (Some "ISRO - Indian Space Research Organisation, cost-effective space missions since 1969")
                 (Some (AchList
                          ["Chandrayaan-3 - Successful lunar south pole landing (2023)";
                           "Mangalyaan - Mars mission for just $74 million";
                           "Record 104 satellites in single launch";
                           "Aryabhatta - First Indian satellite (1975)"]))
                 None None
                 (Some "Gaganyaan human spaceflight, Shukrayaan Venus mission, Chandrayaan-4")
                 None)]
        else [])
       (if contains "mars" query_lower then
          [("mars",
            Info None None None
                 (Some ["Fourth planet from Sun, known as Red Planet";
                        "Day: 24h 37m, Year: 687 Earth days";
                        "Two moons: Phobos and Deimos";
                        "Evidence of ancient water and possible life"])
                 None
                 (Some "Multiple rovers active: Perseverance, Curiosity, plus orbiters from various nations"))]
        else [])).

(** [FinalAstroGeoApp.analyze_with_crewai] *)
Definition analyze_with_crewai (self : FinalAstroGeoApp) (query : string)
    (query_type : string) : M (option string) :=
  if negb (CREWAI_AVAILABLE self) || negb (crew self) then ret None
  else
    try_except
      (result <- crew_kickoff query ;; ret (Some result))
      catch_Exception
      (fun e => ret None).

Definition bullets (l : list string) : list string :=
  map (fun x => "• " ++ x ++ nl) l.

(** The pieces one topic adds to the response. *)
Definition topic_sections (entry : string * info) : list string :=
  let '(topic, info) := entry in
  app ["### " ++ upper topic ++ nl ++ nl]
  (app (match overview info with
        | Some o => ["**Overview**: " ++ o ++ nl ++ nl]
        | None => []
        end)
  (app (match achieved info with
        | Some (AchList l) => app (("**Key Achievements**:" ++ nl) :: bullets l) [nl]
        | Some (AchText s) => ["**Key Achievements**:" ++ nl; "• " ++ s ++ nl; nl]
        | None => []
        end)
  (app (match current_missions info with
        | Some l => app (("**Current Missions**:" ++ nl) :: bullets l) [nl]
        | None => []
        end)
       (match facts info with
        | Some l => app (("**Key Facts**:" ++ nl) :: bullets l) [nl]
        | None => []
        end)))).

Definition welcome : string := "Please enter a query about space or astronomy.".

Definition render (sections : list string) : string := String.concat "" sections.

(** The [try] block of [analyze_space_query]; the [progress(...)] calls
    are left out. *)
Definition analyze_space_query_body (self : FinalAstroGeoApp) (query : string)
    (query_type : string) (use_nasa_agents : bool) : M (list string) :=
  let query_lower := lower query in
  timestamp <- now ;;
  let response :=
    ["🚀 **AstroGeo Advanced Analysis**" ++ nl ++ nl;
     "**Query**: " ++ query ++ nl;
     "**Type**: " ++ title query_type ++ nl;
     "**Analysis Mode**: "
       ++ (if use_nasa_agents then "NASA AI Agents" else "Knowledge Base") ++ nl;
     "**Timestamp**: " ++ timestamp ++ nl ++ nl] in
  response <-
    (if use_nasa_agents && CREWAI_AVAILABLE self then
       crewai_result <- analyze_with_crewai self query query_type ;;
       match crewai_result with
       | Some (String _ _ as text) =>
           ret (app response
                  ["## 🤖 **NASA AI Agents Analysis**" ++ nl ++ nl;
                   text ++ nl ++ nl])
       | _ => ret response
       end
     else ret response) ;;
  context_docs <- search_vector_db self query 3 ;;
  let response :=
    match context_docs with
    | _ :: _ =>
        app response
          (("## 📚 **Knowledge Base Context**" ++ nl ++ nl)
           :: map (fun id : nat * fragment =>
                     let '(i, doc) := id in
                     "**" ++ str_of_nat i ++ ".** "
                       ++ take 300 (strip (content doc)) ++ "..." ++ nl ++ nl)
                  (enumerate_from 1 (firstn 2 context_docs)))
    | [] => response
    end in
  let space_knowledge := get_space_knowledge query_lower in
  let response :=
    match space_knowledge with
    | _ :: _ =>
        app response
          (("## 🌟 **Comprehensive Space Knowledge**" ++ nl ++ nl)
           :: flat_map topic_sections space_knowledge)
    | [] => response
    end in
  ret (app response
         ["## ✅ **Analysis Summary**" ++ nl ++ nl;
          "**Vector DB**: " ++ str_of_nat (List.length context_docs)
            ++ " relevant documents found" ++ nl;
          "**NASA Integration**: "
            ++ (if use_nasa_agents && CREWAI_AVAILABLE self
                then "Active with live API data" else "Knowledge base mode") ++ nl;
          "**Coverage**: Comprehensive multi-source analysis" ++ nl]).

(** [FinalAstroGeoApp.analyze_space_query], as the list of its sections. *)
Definition analyze_space_query_sections (self : FinalAstroGeoApp)
    (query : string) (query_type : string) (use_nasa_agents : bool)
    : M (list string) :=
  if negb (PyStr.truthy (strip query)) then ret [welcome]
  else
    try_except
      (analyze_space_query_body self query query_type use_nasa_agents)
      catch_Exception
      (fun e => ret ["❌ Analysis Error: " ++ e_msg e ++ nl ++ nl
                       ++ "Please try a different query or check system configuration."]).

(** [FinalAstroGeoApp.analyze_space_query] *)
Definition analyze_space_query (self : FinalAstroGeoApp) (query : string)
    (query_type : string) (use_nasa_agents : bool) : M string :=
  sections <- analyze_space_query_sections self query query_type
                use_nasa_agents ;;
  ret (render sections).

End FinalApp.

(* ================================================================== *)
(** ** Vocabulary of the statements *)
(* ================================================================== *)

Module Facts.
Import PyStr Py VectorDb.

(** The calls that leave the process: the retriever (encoding and index
    query) and the providers (HTTP, the crew). *)
Definition outside_call (ev : event) : bool :=
  match ev with
  | EvHttp _ _ | EvEncode _ | EvQuery _ _ | EvCrew _ => true
  | EvClassify _ => false
  end.

Definition above (floor : float) (fr : fragment) : Prop :=
  PrimFloat.ltb floor (score fr) = true.

(** A world in which nothing outside answers: every request fails to
    connect and the index raises. *)
Definition offline : World := {|
  w_http := fun _ _ _ => HttpFail ConnectionError "Connection refused";
  w_encode := fun _ _ => None;
  w_query := fun _ _ _ => Raise (Exn OtherError "index unavailable");
  w_crew := fun _ _ => Raise (Exn OtherError "crew unavailable");
  w_now := "2024-01-01 00:00:00"
|}.

(** A world whose encoder raises. *)
Definition no_encoder : World := {|
  w_http := w_http offline;
  w_encode := fun _ _ => Some (Exn OtherError "model not loaded");
  w_query := w_query offline;
  w_crew := w_crew offline;
  w_now := w_now offline
|}.

(** A world in which every request gets the same answer. *)
Definition answering (o : http_outcome) : World := {|
  w_http := fun _ _ _ => o;
  w_encode := w_encode offline;
  w_query := w_query offline;
  w_crew := w_crew offline;
  w_now := w_now offline
|}.

(** The five provider tools under one name, each with its arguments. *)
Inductive tool : Type :=
| Apod (api_key : string)
| MarsRover (api_key : string) (sol : Z)
| Asteroid (api_key : string)
| SolarActivity (api_key : string)
| Bhuvan (endpoint : string) (ps : option params).

Definition run_tool (tl : tool) : M string :=
  match tl with
  | Apod key => NasaApi.NasaApodTool_run key
  | MarsRover key sol => NasaApi.NasaMarsRoverTool_run key sol
  | Asteroid key => NasaApi.NasaAsteroidTool_run key
  | SolarActivity key => NasaApi.NasaSolarActivityTool_run key
  | Bhuvan endpoint ps => BhuvanApi.BhuvanApiTool_run endpoint ps
  end.

(** The one request a tool sends. *)
Definition request_of (tl : tool) : event :=
  match tl with
  | Apod key => EvHttp "https://api.nasa.gov/planetary/apod" [("api_key", key)]
  | MarsRover key sol =>
      EvHttp "https://api.nasa.gov/mars-photos/api/v1/rovers/curiosity/photos"
             [("sol", str_of_Z sol); ("api_key", key)]
  | Asteroid key => EvHttp "https://api.nasa.gov/neo/rest/v1/feed" [("api_key", key)]
  | SolarActivity key => EvHttp "https://api.nasa.gov/DONKI/FLR" [("api_key", key)]
  | Bhuvan endpoint ps =>
      EvHttp (BhuvanApi.base_url ++ "/" ++ lstrip_char "/"%char endpoint)
             (match ps with None => [] | Some d => d end)
  end.

Definition answer (w : World) (t : trace) (tl : tool) : http_outcome :=
  match request_of tl with
  | EvHttp url ps => w_http w t url ps
  | _ => HttpFail OtherRequestError ""
  end.

(** How a tool's failure text starts. *)
Definition failure_prefix (tl : tool) : string :=
  match tl with
  | Apod _ => "Error fetching APOD: "
  | MarsRover _ _ => "Error fetching Mars photos: "
  | Asteroid _ => "Error fetching asteroid data: "
  | SolarActivity _ => "Error fetching solar activity: "
  | Bhuvan endpoint _ => "Bhuvan API request failed for " ++ endpoint ++ ": "
  end.


(** The statuses [raise_for_status] raises for, and the 2xx ones. *)
Definition error_status (r : response) : bool :=
  Nat.leb 400 (status_code r) && Nat.ltb (status_code r) 600.


Definition server_error : response :=
  Response 500 "" None "500 Server Error: Internal Server Error"
    "Expecting value: line 1 column 1 (char 0)".

(** What [route_query] returns for a query that is not about space. *)
Definition off_topic (query : string) : MultiAgent.routing :=
  MultiAgent.Routing None (Some (MultiAgent.redirect_message query))
    MultiAgent.redirect_suggestions.

(** The response to such a query: the two heading lines, the redirect
    message, and the suggested topics. *)
Definition redirect_response (query : string) : list string :=
  ["🧠 **AstroGeo Multi-Agent Analysis**" ++ PyLoop.nl ++ PyLoop.nl;
   "**Your Query**: " ++ query ++ PyLoop.nl ++ PyLoop.nl;
   MultiAgent.redirect_message query;
   PyLoop.nl ++ PyLoop.nl ++ "**🎯 Try these space topics instead:**" ++ PyLoop.nl;
   "• What's today's NASA picture?" ++ PyLoop.nl;
   "• Tell me about ISRO missions" ++ PyLoop.nl;
   "• Current solar activity" ++ PyLoop.nl;
   "• Mars exploration updates" ++ PyLoop.nl].

(** *** The intent classifiers as rule tables *)

(** run_astrogeo.py: the intents in the order in which
    [analyze_query_intent] tests them. *)
Definition intent_order : list RunAstrogeo.agent :=
  [RunAstrogeo.isro_geospatial; RunAstrogeo.nasa_live;
   RunAstrogeo.space_weather; RunAstrogeo.asteroid_tracker;
   RunAstrogeo.mars_expert; RunAstrogeo.space_agency_expert;
   RunAstrogeo.geospatial_expert; RunAstrogeo.general_space].

(** The whole condition of an intent's branch: a keyword of its list
    occurs and, for three of them, a second condition holds. *)
Definition rule (a : RunAstrogeo.agent) (query_lower : string) : bool :=
  match a with
  | RunAstrogeo.nasa_live =>
      any_in (RunAstrogeo.keywords a) query_lower
      && negb (any_in ["solar"; "mars"] query_lower)
  | RunAstrogeo.space_weather =>
      any_in (RunAstrogeo.keywords a) query_lower
      && contains "solar" query_lower
  | RunAstrogeo.space_agency_expert =>
      any_in (RunAstrogeo.keywords a) query_lower
      && negb (any_in ["picture"; "today"; "current"] query_lower)
  | RunAstrogeo.general_space => true
  | _ => any_in (RunAstrogeo.keywords a) query_lower
  end.

(** An intent is a keyword match of a query when one of its keywords
    occurs in the lowercased query. *)
Definition keyword_match (a : RunAstrogeo.agent) (query : string) : bool :=
  any_in (RunAstrogeo.keywords a) (lower query).

(** The intents a classification returns: the one of the dict. *)
Definition intents_of (query : string) : list RunAstrogeo.agent :=
  [RunAstrogeo.i_agent (RunAstrogeo.analyze_query_intent query)].

(** frontend/gradio_app.py: the keyword lists with their tasks, in the
    order of the tests. *)
Definition task_rules : list (list string * GradioApp.task) :=
  [(GradioApp.weather_terms, GradioApp.geospatial_analysis);
   (GradioApp.nasa_terms, GradioApp.astronomical_analysis);
   (GradioApp.isro_terms, GradioApp.data_harvesting)].

(** *** The geocoding validator *)

(** [location_clean], the two requests of the validator and what the
    world answers to them. *)
Definition clean (cand : string) : string := sub_ws_space (strip cand).

Definition direct_params (key cand : string) : params :=
  [("q", clean cand); ("limit", "3"); ("appid", key)].
Definition india_params (key cand : string) : params :=
  [("q", clean cand ++ ", India"); ("limit", "2"); ("appid", key)].

Definition direct_request (key cand : string) : event :=
  EvHttp WeatherApi.geo_url (direct_params key cand).
Definition india_request (key cand : string) : event :=
  EvHttp WeatherApi.geo_url (india_params key cand).

Definition direct_answer (w : World) (t : trace) (key cand : string)
    : http_outcome :=
  w_http w t WeatherApi.geo_url (direct_params key cand).
Definition india_answer (w : World) (t : trace) (key cand : string)
    : http_outcome :=
  w_http w (t ++ [direct_request key cand])%list WeatherApi.geo_url
    (india_params key cand).

(** The direct lookup came back without an error status and decoded to
    [locations]. *)
Definition direct_gives (w : World) (t : trace) (key cand : string)
    (locations : json) : Prop :=
  exists r, direct_answer w t key cand = HttpResp r
            /\ error_status r = false
            /\ resp_json r = Some locations.

(** The first entry of a non-empty lookup result, with its name. *)
Definition first_name (locations : json) (n : json) : Prop :=
  truthy locations = true
  /\ exists best, index locations 0 = Ok best /\ item best "name" = Ok n.

(** [s] is the resolved form of a direct hit: the name and the country
    code of the first entry, joined by a comma. *)
Definition direct_hit (w : World) (t : trace) (key cand : string) (s : string)
    : Prop :=
  exists locations best n c,
    direct_gives w t key cand locations
    /\ truthy locations = true
    /\ index locations 0 = Ok best
    /\ item best "name" = Ok n
    /\ item best "country" = Ok c
    /\ s = py_str n ++ "," ++ py_str c.

(** The retry came back with status 200 and decoded to [locations]. *)
Definition india_gives (w : World) (t : trace) (key cand : string)
    (locations : json) : Prop :=
  exists r, india_answer w t key cand = HttpResp r
            /\ status_code r = 200
            /\ resp_json r = Some locations.

(** [s] is the resolved form of a hit of the retry: the name of the
    first entry and the country code IN. *)
Definition india_hit (w : World) (t : trace) (key cand : string) (s : string)
    : Prop :=
  exists locations locations_india n,
    direct_gives w t key cand locations
    /\ truthy locations = false
    /\ contains "," cand = false
    /\ india_gives w t key cand locations_india
    /\ first_name locations_india n
    /\ s = py_str n ++ ",IN".

(** No candidate of a list validates: each validation, run after the
    ones before it, gives [None]; [t'] is the trace at the end. *)
Fixpoint none_validates (key : string) (w : World) (cands : list string)
    (t t' : trace) : Prop :=
  match cands with
  | [] => t' = t
  | c :: r =>
      exists t1,
        WeatherApi._validate_location_with_geocoding_api key c w t = (Ok None, t1)
        /\ none_validates key w r t1 t'
  end.

(** The outcome of the steps that follow a hit, direct or by the retry. *)
Definition direct_result (locations : json) : option string :=
  match index locations 0 with
  | Ok best =>
      match item best "name", item best "country" with
      | Ok n, Ok c =>
          Some (if WeatherApi.is_str c "IN" then py_str n ++ ",IN"
                else py_str n ++ "," ++ py_str c)
      | _, _ => None
      end
  | Raise _ => None
  end.

Definition india_result (r : response) : option string :=
  if Nat.eqb (status_code r) 200 then
    match resp_json r with
    | Some locations =>
        if truthy locations then
          match index locations 0 with
          | Ok first =>
              match item first "name" with
              | Ok n => Some (py_str n ++ ",IN")
              | Raise _ => None
              end
          | Raise _ => None
          end
        else None
    | None => None
    end
  else None.

(** A geocoder that knows the places of a list: asked for one of the
    listed texts it answers with one entry, the name and the country
    code listed for it; asked for anything else it answers with the
    empty list. *)
Definition geocoder_answer (known : list (string * (string * string)))
    (ps : params) : http_outcome :=
  match find (fun kv => String.eqb (fst kv) "q") ps with
  | Some (_, q) =>
      match find (fun e => String.eqb (fst e) q) known with
      | Some (_, (n, c)) =>
          HttpResp (Response 200 "" (Some (JList [JDict [("name", JStr n);
                                                        ("country", JStr c)]])) "" "")
      | None => HttpResp (Response 200 "[]" (Some (JList [])) "" "")
      end
  | None => HttpResp (Response 400 "" None "400 Client Error: Bad Request"
                        "Expecting value: line 1 column 1 (char 0)")
  end.

Definition geocoder (known : list (string * (string * string))) : World := {|
  w_http := fun _ _ ps => geocoder_answer known ps;
  w_encode := w_encode offline;
  w_query := w_query offline;
  w_crew := w_crew offline;
  w_now := w_now offline
|}.

End Facts.

(* ================================================================== *)
(** ** Python numbers *)
(* ================================================================== *)

Module Num.
Import PyStr Py.

(** The numbers a payload holds: an [int], or a [float]. *)
Inductive num : Type :=
| NInt (z : Z)
| NFloat (f : float).

(** The float nearest to an integer (ties to even), infinite when the
    integer is out of range. *)
Definition float_of_Z (z : Z) : float :=
  FloatOps.SF2Prim
    (SpecFloat.binary_normalize FloatOps.prec FloatOps.emax z 0 false).

(** [float(z)], which raises [OverflowError] (kept here under
    [OtherError]) for an integer out of range. *)
Definition to_float (z : Z) : result float :=
  let f := float_of_Z z in
  if PrimFloat.is_infinity f
  then fail OtherError "int too large to convert to float"
  else Ok f.

(** A payload value as a number; [True] and [False] count as 1 and 0. *)
Definition of_json (v : json) : option num :=
  match v with
  | JInt z => Some (NInt z)
  | JFloat f _ => Some (NFloat f)
  | JBool b => Some (NInt (if b then 1 else 0))
  | _ => None
  end.

(** [x + y] *)
Definition add (x y : num) : result num :=
  match x, y with
  | NInt a, NInt b => Ok (NInt (a + b))
  | NInt a, NFloat g => f <~ to_float a ;; Ok (NFloat (PrimFloat.add f g))
  | NFloat f, NInt b => g <~ to_float b ;; Ok (NFloat (PrimFloat.add f g))
  | NFloat f, NFloat g => Ok (NFloat (PrimFloat.add f g))
  end.

(** [x > c], [x < c], [x >= c] for an integer literal [c] of the code
    (all of them small enough to be floats exactly). *)
Definition gt_lit (x : num) (c : Z) : bool :=
  match x with
  | NInt a => Z.ltb c a
  | NFloat f => PrimFloat.ltb (float_of_Z c) f
  end.
Definition lt_lit (x : num) (c : Z) : bool :=
  match x with
  | NInt a => Z.ltb a c
  | NFloat f => PrimFloat.ltb f (float_of_Z c)
  end.
Definition ge_lit (x : num) (c : Z) : bool :=
  match x with
  | NInt a => Z.leb c a
  | NFloat f => PrimFloat.leb (float_of_Z c) f
  end.

Definition not_ordered {A : Type} (op : string) (v : json) : result A :=
  fail TypeError
    ("'" ++ op ++ "' not supported between instances of '" ++ type_name v
       ++ "' and 'int'").

(** The same comparisons on a payload value: only numbers compare with
    an [int]. *)
Definition gt (v : json) (c : Z) : result bool :=
  match of_json v with Some x => Ok (gt_lit x c) | None => not_ordered ">" v end.
Definition lt (v : json) (c : Z) : result bool :=
  match of_json v with Some x => Ok (lt_lit x c) | None => not_ordered "<" v end.
Definition ge (v : json) (c : Z) : result bool :=
  match of_json v with Some x => Ok (ge_lit x c) | None => not_ordered ">=" v end.

(** [acc + v] for a payload value [v]. *)
Definition add_json (acc : num) (v : json) : result num :=
  match of_json v with
  | Some y => add acc y
  | None => fail TypeError
              ("unsupported operand type(s) for +: '"
                 ++ match acc with NInt _ => "int" | NFloat _ => "float" end
                 ++ "' and '" ++ type_name v ++ "'")
  end.

End Num.

(* ================================================================== *)
(** ** tools/weather_api.py: the weather and air-quality tools *)
(* ================================================================== *)

Module WeatherTools.
Import PyStr Py PyLoop PyOps Num.

(** The double quote. *)
Definition dq : string := String "034"%char EmptyString.

(** [v.title()] on a payload value. *)
Definition title_of (v : json) : result string :=
  match v with JStr s => Ok (title s) | _ => no_attr v "title" end.

(** How [requests] writes one entry of [params]: a [None] value is left
    out, a string goes as it is, a list gives one entry per element (a
    [None] element is left out), a dict gives one entry per key, and
    any other value goes as [str] prints it. *)
Definition param_element (x : json) : list string :=
  match x with
  | JNull => []
  | JStr s => [s]
  | JList l => map py_str l
  | JDict items => map fst items
  | _ => [py_str x]
  end.
Definition param_values (v : json) : list string :=
  match v with
  | JNull => []
  | JStr s => [s]
  | JList l => flat_map param_element l
  | JDict items => map fst items
  | _ => [py_str v]
  end.
Definition param (k : string) (v : json) : params :=
  map (fun s => (k, s)) (param_values v).

Section Formatting.

(** [format(x, '.1f')] on a float: printing a float in decimal is taken
    as given. *)
Variable format_1f : float -> string.

(** [f"{x:.1f}"] on a number. *)
Definition fmt_1f (x : num) : result string :=
  match x with
  | NInt z => f <~ to_float z ;; Ok (format_1f f)
  | NFloat f => Ok (format_1f f)
  end.

(** *** [IntelligentWeatherTool] *)

(** The temperature point of [_generate_weather_analysis]. *)
Definition temperature_point (temp : json) : result string :=
  hot <~ gt temp 40 ;;
  if hot then Ok "ğŸ”¥ Extreme heat conditions - Heat emergency protocols recommended"
  else
    warm <~ gt temp 35 ;;
    if warm then Ok "ğŸŒ¡ï¸ High temperature stress - Infrastructure cooling demands increased"
    else
      freezing <~ lt temp 0 ;;
      if freezing then Ok "â„ï¸ Freezing conditions - Infrastructure protection required"
      else
        cold <~ lt temp 5 ;;
        if cold then Ok "ğŸ§¥ Cold weather impacts - Heating systems under load"
        else Ok "âœ… Temperature within normal operational range".

Definition humidity_points (humidity : json) : result (list string) :=
  high <~ gt humidity 85 ;;
  if high then Ok ["ğŸ’§ Very high humidity - Mold risk, comfort degradation"]
  else
    low <~ lt humidity 30 ;;
    if low then Ok ["ğŸœï¸ Low humidity - Fire risk, respiratory issues possible"]
    else Ok [].

Definition wind_points (wind_speed : json) : result (list string) :=
  high <~ gt wind_speed 15 ;;
  if high then Ok ["ğŸ’¨ High wind conditions - Transport disruption likely"]
  else
    moderate <~ gt wind_speed 10 ;;
    if moderate then Ok ["ğŸŒ¬ï¸ Moderate winds - Outdoor activity caution advised"]
    else Ok [].

Definition rain_points (rainfall : num) : list string :=
  if gt_lit rainfall 75 then ["ğŸŒŠ Heavy rainfall forecast - Flood risk assessment required"]
  else if gt_lit rainfall 25 then ["ğŸŒ§ï¸ Significant precipitation - Monitor drainage systems"]
  else if gt_lit rainfall 5 then ["â˜” Light to moderate rain - Normal precautions sufficient"]
  else [].

(** The list [analysis_points] at the end of
    [_generate_weather_analysis]. *)
Definition analysis_points (temp humidity wind_speed : json) (rainfall : num)
    : result (list string) :=
  t <~ temperature_point temp ;;
  h <~ humidity_points humidity ;;
  w <~ wind_points wind_speed ;;
  Ok (t :: app h (app w (rain_points rainfall))).

(** [IntelligentWeatherTool._generate_weather_analysis]; the country is
    not used. *)
Definition _generate_weather_analysis (temp humidity wind_speed : json)
    (rainfall : num) (country : json) : result string :=
  points <~ analysis_points temp humidity wind_speed rainfall ;;
  Ok (join nl (map (fun point => "â€¢ " ++ point) points)).

(** [item.get("rain", {}).get("3h", 0)] *)
Definition rain_3h (item : json) : result json :=
  rain <~ get item "rain" (JDict []) ;;
  get rain "3h" (JInt 0).

(** [sum(item.get("rain", {}).get("3h", 0)
         for item in forecast_data["list"][:16])] *)
Definition total_rainfall (forecast_data : json) : result num :=
  l <~ item forecast_data "list" ;;
  head <~ slice_to l 16 ;;
  items <~ iter head ;;
  for_each items (NInt 0)
    (fun acc it => v <~ rain_3h it ;; add_json acc v).

(** [_get_comprehensive_weather_data] from "# Extract data" to the
    [return]. *)
Definition weather_report (current_data forecast_data : json) : result string :=
  city_name <~ item current_data "name" ;;
  sys <~ item current_data "sys" ;;
  country <~ item sys "country" ;;
  main <~ item current_data "main" ;;
  temp <~ item main "temp" ;;
  feels_like <~ item main "feels_like" ;;
  humidity <~ item main "humidity" ;;
  pressure <~ item main "pressure" ;;
  weather <~ item current_data "weather" ;;
  weather0 <~ index weather 0 ;;
  description <~ item weather0 "description" ;;
  wind <~ item current_data "wind" ;;
  wind_speed <~ item wind "speed" ;;
  rainfall <~ total_rainfall forecast_data ;;
  analysis <~ _generate_weather_analysis temp humidity wind_speed rainfall country ;;
  description_title <~ title_of description ;;
  rainfall_text <~ fmt_1f rainfall ;;
  Ok ("ğŸŒ **INTELLIGENT WEATHER ANALYSIS**

ğŸ“ **Location Confirmed**: " ++ py_str city_name ++ ", " ++ py_str country
        ++ "
ğŸŒ¡ï¸ **Current Conditions**: " ++ py_str temp ++ "Â°C (feels like " ++ py_str feels_like
        ++ "Â°C), " ++ description_title
        ++ "
ğŸ’§ **Atmospheric Data**: Humidity " ++ py_str humidity ++ "%, Pressure " ++ py_str pressure
        ++ " hPa
ğŸ’¨ **Wind Conditions**: " ++ py_str wind_speed
        ++ " m/s
ğŸŒ§ï¸ **48h Rainfall Forecast**: " ++ rainfall_text
        ++ "mm

ğŸ“Š **PROFESSIONAL ANALYSIS**:
" ++ analysis
        ++ "

âœ… **Intelligence Confidence**: Location validated and confirmed
ğŸ“¡ **Data Source**: OpenWeatherMap API - Real-time meteorological data").

Definition current_url : string := "https://api.openweathermap.org/data/2.5/weather".
Definition forecast_url : string := "https://api.openweathermap.org/data/2.5/forecast".

Definition weather_params (api_key location : string) : params :=
  [("q", location); ("appid", api_key); ("units", "metric")].

(** [IntelligentWeatherTool._get_comprehensive_weather_data] *)
Definition _get_comprehensive_weather_data (api_key location : string)
    : M string :=
  try_except
    (current_response <- requests_get current_url
                           (weather_params api_key location) ;;
     lift (raise_for_status current_response) ;;;
     current_data <- lift (json_of current_response) ;;
     forecast_response <- requests_get forecast_url
                            (weather_params api_key location) ;;
     lift (raise_for_status forecast_response) ;;;
     forecast_data <- lift (json_of forecast_response) ;;
     lift (weather_report current_data forecast_data))
    catch_Exception
    (fun e => ret ("Weather data retrieval failed for " ++ location ++ ": " ++ e_msg e)).

(** The text returned when no location is found. *)
Definition no_location_text (query : string) : string :=
  "âŒ **INTELLIGENT WEATHER ANALYSIS FAILED**
                
**Query**: " ++ query ++ ("
**Issue**: Could not identify or validate any location
**Solutions**:
â€¢ Specify clear city name: " ++ dq ++ "Weather in Mumbai" ++ dq ++ " or " ++ dq ++ "Delhi climate" ++ dq ++ "
â€¢ Check spelling of city name
â€¢ Try adding country: " ++ dq ++ "CityName, Country" ++ dq ++ "
â€¢ Use major nearby city if small town not found

**Supported**: Any of 200,000+ cities worldwide in OpenWeatherMap database").

(** [IntelligentWeatherTool._run]; the logger call of the handler leaves
    no mark on the result. *)
Definition IntelligentWeatherTool_run (api_key : string) (query : string)
    : M string :=
  try_except
    (location <- WeatherApi._extract_and_validate_location api_key query ;;
     match location with
     | Some (String _ _ as location) =>
         _get_comprehensive_weather_data api_key location
     | _ => ret (no_location_text query)
     end)
    catch_Exception
    (fun e => ret ("Weather analysis system error: " ++ e_msg e)).

(** *** [IntelligentAirQualityTool] *)

(** [aqi_levels.get(aqi, "Unknown")]: the keys are the integers 1 to 5,
    which a float or a bool of the same value also finds; a list or a
    dict is no key. *)
Definition level_name (z : Z) : string :=
  if Z.eqb z 1 then "Good"
  else if Z.eqb z 2 then "Fair"
  else if Z.eqb z 3 then "Moderate"
  else if Z.eqb z 4 then "Poor"
  else if Z.eqb z 5 then "Very Poor"
  else "Unknown".

Definition float_level_name (f : float) : string :=
  if PrimFloat.eqb f 1%float then "Good"
  else if PrimFloat.eqb f 2%float then "Fair"
  else if PrimFloat.eqb f 3%float then "Moderate"
  else if PrimFloat.eqb f 4%float then "Poor"
  else if PrimFloat.eqb f 5%float then "Very Poor"
  else "Unknown".

Definition aqi_levels_get (aqi : json) : result string :=
  match aqi with
  | JList _ => fail TypeError "unhashable type: 'list'"
  | JDict _ => fail TypeError "unhashable type: 'dict'"
  | JInt z => Ok (level_name z)
  | JBool b => Ok (level_name (if b then 1 else 0))
  | JFloat f _ => Ok (float_level_name f)
  | _ => Ok "Unknown"
  end.

(** The list [impacts] at the end of [_analyze_health_impacts]. *)
Definition impacts (aqi components : json) : result (list string) :=
  level <~
    (b5 <~ ge aqi 5 ;;
     if b5 then Ok "ğŸ”´ HAZARDOUS - Avoid all outdoor activities, use air purifiers indoors"
     else
       b4 <~ ge aqi 4 ;;
       if b4 then Ok "ğŸŸ  UNHEALTHY - Limit outdoor exposure, masks recommended"
       else
         b3 <~ ge aqi 3 ;;
         if b3 then Ok "ğŸŸ¡ MODERATE - Sensitive individuals should limit prolonged outdoor exertion"
         else
           b2 <~ ge aqi 2 ;;
           if b2 then Ok "ğŸŸ¢ FAIR - Acceptable for most people, minor sensitivity possible"
           else Ok "âœ… GOOD - Air quality satisfactory for all population groups") ;;
  pm25 <~ get components "pm2_5" (JInt 0) ;;
  hazardous <~ gt pm25 55 ;;
  if hazardous then Ok [level; "âš ï¸ PM2.5 at hazardous levels - Respiratory protection essential"]
  else
    elevated <~ gt pm25 35 ;;
    if elevated then Ok [level; "âš ï¸ PM2.5 elevated - Consider indoor activities"]
    else Ok [level].

(** [IntelligentAirQualityTool._analyze_health_impacts] *)
Definition _analyze_health_impacts (aqi components : json) : result string :=
  l <~ impacts aqi components ;;
  Ok (join nl (map (fun impact => "â€¢ " ++ impact) l)).

Definition air_url : string :=
  "https://api.openweathermap.org/data/2.5/air_pollution".

Definition geo_params (api_key location : string) : params :=
  [("q", location); ("limit", "1"); ("appid", api_key)].

Definition air_params (api_key : string) (lat lon : json) : params :=
  app (param "lat" lat) (app (param "lon" lon) [("appid", api_key)]).

(** [_get_air_quality_data] from "# Process data" to the [return]. *)
Definition air_report (city_name country air_data : json) : result string :=
  l <~ item air_data "list" ;;
  first <~ index l 0 ;;
  main <~ item first "main" ;;
  aqi <~ item main "aqi" ;;
  l' <~ item air_data "list" ;;
  first' <~ index l' 0 ;;
  components <~ item first' "components" ;;
  aqi_description <~ aqi_levels_get aqi ;;
  health_analysis <~ _analyze_health_impacts aqi components ;;
  pm2_5 <~ get components "pm2_5" (JStr "N/A") ;;
  pm10 <~ get components "pm10" (JStr "N/A") ;;
  no2 <~ get components "no2" (JStr "N/A") ;;
  so2 <~ get components "so2" (JStr "N/A") ;;
  co <~ get components "co" (JStr "N/A") ;;
  o3 <~ get components "o3" (JStr "N/A") ;;
  Ok ("ğŸŒ¬ï¸ **INTELLIGENT AIR QUALITY ANALYSIS**

ğŸ“ **Location Confirmed**: " ++ py_str city_name ++ ", " ++ py_str country
        ++ "
ğŸ“Š **Overall AQI**: " ++ py_str aqi ++ "/5 (" ++ aqi_description
        ++ ")

ğŸ”¬ **Pollutant Breakdown**:
â€¢ PM2.5: " ++ py_str pm2_5
        ++ " Î¼g/mÂ³
â€¢ PM10: " ++ py_str pm10
        ++ " Î¼g/mÂ³
â€¢ NO2: " ++ py_str no2
        ++ " Î¼g/mÂ³
â€¢ SO2: " ++ py_str so2
        ++ " Î¼g/mÂ³
â€¢ CO: " ++ py_str co
        ++ " Î¼g/mÂ³
â€¢ O3: " ++ py_str o3
        ++ " Î¼g/mÂ³

âš•ï¸ **HEALTH IMPACT ANALYSIS**:
" ++ health_analysis
        ++ "

âœ… **Data Verification**: Real-time air pollution monitoring
ğŸ“¡ **Source**: OpenWeatherMap Air Pollution API").

(** The coordinates and the names of the first geocoding entry. *)
Definition first_place (geo_data : json) : result (json * json * json * json) :=
  e1 <~ index geo_data 0 ;;
  lat <~ item e1 "lat" ;;
  e2 <~ index geo_data 0 ;;
  lon <~ item e2 "lon" ;;
  e3 <~ index geo_data 0 ;;
  city_name <~ item e3 "name" ;;
  e4 <~ index geo_data 0 ;;
  country <~ get e4 "country" (JStr "Unknown") ;;
  Ok (lat, lon, city_name, country).

(** [IntelligentAirQualityTool._get_air_quality_data] *)
Definition _get_air_quality_data (api_key location : string) : M string :=
  try_except
    (geo_response <- requests_get WeatherApi.geo_url
                       (geo_params api_key location) ;;
     lift (raise_for_status geo_response) ;;;
     geo_data <- lift (json_of geo_response) ;;
     if negb (truthy geo_data) then
       ret ("Air quality coordinates not found for " ++ location)
     else
       place <- lift (first_place geo_data) ;;
       let '(lat, lon, city_name, country) := place in
       air_response <- requests_get air_url (air_params api_key lat lon) ;;
       lift (raise_for_status air_response) ;;;
       air_data <- lift (json_of air_response) ;;
       lift (air_report city_name country air_data))
    catch_Exception
    (fun e => ret ("Air quality data retrieval failed for " ++ location ++ ": " ++ e_msg e)).

Definition no_air_location_text (query : string) : string :=
  "âŒ **AIR QUALITY ANALYSIS FAILED**
                
**Query**: " ++ query ++ ("
**Issue**: Could not identify valid location for air quality monitoring
**Required**: Clear city name in query
**Examples**: " ++ dq ++ "Air quality in Delhi" ++ dq ++ ", " ++ dq ++ "Mumbai pollution levels" ++ dq ++ ", " ++ dq ++ "AQI for Tokyo" ++ dq ++ "
**Coverage**: Global air quality monitoring for any major city").

(** [IntelligentAirQualityTool._extract_location_from_query]: a weather
    tool made on the spot reads the same key from the environment. *)
Definition _extract_location_from_query (api_key : string) (query : string)
    : M (option string) :=
  WeatherApi._extract_and_validate_location api_key query.

(** [IntelligentAirQualityTool._run] *)
Definition IntelligentAirQualityTool_run (api_key : string) (query : string)
    : M string :=
  try_except
    (location <- _extract_location_from_query api_key query ;;
     match location with
     | Some (String _ _ as location) => _get_air_quality_data api_key location
     | _ => ret (no_air_location_text query)
     end)
    catch_Exception
    (fun e => ret ("Air quality analysis error: " ++ e_msg e)).

End Formatting.

End WeatherTools.

(* ================================================================== *)
(** ** main_backup.py: the classifiers of the agents *)
(* ================================================================== *)

Module MainBackupAgents.
Import PyStr Re.

(** The strings [GeospatialAgent._analyze_query_type] returns. *)
Inductive query_type : Type :=
| weather_current | weather_forecast | air_quality | climate_analysis
| environmental | general_weather.

(** [GeospatialAgent._analyze_query_type] *)
Definition _analyze_query_type (query : string) : query_type :=
  let query_lower := lower query in
  if any_in ["current weather"; "weather now"; "today weather"] query_lower
  then weather_current
  else if any_in ["forecast"; "tomorrow"; "next week"; "prediction"] query_lower
  then weather_forecast
  else if any_in ["air quality"; "aqi"; "pollution"; "pm2.5"] query_lower
  then air_quality
  else if any_in ["climate"; "long term"; "seasonal"; "monthly"] query_lower
  then climate_analysis
  else if any_in ["environment"; "ecosystem"; "natural"] query_lower
  then environmental
  else general_weather.

(** The strings [AstronomicalAgent._classify_astronomical_query]
    returns. *)
Inductive astro_type : Type :=
| nasa | isro | mission | planet | solar | general.

(** [.]: any character but the line feed. *)
Definition any_char : regex := Cls (fun c => negb (Ascii.eqb c "010"%char)).

(** [\b<agency>\b.*mission|mission.*<agency>] *)
Definition agency_mission_pattern (agency : string) : regex :=
  Alt (cat [WordB; Lit agency; WordB; star any_char; Lit "mission"])
      (cat [Lit "mission"; star any_char; Lit agency]).

Definition matches (r : regex) (s : string) : bool :=
  match search false r s with Some _ => true | None => false end.

Definition isro_missions : list string :=
  ["chandrayaan"; "mangalyaan"; "gaganyaan"; "aditya"].
Definition nasa_programs : list string :=
  ["artemis"; "apollo"; "voyager"; "cassini"; "hubble"].
Definition planets : list string :=
  ["mars"; "jupiter"; "saturn"; "venus"; "mercury"].
Definition solar_words : list string := ["sun"; "solar"; "corona"; "sunspot"].

(** [AstronomicalAgent._classify_astronomical_query] *)
Definition _classify_astronomical_query (query : string) : astro_type :=
  let query_lower := lower query in
  if matches (agency_mission_pattern "nasa") query_lower then nasa
  else if matches (agency_mission_pattern "isro") query_lower then isro
  else if any_in isro_missions query_lower then isro
  else if any_in nasa_programs query_lower then nasa
  else if any_in planets query_lower then planet
  else if any_in solar_words query_lower then solar
  else if contains "mission" query_lower then mission
  else general.

(** The dict [space_entities], in the order of its entries. *)
Definition space_entities : list (string * list string) :=
  [("mars", ["mars"; "red planet"; "martian"]);
   ("moon", ["moon"; "lunar"; "chandrayaan"]);
   ("sun", ["sun"; "solar"; "aditya"]);
   ("isro", ["isro"; "indian space"]);
   ("nasa", ["nasa"; "national aeronautics"])].

(** The loop of [_extract_space_entity] over the entries. *)
Fixpoint first_entity (query_lower : string)
    (entities : list (string * list string)) : option string :=
  match entities with
  | [] => None
  | (entity, keywords) :: r =>
      if any_in keywords query_lower then Some entity
      else first_entity query_lower r
  end.

(** [AstronomicalAgent._extract_space_entity] *)
Definition _extract_space_entity (query : string) : option string :=
  first_entity (lower query) space_entities.

End MainBackupAgents.

(* ================================================================== *)
(** ** agents/geospatial_expert.py: the agent that calls the two tools *)
(* ================================================================== *)

Module GeospatialExpert.
Import PyStr Py PyLoop PyOps.

(** The strings [_classify_environmental_query] returns. *)
Inductive analysis_type : Type :=
| weather_intelligence | air_quality_intelligence
| comprehensive_environmental | general_environmental.

(** [IntelligentGeospatialAgent._classify_environmental_query] *)
Definition _classify_environmental_query (query : string) : analysis_type :=
  let query_lower := lower query in
  if any_in ["weather"; "temperature"; "climate"; "rain"; "rainfall";
             "humidity"; "wind"] query_lower
  then weather_intelligence
  else if any_in ["air quality"; "aqi"; "pollution"; "pm2.5"; "pm10"] query_lower
  then air_quality_intelligence
  else if any_in ["comprehensive"; "environmental analysis";
                  "complete assessment"] query_lower
  then comprehensive_environmental
  else general_environmental.

(** The texts around the results of the tools. *)
Definition weather_heading : string := "🌍 **PROFESSIONAL WEATHER INTELLIGENCE REPORT**

".
Definition weather_closing : string := "

📋 **INTELLIGENCE ASSESSMENT**:
• Location processing: Intelligent extraction and API validation
• Data confidence: High - Real-time meteorological data
• Analysis scope: Professional weather impact evaluation
• Recommendation tier: Operational decision support

🎯 **AGENT CAPABILITIES DEMONSTRATED**:
• Universal location intelligence (any city worldwide)
• Multi-pattern natural language processing
• API-validated geographic confirmation
• Professional meteorological impact analysis".
Definition air_heading : string := "🌬️ **PROFESSIONAL AIR QUALITY INTELLIGENCE REPORT**

".
Definition air_closing : string := "

📋 **INTELLIGENCE ASSESSMENT**:
• Location processing: Intelligent geographic validation
• Pollutant analysis: Comprehensive multi-component evaluation
• Health impact: Professional risk assessment provided
• Monitoring scope: Real-time air quality intelligence

🎯 **AGENT CAPABILITIES DEMONSTRATED**:
• Global air quality monitoring (any major city)
• Intelligent location detection and validation
• Professional health impact analysis
• Multi-pollutant comprehensive assessment".
Definition comprehensive_heading : string := "🌍 **COMPREHENSIVE ENVIRONMENTAL INTELLIGENCE REPORT**

".
Definition comprehensive_between : string := "

".
Definition comprehensive_closing : string := "

📊 **INTEGRATED ENVIRONMENTAL ASSESSMENT**:
• Multi-source data integration: Weather + Air Quality + Risk Analysis
• Location intelligence: Universal geographic processing capability
• Professional analysis: Operational decision-support level reporting
• Data confidence: High - Multiple validated API sources

🎯 **STRATEGIC RECOMMENDATIONS**:
• Immediate actions: Based on current environmental conditions
• Medium-term monitoring: Continued surveillance recommendations
• Long-term planning: Climate adaptation and infrastructure considerations
• Risk mitigation: Proactive environmental management strategies

✅ **INTELLIGENCE VERIFICATION**:
• Location confirmed through multiple API validation
• Data sources: Real-time meteorological and environmental monitoring
• Analysis framework: Professional environmental intelligence standards
• Confidence level: High operational reliability".

(** [IntelligentGeospatialAgent._process_general_environmental] *)
Definition _process_general_environmental (query : string) : string :=
  "🌍 **INTELLIGENT GEOSPATIAL ANALYSIS**

**Query Processed**: " ++ query ++ ("
**Agent Capability**: Universal location intelligence with environmental analysis

**AVAILABLE INTELLIGENCE SERVICES**:
• **Weather Intelligence**: Real-time meteorological analysis for any city worldwide
• **Air Quality Monitoring**: Comprehensive AQI and pollutant analysis
• **Environmental Risk Assessment**: Infrastructure and climate impact evaluation
• **Location Intelligence**: Smart geographic processing and validation

**INTELLIGENT CAPABILITIES**:
• Natural language location extraction from complex queries
• API-based geographic validation and confirmation
• Multi-source environmental data integration
• Professional-grade impact analysis and recommendations

**REQUEST CLARIFICATION**:
For optimal intelligence output, please specify:
• Target location (any city worldwide supported)
• Environmental parameter of interest (weather, air quality, comprehensive)
• Analysis depth required (standard, detailed, comprehensive)

**EXAMPLES**:
• " ++ WeatherTools.dq ++ "Weather analysis for [any city]" ++ WeatherTools.dq ++ "
• " ++ WeatherTools.dq ++ "Air quality assessment for [location]" ++ WeatherTools.dq ++ "
• " ++ WeatherTools.dq ++ "Comprehensive environmental analysis for [city]" ++ WeatherTools.dq ++ "

**COVERAGE**: Global environmental intelligence for 200,000+ cities worldwide").

Section Tools.

(** [format(x, '.1f')], as in the weather tool.  [weather_api] is what
    the statement [from ..tools.weather_api import ...] comes to when a
    method runs it: the exception it raises (loading the module builds
    both tool instances, and this can fail), or the tool instances, of
    which only the API key matters that they have read from the
    environment.

    The methods below read nothing of the agent they are called on, so
    they are functions of the query.  The constructor is not part of the
    model: it builds a crewai [Agent] from names that it imports from
    tools/weather_api.py and tools/bhuvan_api.py, and the name
    [bhuvan_intelligence_tool] that it asks of the latter is not defined
    there, so that [IntelligentGeospatialAgent()] itself raises in this
    repository.  What is proved of the methods holds on whatever object
    they are called. *)
Variable format_1f : float -> string.
Variable weather_api : result string.

(** [from ..tools.weather_api import intelligent_weather_tool],
    [... import intelligent_air_quality_tool], and the import of both. *)
Definition import_tools : M string := lift weather_api.

(** [IntelligentGeospatialAgent._process_weather_intelligence]: the
    import comes before the [try]. *)
Definition _process_weather_intelligence (query : string) : M string :=
  api_key <- import_tools ;;
  try_except
    (result <- WeatherTools.IntelligentWeatherTool_run format_1f api_key query ;;
     let professional_analysis := weather_heading ++ result ++ weather_closing in
     ret professional_analysis)
    catch_Exception
    (fun e => ret ("Weather intelligence processing failed: " ++ e_msg e)).

(** [IntelligentGeospatialAgent._process_air_quality_intelligence]: the
    import comes before the [try]. *)
Definition _process_air_quality_intelligence (query : string) : M string :=
  api_key <- import_tools ;;
  try_except
    (result <- WeatherTools.IntelligentAirQualityTool_run api_key query ;;
     let professional_analysis := air_heading ++ result ++ air_closing in
     ret professional_analysis)
    catch_Exception
    (fun e => ret ("Air quality intelligence processing failed: " ++ e_msg e)).

(** [IntelligentGeospatialAgent._process_comprehensive_environmental]:
    the import is inside the [try]. *)
Definition _process_comprehensive_environmental (query : string) : M string :=
  try_except
    (api_key <- import_tools ;;
     weather_result <-
       WeatherTools.IntelligentWeatherTool_run format_1f api_key query ;;
     air_quality_result <-
       WeatherTools.IntelligentAirQualityTool_run api_key query ;;
     let comprehensive_report :=
       comprehensive_heading ++ weather_result ++ comprehensive_between
         ++ air_quality_result ++ comprehensive_closing in
     ret comprehensive_report)
    catch_Exception
    (fun e => ret ("Comprehensive environmental analysis failed: " ++ e_msg e)).

(** [IntelligentGeospatialAgent.process_intelligent_query]; the logger
    calls leave no mark on the result. *)
Definition process_intelligent_query (query : string) : M string :=
  try_except
    (let analysis_type := _classify_environmental_query query in
     match analysis_type with
     | weather_intelligence => _process_weather_intelligence query
     | air_quality_intelligence => _process_air_quality_intelligence query
     | comprehensive_environmental => _process_comprehensive_environmental query
     | general_environmental => ret (_process_general_environmental query)
     end)
    catch_Exception
    (fun e => ret ("Environmental intelligence processing error: " ++ e_msg e)).

End Tools.

End GeospatialExpert.

(* ================================================================== *)
(** ** Vocabulary of the further statements *)
(* ================================================================== *)

Module Traces.
Import PyStr Py VectorDb.

(** The requests among the events of a trace. *)
Definition is_http (ev : event) : bool :=
  match ev with EvHttp _ _ => true | _ => false end.

(** The calls of the retriever: the encoder and the index. *)
Definition is_retriever (ev : event) : bool :=
  match ev with EvEncode _ | EvQuery _ _ => true | _ => false end.

Definition is_crew (ev : event) : bool :=
  match ev with EvCrew _ => true | _ => false end.

(** A request to [url]. *)
Definition http_to (url : string) (ev : event) : Prop :=
  exists ps, ev = EvHttp url ps.

(** What a request followed by [raise_for_status] and [json()] comes
    to: the decoded body, or the exception of the first step that
    raises. *)
Definition fetched (w : World) (t : trace) (url : string) (ps : params)
    : result json :=
  match w_http w t url ps with
  | HttpFail k m => Raise (Exn (RequestException k) m)
  | HttpResp r => _ <~ raise_for_status r ;; json_of r
  end.

(** The texts the weather and the air-quality tool return for an
    exception [e] of a lookup for [location]. *)
Definition weather_failure (location : string) (e : exn) : string :=
  "Weather data retrieval failed for " ++ location ++ ": " ++ e_msg e.
Definition air_failure (location : string) (e : exn) : string :=
  "Air quality data retrieval failed for " ++ location ++ ": " ++ e_msg e.

(** The two requests of the weather tool for a location. *)
Definition current_request (key location : string) : event :=
  EvHttp WeatherTools.current_url (WeatherTools.weather_params key location).
Definition forecast_request (key location : string) : event :=
  EvHttp WeatherTools.forecast_url (WeatherTools.weather_params key location).

(** The two requests of the air-quality tool. *)
Definition coordinates_request (key location : string) : event :=
  EvHttp WeatherApi.geo_url (WeatherTools.geo_params key location).
Definition pollution_request (key : string) (lat lon : json) : event :=
  EvHttp WeatherTools.air_url (WeatherTools.air_params key lat lon).

(** The first lines of the two listings of tools/nasa_api.py, and the
    form of their entries. *)
Definition mars_header : string :=
  "Here are some recent Mars rover images:" ++ PyLoop.nl.
Definition asteroid_header : string :=
  "The recent near-Earth asteroids are:" ++ PyLoop.nl.

Definition mars_entry (line : string) : Prop :=
  exists earth_date full_name img_src,
    line = "- " ++ earth_date ++ " " ++ full_name ++ ": " ++ img_src
             ++ PyLoop.nl.
Definition asteroid_line (line : string) : Prop :=
  exists name hazardous,
    line = name ++ " (Potentially Hazardous: " ++ hazardous ++ ")".

(** A computation that calls nothing outside: it leaves the trace as it
    found it. *)
Definition silent {A : Type} (c : M A) : Prop :=
  forall w t, snd (c w t) = t.

(** A computation that returns, having added [evs] to the trace, with
    [P evs]. *)
Definition yields {A : Type} (c : M A) (w : World) (t : trace)
    (P : list event -> Prop) : Prop :=
  exists a evs, c w t = (Ok a, (t ++ evs)%list) /\ P evs.

(** The calls of one search for [q]: none, the encoder alone (when it
    raises), or the encoder and then the index. *)
Inductive retrieval (q : string) : list event -> Prop :=
| retrieval_none : retrieval q []
| retrieval_encoder : retrieval q [EvEncode q]
| retrieval_index k : retrieval q [EvEncode q; EvQuery q k].

(** The four endpoints of NASA that the applications read, and a
    request to one of them under a key. *)
Definition nasa_urls : list string :=
  ["https://api.nasa.gov/DONKI/FLR";
   "https://api.nasa.gov/planetary/apod";
   "https://api.nasa.gov/mars-photos/api/v1/rovers/curiosity/photos";
   "https://api.nasa.gov/neo/rest/v1/feed"].

Definition nasa_request (key : string) (ev : event) : Prop :=
  exists url ps, ev = EvHttp url ps /\ In url nasa_urls /\ In ("api_key", key) ps.

(** At most one request to NASA. *)
Definition at_most_one_nasa_request (key : string) (evs : list event) : Prop :=
  evs = [] \/ exists ev, evs = [ev] /\ nasa_request key ev.

(** What one query makes run_astrogeo.py call after the classification:
    the calls of one search, made only for an intent whose data source
    is the vector database, or, with the switch for live data on, at
    most one request to NASA. *)
Definition run_sources (self : RunAstrogeo.IntelligentAstroGeo)
    (query : string) (use_nasa_api : bool) (src : list event) : Prop :=
  (retrieval query src
   /\ (src <> [] ->
       RunAstrogeo.i_data_source (RunAstrogeo.analyze_query_intent query)
       = RunAstrogeo.vector_db))
  \/ (use_nasa_api = true
      /\ at_most_one_nasa_request (RunAstrogeo.NASA_API_KEY self) src).

(** The same for multi_agent_astrogeo.py: the search is made for the
    ISRO agent, the request for the NASA agent. *)
Definition multi_sources (self : MultiAgent.IntelligentAstroGeoSystem)
    (query : string) (src : list event) : Prop :=
  (retrieval query src
   /\ (src <> [] ->
       MultiAgent.r_agent (MultiAgent.route_query query MultiAgent.agents)
       = Some MultiAgent.ISROGeospatialAgent
       /\ MultiAgent.vector_store self = true))
  \/ (MultiAgent.r_agent (MultiAgent.route_query query MultiAgent.agents)
      = Some MultiAgent.NASALiveDataAgent
      /\ at_most_one_nasa_request (MultiAgent.NASA_API_KEY self) src).

(** The call of the crew that final_astrogeo_app.py makes for a query:
    one, when the switch is on, the crew module was imported and the
    crew was built; none otherwise. *)
Definition crew_calls (self : FinalApp.FinalAstroGeoApp) (query : string)
    (use_nasa_agents : bool) : list event :=
  if use_nasa_agents && FinalApp.CREWAI_AVAILABLE self && FinalApp.crew self
  then [EvCrew query] else [].

(** The four sections that close a response of final_astrogeo_app.py. *)
Definition summary (self : FinalApp.FinalAstroGeoApp) (use_nasa_agents : bool)
    (found : nat) : list string :=
  ["## ✅ **Analysis Summary**" ++ PyLoop.nl ++ PyLoop.nl;
   "**Vector DB**: " ++ PyOps.str_of_nat found
     ++ " relevant documents found" ++ PyLoop.nl;
   "**NASA Integration**: "
     ++ (if use_nasa_agents && FinalApp.CREWAI_AVAILABLE self
         then "Active with live API data" else "Knowledge base mode")
     ++ PyLoop.nl;
   "**Coverage**: Comprehensive multi-source analysis" ++ PyLoop.nl].

(** No two white-space characters in a row ([prev_space] tells whether
    the character before the text is one). *)
Fixpoint single_spaced (prev_space : bool) (l : list ascii) : bool :=
  match l with
  | [] => true
  | c :: r =>
      if is_space c then negb prev_space && single_spaced true r
      else single_spaced false r
  end.

(** A letter, the space, a comma or a hyphen. *)
Definition is_place_char (c : ascii) : bool :=
  is_alpha c || Ascii.eqb c " "%char || Ascii.eqb c ","%char
  || Ascii.eqb c "-"%char.

(** A weather service that knows one city: the geocoder answers every
    lookup with Pune, and the three data endpoints answer with fixed
    payloads. *)
#[warnings="-inexact-float"] Definition pune : json :=
  JDict [("name", JStr "Pune"); ("lat", JFloat 18.52%float "18.52");
         ("lon", JFloat 73.85%float "73.85"); ("country", JStr "IN")].

#[warnings="-inexact-float"] Definition pune_now : json :=
  JDict [("name", JStr "Pune");
         ("sys", JDict [("country", JStr "IN")]);
         ("main", JDict [("temp", JFloat 31.4%float "31.4");
                         ("feels_like", JInt 33);
                         ("humidity", JInt 62);
                         ("pressure", JInt 1008)]);
         ("weather", JList [JDict [("description", JStr "scattered clouds")]]);
         ("wind", JDict [("speed", JFloat 4.1%float "4.1")])].

Definition pune_forecast : json :=
  JDict [("list", JList [JDict [("rain", JDict [("3h", JFloat 2.5%float "2.5")])];
                         JDict [("rain", JDict [("3h", JInt 5)])];
                         JDict []])].

#[warnings="-inexact-float"] Definition pune_air : json :=
  JDict [("list",
          JList [JDict [("main", JDict [("aqi", JInt 3)]);
                        ("components",
                         JDict [("pm2_5", JFloat 40.2%float "40.2");
                                ("pm10", JInt 55);
                                ("no2", JFloat 12.1%float "12.1")])]])].

Definition openweather : World := {|
  w_http := fun _ url _ =>
    HttpResp
      (Response 200 ""
         (Some (if String.eqb url WeatherApi.geo_url then JList [pune]
                else if String.eqb url WeatherTools.current_url then pune_now
                else if String.eqb url WeatherTools.forecast_url then pune_forecast
                else pune_air))
         "" "");
  w_encode := w_encode Facts.offline;
  w_query := w_query Facts.offline;
  w_crew := w_crew Facts.offline;
  w_now := w_now Facts.offline
|}.

(** A printer of floats that knows the one total of the forecast
    above. *)
Definition one_decimal (f : float) : string :=
  if PrimFloat.eqb f 7.5%float then "7.5" else "?".

(** The texts that the two tools return for Pune on this service. *)
Definition pune_weather_text : string := "ğŸŒ **INTELLIGENT WEATHER ANALYSIS**

ğŸ“ **Location Confirmed**: Pune, IN
ğŸŒ¡ï¸ **Current Conditions**: 31.4Â°C (feels like 33Â°C), Scattered Clouds
ğŸ’§ **Atmospheric Data**: Humidity 62%, Pressure 1008 hPa
ğŸ’¨ **Wind Conditions**: 4.1 m/s
ğŸŒ§ï¸ **48h Rainfall Forecast**: 7.5mm

ğŸ“Š **PROFESSIONAL ANALYSIS**:
â€¢ âœ… Temperature within normal operational range
â€¢ â˜” Light to moderate rain - Normal precautions sufficient

âœ… **Intelligence Confidence**: Location validated and confirmed
ğŸ“¡ **Data Source**: OpenWeatherMap API - Real-time meteorological data".

Definition pune_air_text : string := "ğŸŒ¬ï¸ **INTELLIGENT AIR QUALITY ANALYSIS**

ğŸ“ **Location Confirmed**: Pune, IN
ğŸ“Š **Overall AQI**: 3/5 (Moderate)

ğŸ”¬ **Pollutant Breakdown**:
â€¢ PM2.5: 40.2 Î¼g/mÂ³
â€¢ PM10: 55 Î¼g/mÂ³
â€¢ NO2: 12.1 Î¼g/mÂ³
â€¢ SO2: N/A Î¼g/mÂ³
â€¢ CO: N/A Î¼g/mÂ³
â€¢ O3: N/A Î¼g/mÂ³

âš•ï¸ **HEALTH IMPACT ANALYSIS**:
â€¢ ğŸŸ¡ MODERATE - Sensitive individuals should limit prolonged outdoor exertion
â€¢ âš ï¸ PM2.5 elevated - Consider indoor activities

âœ… **Data Verification**: Real-time air pollution monitoring
ğŸ“¡ **Source**: OpenWeatherMap Air Pollution API".

(** The row of fragments a result stands for: document [i] with the
    score [1 - distance i]. *)
Definition scored (docs : list string) (drow : list float) : list fragment :=
  map (fun p => Fragment (fst p) (PrimFloat.sub 1%float (snd p)))
      (combine docs drow).

(** The fragments of a row whose score is above the floor, in the order
    of the row. *)
Definition kept (floor : float) (frs : list fragment) : list fragment :=
  filter (fun fr => PrimFloat.ltb floor (score fr)) frs.

(** An index that answers every query with the same result, behind an
    encoder that works. *)
Definition indexed (results : query_result) : World := {|
  w_http := w_http Facts.offline;
  w_encode := fun _ _ => None;
  w_query := fun _ _ _ => Ok results;
  w_crew := w_crew Facts.offline;
  w_now := w_now Facts.offline
|}.

(** Three documents, two of them near the query. *)
Definition two_close_one_far : query_result :=
  QueryResult
    (Some [["Chandrayaan-3 landed in 2023."; "A recipe for dal.";
            "Bhuvan serves maps."]])
    (Some [[0.25%float; 0.875%float; 0.5%float]]).

(** The same documents with the last distance missing. *)
Definition one_distance_short : query_result :=
  QueryResult
    (Some [["Chandrayaan-3 landed in 2023."; "A recipe for dal.";
            "Bhuvan serves maps."]])
    (Some [[0.25%float; 0.875%float]]).

End Traces.


(* ================================================================== *)
(** ** What a pattern matches *)
(* ================================================================== *)

Module Lang.
Import PyStr Re.

(** A pattern without a capturing group. *)
Fixpoint groupless (r : regex) : bool :=
  match r with
  | Group _ => false
  | Seq a b | Alt a b => groupless a && groupless b
  | Rep _ _ a => groupless a
  | _ => true
  end.

(** The texts a pattern can consume, read off the pattern and not off
    the matcher; [^], [$] and [\b] consume nothing. *)
Fixpoint spans (ci : bool) (r : regex) (w : list ascii) : Prop :=
  match r with
  | Eps | Bol | Eol | WordB => w = []
  | Cls p => exists c, w = [c] /\ cls_ok ci p c = true
  | Lit s => Forall2 (fun x c => chr_ok ci x c = true) (chars s) w
  | Seq a b => exists w1 w2, w = (w1 ++ w2)%list /\ spans ci a w1 /\ spans ci b w2
  | Alt a b => spans ci a w \/ spans ci b w
  | Rep _ mn a =>
      exists ws, mn <= length ws /\ w = concat ws /\ Forall (spans ci a) ws
  | Group a => spans ci a w
  end.

(** The loop of a repetition, as [run] has it, over the matcher of the
    repeated pattern. *)
Definition rep_loop (runa : mstate -> (mstate -> option mstate) -> option mstate)
    (greedy : bool) (mn : nat) (k : mstate -> option mstate)
    : nat -> nat -> mstate -> option mstate :=
  fix loop (fuel cnt : nat) (st : mstate) {struct fuel} : option mstate :=
    match fuel with
    | O => None
    | S f =>
        if greedy then
          match runa st
                  (fun st' => if Nat.ltb (pos st) (pos st')
                              then loop f (S cnt) st' else None) with
          | Some m => Some m
          | None => if Nat.leb mn cnt then k st else None
          end
        else
          match (if Nat.leb mn cnt then k st else None) with
          | Some m => Some m
          | None =>
              runa st
                (fun st' => if Nat.ltb (pos st) (pos st')
                            then loop f (S cnt) st' else None)
          end
    end.

(** Every character that the pattern can consume has the property
    [P]. *)
Fixpoint within (P : ascii -> Prop) (ci : bool) (r : regex) : Prop :=
  match r with
  | Cls p => forall c, cls_ok ci p c = true -> P c
  | Lit s => forall x c, In x (chars s) -> chr_ok ci x c = true -> P c
  | Seq a b | Alt a b => within P ci a /\ within P ci b
  | Rep _ _ a | Group a => within P ci a
  | _ => True
  end.

(** One step of the matcher from [st] to [st'] over the text [w]. *)
Definition advance (st st' : mstate) (w : list ascii) : Prop :=
  rest st = (w ++ rest st')%list /\ pos st' = pos st + length w.

End Lang.

Module Astro.
Import PyStr.

(** The words whose absence makes a query [general] for
    [_classify_astronomical_query]. *)
Definition astro_words : list string :=
  app MainBackupAgents.isro_missions
    (app MainBackupAgents.nasa_programs
       (app MainBackupAgents.planets
          (app MainBackupAgents.solar_words ["mission"]))).

(** The keywords of the five lists of [_analyze_query_type]. *)
Definition query_type_words : list string :=
  ["current weather"; "weather now"; "today weather";
   "forecast"; "tomorrow"; "next week"; "prediction";
   "air quality"; "aqi"; "pollution"; "pm2.5";
   "climate"; "long term"; "seasonal"; "monthly";
   "environment"; "ecosystem"; "natural"].

(** No entry of a list of entities has a keyword in the text. *)
Definition no_entity (query_lower : string)
    (entities : list (string * list string)) : Prop :=
  Forall (fun entry => any_in (snd entry) query_lower = false) entities.

End Astro.

(* ================================================================== *)
(** ** Tactics *)
(* ================================================================== *)

Import PyStr Py PyLoop PyOps VectorDb Facts.

(** Peel one monadic step of a hypothesis [H : ... = (Ok s, t')]. *)
Ltac step_in H :=
  match type of H with
  | context [match ?c ?w ?t with _ => _ end] =>
      let a := fresh "a" in
      let e := fresh "e" in
      let t1 := fresh "t" in
      destruct (c w t) as [[a | e] t1]; try discriminate H
  | context [if ?b then _ else _] => destruct b
  | context [match ?x with _ => _ end] => destruct x; try discriminate H
  end.


(** Two strings that differ in their first four bytes differ. *)
Ltac neq_by_prefix :=
  let E := fresh "E" in
  intro E; apply (f_equal (substring 0 4)) in E;
  unfold MultiAgent.redirect_message in E; cbn in E; discriminate E.

(** Prove that a chain of [lift], [ret], tests and matches is silent,
    given the lemmas for [ret], [lift] and [bind]. *)
Ltac silence_by ret_silent lift_silent bind_silent :=
  repeat first
    [ progress cbv zeta
    | apply ret_silent
    | apply lift_silent
    | apply bind_silent; [| intros ?]
    | match goal with
      | |- Traces.silent (if ?b then _ else _) => destruct b
      | |- Traces.silent (match ?x with _ => _ end) => destruct x
      end ].

(* ================================================================== *)
(** * Properties *)
(* ================================================================== *)

(** ** The definitions at work *)

Example search_for_pattern :
  option_map (Re.group1 "FOR x-y, z including q")
    (Re.search true Patterns.for_pattern "FOR x-y, z including q")
  = Some "x-y, z".
Proof. vm_compute. reflexivity. Qed.

Example search_in_pattern_lazy :
  option_map (Re.group1 "rain in  San Francisco Bay?  ok")
    (Re.search true Patterns.in_pattern "rain in  San Francisco Bay?  ok")
  = Some "San Francisco Bay".
Proof. vm_compute. reflexivity. Qed.

Example findall_caps :
  Re.findall false Patterns.caps_pattern "The Weather For New York City"
  = ["The Weather For New York City"]
  /\ Re.findall false Patterns.caps_pattern "What's the weather in Mumbai?"
     = ["What"; "Mumbai"].
Proof. split; vm_compute; reflexivity. Qed.

Example prep_pattern_short_match :
  option_map (Re.group1 "rain in  San Francisco Bay?  ok")
    (Re.search false (Patterns.prep_pattern "in") "rain in  San Francisco Bay?  ok")
  = Some "San".
Proof. vm_compute. reflexivity. Qed.

Example potential_locations_mumbai :
  WeatherApi.potential_locations "What's the weather in Mumbai?"
  = ["Mumbai"; "What"; "Mumbai"].
Proof. vm_compute. reflexivity. Qed.

Example gradio_location_title :
  GradioApp.extract_location_from_query "Weather in new york today"
  = "New York Today".
Proof. vm_compute. reflexivity. Qed.

Example split_sentences :
  split ". " "a. b. c.. d. " = ["a"; "b"; "c."; "d"; ""].
Proof. reflexivity. Qed.

Example intent_of_isro_question :
  RunAstrogeo.i_agent (RunAstrogeo.analyze_query_intent "Tell me about ISRO")
  = RunAstrogeo.isro_geospatial.
Proof. reflexivity. Qed.

Example intent_of_solar_today :
  RunAstrogeo.i_agent
    (RunAstrogeo.analyze_query_intent "What is the solar activity today?")
  = RunAstrogeo.space_weather.
Proof. reflexivity. Qed.

Example router_picks_first_agent :
  MultiAgent.r_agent
    (MultiAgent.route_query "latest isro satellite" MultiAgent.agents)
  = Some MultiAgent.ISROGeospatialAgent.
Proof. reflexivity. Qed.

Example apod_tool_success :
  run_tool (Apod "DEMO_KEY")
    (answering
       (HttpResp
          (Response 200 ""
             (Some (JDict [("title", JStr "Orion"); ("date", JStr "2024-01-01");
                           ("explanation", JStr "A nebula.");
                           ("url", JStr "https://apod.nasa.gov/o.jpg")]))
             "" ""))) []
  = (Ok "Today's NASA APOD is titled 'Orion' (2024-01-01). A nebula. Image URL: https://apod.nasa.gov/o.jpg",
     [request_of (Apod "DEMO_KEY")]).
Proof. reflexivity. Qed.

Example mars_tool_bad_payload :
  run_tool (MarsRover "DEMO_KEY" 1000)
    (answering
       (HttpResp
          (Response 200 ""
             (Some (JDict [("photos", JList [JDict [("img_src", JStr "x")]])]))
             "" ""))) []
  = (Ok "Error fetching Mars photos: 'earth_date'",
     [request_of (MarsRover "DEMO_KEY" 1000)]).
Proof. reflexivity. Qed.

Example scores_above_floor :
  scored_documents floor_03
    (QueryResult (Some [["close"; "far"]])
                 (Some [[0.25%float; 0.75%float]]))
  = Ok [Fragment "close" 0.75%float].
Proof. reflexivity. Qed.

Example gibberish_query :
  fst (MultiAgent.process_query (MultiAgent.MkSystem "DEMO_KEY" false)
         "asdf qwer" true offline [])
  = Ok (MultiAgent.render (redirect_response "asdf qwer")).
Proof. vm_compute. reflexivity. Qed.

(** ** The monad *)

Lemma bind_ok {A B : Type} (c : M A) (k : A -> M B) w t a t1 :
  c w t = (Ok a, t1) -> bind c k w t = k a w t1.
Proof. intros H. unfold bind. rewrite H. reflexivity. Qed.

Lemma bind_raise {A B : Type} (c : M A) (k : A -> M B) w t e t1 :
  c w t = (Raise e, t1) -> bind c k w t = (Raise e, t1).
Proof. intros H. unfold bind. rewrite H. reflexivity. Qed.

(** A handler for [Exception] that only returns a value makes the whole
    statement return. *)
Lemma try_except_total {A : Type} (body : M A) (f : exn -> A) w t :
  exists a t', try_except body catch_Exception (fun e => ret (f e)) w t = (Ok a, t').
Proof.
  unfold try_except. destruct (body w t) as [[a | e] t1].
  - now exists a, t1.
  - now exists (f e), t1.
Qed.

Lemma try_except_ok {A : Type} (body : M A) c h w t a t1 :
  body w t = (Ok a, t1) -> try_except body c h w t = (Ok a, t1).
Proof. intros H. unfold try_except. now rewrite H. Qed.

Lemma try_except_caught {A : Type} (body : M A) (f : exn -> A) w t e t1 :
  body w t = (Raise e, t1) ->
  try_except body catch_Exception (fun e => ret (f e)) w t = (Ok (f e), t1).
Proof. intros H. unfold try_except. now rewrite H. Qed.

(** ** The relevance floor *)

Lemma collect_above floor results :
  forall docs i acc frs,
    Forall (above floor) acc ->
    collect floor results i docs acc = Ok frs ->
    Forall (above floor) frs.
Proof.
  induction docs as [| doc docs IH]; intros i acc frs Hacc H; simpl in H.
  - now inversion H; subst.
  - destruct (score_of results i) as [s | e] eqn:Hs; simpl in H; [| discriminate].
    apply IH in H; [exact H |].
    destruct (PrimFloat.ltb floor s) eqn:Hlt; [| exact Hacc].
    apply Forall_app. split; [exact Hacc |].
    constructor; [exact Hlt | constructor].
Qed.

Lemma scored_documents_above floor results frs :
  scored_documents floor results = Ok frs -> Forall (above floor) frs.
Proof.
  unfold scored_documents.
  destruct (documents results) as [[| [| d ds] rows] |]; intros H;
    try (inversion H; subst; constructor).
  eapply collect_above; [| exact H]. constructor.
Qed.

(** What the guarded part of a search returns, when it returns, is above
    the floor. *)
Lemma guarded_search_above (floor : float) (guard : bool)
    (fetch : M query_result) w t :
  exists frs t',
    try_except
      (if guard then ret []
       else results <- fetch ;; lift (scored_documents floor results))
      catch_Exception (fun e => ret []) w t = (Ok frs, t')
    /\ Forall (above floor) frs.
Proof.
  unfold try_except. destruct guard.
  - exists [], t. split; [reflexivity | constructor].
  - unfold bind. destruct (fetch w t) as [[results | e] t1].
    + unfold lift. destruct (scored_documents floor results) as [frs | e] eqn:H.
      * exists frs, t1. split; [reflexivity |]. now apply scored_documents_above in H.
      * exists [], t1. split; [reflexivity | constructor].
    + exists [], t1. split; [reflexivity | constructor].
Qed.

(** C8.  Every fragment that the vector-database search returns scores
    strictly above the relevance floor of its call site (0.3 in
    run_astrogeo.py, 0.2 in final_astrogeo_app.py); the search always
    returns a list and never raises; without a collection it returns the
    empty list without calling anything; and when the encoder or the
    index raises, the result is the empty list. *)
Theorem search_vector_db_relevance_floor :
  (forall h q k w t, exists frs t',
      RunAstrogeo.search_vector_db h q k w t = (Ok frs, t')
      /\ Forall (above floor_03) frs)
  /\ (forall self q k w t, exists frs t',
      FinalApp.search_vector_db self q k w t = (Ok frs, t')
      /\ Forall (above floor_02) frs)
  /\ (forall m q k w t,
      RunAstrogeo.search_vector_db (Handles false m) q k w t = (Ok [], t))
  /\ (forall m c a q k w t,
      FinalApp.search_vector_db (FinalApp.MkFinal (Handles false m) c a) q k w t
      = (Ok [], t))
  /\ (forall q k w t e,
      w_encode w t q = Some e ->
      RunAstrogeo.search_vector_db (Handles true true) q k w t
        = (Ok [], (t ++ [EvEncode q])%list)
      /\ forall c a,
        FinalApp.search_vector_db (FinalApp.MkFinal (Handles true true) c a) q k w t
        = (Ok [], (t ++ [EvEncode q])%list))
  /\ (forall q k w t e,
      w_encode w t q = None ->
      w_query w (t ++ [EvEncode q])%list q k = Raise e ->
      RunAstrogeo.search_vector_db (Handles true true) q k w t
        = (Ok [], (t ++ [EvEncode q; EvQuery q k])%list)
      /\ forall c a,
        FinalApp.search_vector_db (FinalApp.MkFinal (Handles true true) c a) q k w t
        = (Ok [], (t ++ [EvEncode q; EvQuery q k])%list)).
Proof.
  repeat split.
  - intros. apply guarded_search_above.
  - intros. apply guarded_search_above.
  - unfold RunAstrogeo.search_vector_db, try_except, encode_and_query, bind,
      encode, collection_query; simpl. now rewrite H.
  - intros c a. unfold FinalApp.search_vector_db, try_except, encode_and_query,
      bind, encode, collection_query; simpl. now rewrite H.
  - unfold RunAstrogeo.search_vector_db, try_except, encode_and_query, bind,
      encode, collection_query; simpl. rewrite H, H0.
    now rewrite <- app_assoc.
  - intros c a. unfold FinalApp.search_vector_db, try_except, encode_and_query,
      bind, encode, collection_query; simpl. rewrite H, H0.
    now rewrite <- app_assoc.
Qed.

(** The third copy of the search, in multi_agent_astrogeo.py, has the
    same filter and returns the empty list without a store, but has no
    handler of its own: an error of the index reaches [process_query],
    which reports it. *)
Example multi_agent_search_without_handler :
  MultiAgent.search_vector_db (MultiAgent.MkSystem "DEMO_KEY" false) "isro" 5
    offline [] = (Ok [], [])
  /\ MultiAgent.search_vector_db (MultiAgent.MkSystem "DEMO_KEY" true) "isro" 5
       offline []
     = (Raise (Exn OtherError "index unavailable"),
        [EvEncode "isro"; EvQuery "isro" 5]).
Proof. split; reflexivity. Qed.

Lemma search_vector_db_relevance_floor_witness :
  RunAstrogeo.search_vector_db (Handles true true) "isro" 3 no_encoder []
    = (Ok [], [EvEncode "isro"])
  /\ FinalApp.search_vector_db
       (FinalApp.MkFinal (Handles true true) false false) "isro" 3 offline []
     = (Ok [], [EvEncode "isro"; EvQuery "isro" 3]).
Proof.
  destruct search_vector_db_relevance_floor as (_ & _ & _ & _ & He & Hq).
  split.
  - apply (He "isro" 3 no_encoder [] (Exn OtherError "model not loaded")).
    reflexivity.
  - apply (Hq "isro" 3 offline [] (Exn OtherError "index unavailable"));
      reflexivity.
Defined.

(** ** The blank query *)

Lemma blank_not_truthy q : strip q = "" -> negb (PyStr.truthy (strip q)) = true.
Proof. intros H. now rewrite H. Qed.

(** C9.  For a query whose stripped text is empty, [process_query] (in
    multi_agent_astrogeo.py and run_astrogeo.py) and
    [analyze_space_query] (in final_astrogeo_app.py) return their fixed
    welcome text and leave the trace as it was: no classification, no
    vector-database search, no provider call. *)
Theorem blank_query_short_circuits (q : string) :
  strip q = "" ->
  (forall self b w t,
      MultiAgent.process_query self q b w t = (Ok MultiAgent.welcome, t))
  /\ (forall self b w t,
      RunAstrogeo.process_query self q b w t = (Ok RunAstrogeo.welcome, t))
  /\ (forall self ty b w t,
      FinalApp.analyze_space_query self q ty b w t = (Ok FinalApp.welcome, t)).
Proof.
  intros H. apply blank_not_truthy in H. repeat split; intros.
  - unfold MultiAgent.process_query, MultiAgent.process_query_sections.
    rewrite H. reflexivity.
  - unfold RunAstrogeo.process_query, RunAstrogeo.process_query_sections.
    rewrite H. reflexivity.
  - unfold FinalApp.analyze_space_query, FinalApp.analyze_space_query_sections.
    rewrite H. reflexivity.
Qed.

Lemma blank_query_short_circuits_witness :
  strip "   " = ""
  /\ MultiAgent.process_query (MultiAgent.MkSystem "DEMO_KEY" true) "   " true
       offline [] = (Ok MultiAgent.welcome, []).
Proof.
  split; [reflexivity |].
  apply (blank_query_short_circuits "   "). reflexivity.
Defined.

(** ** The response is never empty *)

Lemma concat_head_nonempty (h : string) (rest : list string) :
  h <> "" -> String.concat "" (h :: rest) <> "".
Proof.
  intros Hh. destruct h as [| c h']; [congruence |].
  destruct rest; simpl; discriminate.
Qed.

Lemma MultiAgent_body_head self q b w t s t' :
  MultiAgent.process_query_body self q b w t = (Ok s, t') ->
  exists rest,
    s = ("🧠 **AstroGeo Multi-Agent Analysis**" ++ nl ++ nl) :: rest.
Proof.
  unfold MultiAgent.process_query_body, bind, emit, ret, lift.
  intros H.
  repeat step_in H;
    inversion H; subst; eexists; reflexivity.
Qed.

Lemma RunAstrogeo_body_head self q b w t s t' :
  RunAstrogeo.process_query_body self q b w t = (Ok s, t') ->
  exists rest,
    s = ("🧠 **AstroGeo Intelligent Analysis**" ++ nl ++ nl) :: rest.
Proof.
  unfold RunAstrogeo.process_query_body, bind, emit, ret.
  intros H.
  repeat step_in H;
    inversion H; subst; eexists; reflexivity.
Qed.

Lemma truthy_nonempty s : s <> "" -> PyStr.truthy s = true.
Proof. destruct s; [congruence | reflexivity]. Qed.

Lemma sections_then_render {A B : Type} (c : M A) (f : A -> B) w t a t1 :
  c w t = (Ok a, t1) -> bind c (fun x => ret (f x)) w t = (Ok (f a), t1).
Proof. intros H. unfold bind. now rewrite H. Qed.

Lemma Run_search_total h q k w t :
  exists frs t', RunAstrogeo.search_vector_db h q k w t = (Ok frs, t').
Proof.
  destruct (guarded_search_above floor_03
              (negb (collection h) || negb (embedding_model h))
              (encode_and_query h q k) w t) as (frs & t' & H & _).
  now exists frs, t'.
Qed.

Lemma Run_nasa_total key ql w t :
  exists s t', RunAstrogeo.get_nasa_live_data key ql w t = (Ok s, t').
Proof. unfold RunAstrogeo.get_nasa_live_data. apply try_except_total. Qed.

Lemma Run_isro_total h q w t :
  exists s t', RunAstrogeo.process_isro_bhuvan_query h q w t = (Ok s, t').
Proof.
  unfold RunAstrogeo.process_isro_bhuvan_query, bind.
  destruct (Run_search_total h q 5 w t) as (frs & t1 & ->).
  repeat match goal with |- context [if ?b then _ else _] => destruct b end;
    eexists _, _; reflexivity.
Qed.

(** The [try] block of run_astrogeo.py's [process_query] does not raise:
    each of the calls it makes has a handler of its own. *)
Lemma Run_body_total self q b w t :
  exists s t', RunAstrogeo.process_query_body self q b w t = (Ok s, t').
Proof.
  unfold RunAstrogeo.process_query_body, bind, emit.
  destruct (RunAstrogeo.is_agent _ RunAstrogeo.isro_geospatial).
  { destruct (Run_isro_total (RunAstrogeo.db self) q w (t ++ [EvClassify q])%list)
      as (s & t1 & ->). eexists _, _; reflexivity. }
  destruct (RunAstrogeo.is_live_agent _ && b).
  { destruct (Run_nasa_total (RunAstrogeo.NASA_API_KEY self) (lower q) w
                (t ++ [EvClassify q])%list) as (s & t1 & ->).
    eexists _, _; reflexivity. }
  destruct (RunAstrogeo.is_agent _ RunAstrogeo.mars_expert).
  { destruct (b && _).
    - destruct (Run_nasa_total (RunAstrogeo.NASA_API_KEY self) (lower q) w
                  (t ++ [EvClassify q])%list) as (s & t1 & ->).
      eexists _, _; reflexivity.
    - eexists _, _; reflexivity. }
  destruct (RunAstrogeo.is_vector_db _).
  { destruct (Run_search_total (RunAstrogeo.db self) q 3 w
                (t ++ [EvClassify q])%list) as ([| fr frs] & t1 & ->);
      eexists _, _; reflexivity. }
  eexists _, _; reflexivity.
Qed.

(** C1.  For every query, every state of the application and every
    behaviour of the outside, [process_query] (multi_agent_astrogeo.py
    and run_astrogeo.py) returns normally; the response it returns has
    at least one section and is not the empty string; when the work
    inside multi_agent_astrogeo.py's [process_query] raises, the
    response is exactly one section, the error notice; and the work
    inside run_astrogeo.py's [process_query] does not raise, since each
    call it makes turns its own failure into text. *)
Theorem process_query_never_empty :
  (forall self q b w t, exists sections t',
      MultiAgent.process_query_sections self q b w t = (Ok sections, t')
      /\ MultiAgent.process_query self q b w t
         = (Ok (MultiAgent.render sections), t')
      /\ sections <> [] /\ MultiAgent.render sections <> "")
  /\ (forall self q b w t, exists sections t',
      RunAstrogeo.process_query_sections self q b w t = (Ok sections, t')
      /\ RunAstrogeo.process_query self q b w t
         = (Ok (RunAstrogeo.render sections), t')
      /\ sections <> [] /\ RunAstrogeo.render sections <> "")
  /\ (forall self q b w t e t',
      strip q <> "" ->
      MultiAgent.process_query_body self q b w t = (Raise e, t') ->
      MultiAgent.process_query_sections self q b w t
      = (Ok ["❌ System Error: " ++ e_msg e ++ nl ++ nl
               ++ "Please try rephrasing your space-related query!"], t'))
  /\ (forall self q b w t, exists sections t',
      RunAstrogeo.process_query_body self q b w t = (Ok sections, t')).
Proof.
  split; [| split; [| split]].
  - intros self q b w t.
    assert (Hs : exists sections t',
               MultiAgent.process_query_sections self q b w t = (Ok sections, t')
               /\ sections <> [] /\ MultiAgent.render sections <> "").
    { unfold MultiAgent.process_query_sections.
      destruct (negb (PyStr.truthy (strip q))).
      - exists [MultiAgent.welcome], t. repeat split; discriminate.
      - unfold try_except.
        destruct (MultiAgent.process_query_body self q b w t)
          as [[s | e] t1] eqn:Hb.
        + destruct (MultiAgent_body_head _ _ _ _ _ Hb) as [rest ->].
          exists (("🧠 **AstroGeo Multi-Agent Analysis**" ++ nl ++ nl) :: rest), t1.
          repeat split; [discriminate |].
          apply concat_head_nonempty. discriminate.
        + eexists _, t1. repeat split; discriminate. }
    destruct Hs as (sections & t' & Hs & Hne & Hr).
    exists sections, t'. repeat split; try assumption.
    unfold MultiAgent.process_query. now apply sections_then_render.
  - intros self q b w t.
    assert (Hs : exists sections t',
               RunAstrogeo.process_query_sections self q b w t = (Ok sections, t')
               /\ sections <> [] /\ RunAstrogeo.render sections <> "").
    { unfold RunAstrogeo.process_query_sections.
      destruct (negb (PyStr.truthy (strip q))).
      - exists [RunAstrogeo.welcome], t. repeat split; discriminate.
      - unfold try_except.
        destruct (RunAstrogeo.process_query_body self q b w t)
          as [[s | e] t1] eqn:Hb.
        + destruct (RunAstrogeo_body_head _ _ _ _ _ Hb) as [rest ->].
          exists (("🧠 **AstroGeo Intelligent Analysis**" ++ nl ++ nl) :: rest), t1.
          repeat split; [discriminate |].
          apply concat_head_nonempty. discriminate.
        + eexists _, t1. repeat split; discriminate. }
    destruct Hs as (sections & t' & Hs & Hne & Hr).
    exists sections, t'. repeat split; try assumption.
    unfold RunAstrogeo.process_query. now apply sections_then_render.
  - intros self q b w t e t' Hq Hb.
    unfold MultiAgent.process_query_sections.
    rewrite (truthy_nonempty Hq). simpl negb. cbv iota.
    now apply try_except_caught with (f := fun e =>
      ["❌ System Error: " ++ e_msg e ++ nl ++ nl
         ++ "Please try rephrasing your space-related query!"]).
  - intros. apply Run_body_total.
Qed.

Lemma process_query_never_empty_witness :
  strip "isro" <> ""
  /\ MultiAgent.process_query_sections (MultiAgent.MkSystem "DEMO_KEY" true)
       "isro" true offline []
     = (Ok ["❌ System Error: index unavailable" ++ nl ++ nl
              ++ "Please try rephrasing your space-related query!"],
        [EvClassify "isro"; EvEncode "isro"; EvQuery "isro" 5]).
Proof.
  split; [discriminate |].
  destruct process_query_never_empty as (_ & _ & H & _).
  apply (H (MultiAgent.MkSystem "DEMO_KEY" true) "isro" true offline []
           (Exn OtherError "index unavailable")).
  - discriminate.
  - reflexivity.
Defined.

(** ** The provider tools *)


Lemma string_app_assoc (a b c : string) : (a ++ b) ++ c = a ++ (b ++ c).
Proof. induction a as [| x a IH]; simpl; [reflexivity | now rewrite IH]. Qed.









(** ** Queries that are not about space *)

Lemma route_query_off_topic q :
  MultiAgent.is_space_query q = false ->
  MultiAgent.route_query q MultiAgent.agents = off_topic q.
Proof. intros H. unfold MultiAgent.route_query. now rewrite H. Qed.

(** C3, as the code has it.  For every query without a space keyword the
    router returns the off-topic result (no agent, the redirect message,
    the suggestions).  When such a query is not blank, [process_query]
    returns the redirect response, in which the redirect message occurs
    once, and the only step it records is the classification: no
    encoding, no index query, no HTTP request.  (A blank query never
    reaches the router; it gets the welcome text.) *)
Theorem off_topic_query_is_redirected (q : string) :
  MultiAgent.is_space_query q = false ->
  MultiAgent.route_query q MultiAgent.agents = off_topic q
  /\ (strip q <> "" ->
      forall self b w t,
        MultiAgent.process_query_sections self q b w t
        = (Ok (redirect_response q), (t ++ [EvClassify q])%list)
        /\ MultiAgent.process_query self q b w t
           = (Ok (MultiAgent.render (redirect_response q)),
              (t ++ [EvClassify q])%list)
        /\ filter outside_call [EvClassify q] = []
        /\ count_occ string_dec (redirect_response q)
             (MultiAgent.redirect_message q) = 1).
Proof.
  intros Hs. split; [now apply route_query_off_topic |].
  intros Hq self b w t.
  assert (H : MultiAgent.process_query_sections self q b w t
              = (Ok (redirect_response q), (t ++ [EvClassify q])%list)).
  { unfold MultiAgent.process_query_sections.
    rewrite (truthy_nonempty Hq). simpl negb. cbv iota.
    apply try_except_ok.
    unfold MultiAgent.process_query_body, bind, emit.
    rewrite (route_query_off_topic _ Hs). reflexivity. }
  split; [exact H |]. split; [| split; [reflexivity |]].
  - unfold MultiAgent.process_query. now apply sections_then_render.
  - unfold redirect_response.
    rewrite !count_occ_cons_neq by neq_by_prefix.
    rewrite count_occ_cons_eq by reflexivity.
    rewrite !count_occ_cons_neq by neq_by_prefix.
    reflexivity.
Qed.

Lemma off_topic_query_is_redirected_witness :
  MultiAgent.is_space_query "best pizza recipe" = false
  /\ strip "best pizza recipe" <> ""
  /\ MultiAgent.process_query_sections (MultiAgent.MkSystem "DEMO_KEY" true)
       "best pizza recipe" true offline []
     = (Ok (redirect_response "best pizza recipe"),
        [EvClassify "best pizza recipe"]).
Proof.
  split; [reflexivity |]. split; [discriminate |].
  destruct (@off_topic_query_is_redirected "best pizza recipe" eq_refl)
    as [_ H].
  apply H. discriminate.
Defined.

(** C3 as the specification words it fails for the blank query:
    it has no space keyword, and yet the response is the welcome text,
    without the redirect message and without any classification. *)
Lemma blank_query_is_not_redirected :
  MultiAgent.is_space_query "" = false
  /\ MultiAgent.process_query_sections (MultiAgent.MkSystem "DEMO_KEY" true)
       "" true offline []
     = (Ok [MultiAgent.welcome], [])
  /\ existsb (String.eqb (MultiAgent.redirect_message "")) [MultiAgent.welcome]
     = false
  /\ [MultiAgent.welcome] <> redirect_response "".
Proof. repeat split. discriminate. Qed.

(** ** The intent classifiers are single-label *)

Lemma analyze_query_intent_first_rule q :
  find (fun a => rule a (lower q)) intent_order
  = Some (RunAstrogeo.i_agent (RunAstrogeo.analyze_query_intent q)).
Proof.
  unfold RunAstrogeo.analyze_query_intent, intent_order. cbn [find rule].
  repeat match goal with
    | |- context [if ?b then _ else _] => destruct b; try reflexivity
    end.
Qed.

Lemma analyze_query_intent_keyword q :
  let a := RunAstrogeo.i_agent (RunAstrogeo.analyze_query_intent q) in
  a = RunAstrogeo.general_space \/ keyword_match a q = true.
Proof.
  unfold keyword_match, RunAstrogeo.analyze_query_intent. cbv zeta.
  repeat match goal with
    | |- context [if ?b then _ else _] =>
        let E := fresh "E" in
        destruct b eqn:E; cbn [RunAstrogeo.i_agent];
        [ right;
          first [ exact E
                | apply andb_true_iff in E; destruct E as [E _]; exact E ]
        | ]
    end.
  now left.
Qed.

Lemma gradio_intent_first_rule q :
  GradioApp.analyze_query_intent q
  = match find (fun r => any_in (fst r) (lower q)) task_rules with
    | Some r => snd r
    | None => GradioApp.astronomical_analysis
    end.
Proof.
  unfold GradioApp.analyze_query_intent, task_rules. cbn [find fst snd].
  repeat match goal with
    | |- context [if ?b then _ else _] => destruct b; try reflexivity
    end.
Qed.

(** C4, as the code has it.  The intent classifiers are single-label.
    [analyze_query_intent] of run_astrogeo.py returns exactly one
    intent: the first, in the fixed order of its tests, whose whole
    condition holds on the lowercased query (the last one, the general
    intent, always holds); unless it is the general intent, one of its
    keywords occurs in the lowercased query.  [analyze_query_intent] of
    frontend/gradio_app.py returns the task of the first keyword list
    with a keyword in the lowercased query, and the astronomical task
    when there is none.  An intent tested later is not returned, also
    when a keyword of its own occurs. *)
Theorem intent_classifier_is_first_match (q : string) :
  List.length (intents_of q) = 1
  /\ find (fun a => rule a (lower q)) intent_order
     = Some (RunAstrogeo.i_agent (RunAstrogeo.analyze_query_intent q))
  /\ (RunAstrogeo.i_agent (RunAstrogeo.analyze_query_intent q)
      = RunAstrogeo.general_space
      \/ keyword_match (RunAstrogeo.i_agent (RunAstrogeo.analyze_query_intent q)) q
         = true)
  /\ GradioApp.analyze_query_intent q
     = match find (fun r => any_in (fst r) (lower q)) task_rules with
       | Some r => snd r
       | None => GradioApp.astronomical_analysis
       end.
Proof.
  split; [reflexivity |].
  split; [apply analyze_query_intent_first_rule |].
  split; [apply analyze_query_intent_keyword |].
  apply gradio_intent_first_rule.
Qed.

(** C4 as the specification words it fails: in "isro asteroid" a
    keyword of the asteroid intent occurs, and the classification
    returns the ISRO intent alone; in "isro weather" a keyword of the
    data-harvesting task occurs, and the task returned is the
    geospatial one. *)
Lemma matching_intent_left_out :
  keyword_match RunAstrogeo.asteroid_tracker "isro asteroid" = true
  /\ intents_of "isro asteroid" = [RunAstrogeo.isro_geospatial]
  /\ ~ In RunAstrogeo.asteroid_tracker (intents_of "isro asteroid")
  /\ any_in GradioApp.isro_terms (lower "isro weather") = true
  /\ GradioApp.analyze_query_intent "isro weather"
     = GradioApp.geospatial_analysis.
Proof.
  repeat split. intros [H | []]. discriminate H.
Qed.

(** ** The geocoding validator *)

Lemma contains_comma_cons c r :
  contains "," (String c r) = Ascii.eqb c ","%char || contains "," r.
Proof.
  unfold contains. cbn [contains_from String.prefix].
  destruct (ascii_dec ","%char c) as [<- | Hne].
  - rewrite Ascii.eqb_refl. now destruct r.
  - destruct (Ascii.eqb_spec c ","%char) as [-> | _]; [congruence | reflexivity].
Qed.

Lemma contains_comma_chars s :
  contains "," s = existsb (fun c => Ascii.eqb c ","%char) (chars s).
Proof.
  induction s as [| c r IH]; [reflexivity |].
  rewrite contains_comma_cons, IH. reflexivity.
Qed.

Lemma chars_text l : chars (text l) = l.
Proof. apply list_ascii_of_string_of_list_ascii. Qed.

Lemma comma_not_space c : Ascii.eqb c ","%char = true -> is_space c = false.
Proof. intros H. apply Ascii.eqb_eq in H. now subst. Qed.

Lemma existsb_comma_ldrop l :
  existsb (fun c => Ascii.eqb c ","%char) (ldrop is_space l)
  = existsb (fun c => Ascii.eqb c ","%char) l.
Proof.
  induction l as [| c r IH]; [reflexivity |]. simpl.
  destruct (is_space c) eqn:Hs; [| reflexivity].
  destruct (Ascii.eqb c ","%char) eqn:Hc.
  - apply comma_not_space in Hc. congruence.
  - exact IH.
Qed.

Lemma existsb_reversed {A : Type} (p : A -> bool) (l : list A) :
  existsb p (rev l) = existsb p l.
Proof.
  induction l as [| x r IH]; [reflexivity |]. simpl.
  rewrite existsb_app, IH. simpl. rewrite orb_false_r. apply orb_comm.
Qed.

Lemma existsb_comma_rdrop l :
  existsb (fun c => Ascii.eqb c ","%char) (rdrop is_space l)
  = existsb (fun c => Ascii.eqb c ","%char) l.
Proof.
  unfold rdrop.
  rewrite existsb_reversed, existsb_comma_ldrop, existsb_reversed. reflexivity.
Qed.

Lemma existsb_comma_collapse l : forall in_run,
  existsb (fun c => Ascii.eqb c ","%char) (collapse_ws in_run l)
  = existsb (fun c => Ascii.eqb c ","%char) l.
Proof.
  induction l as [| c r IH]; intros in_run; [reflexivity |]. simpl.
  destruct (is_space c) eqn:Hs.
  - assert (Hc : Ascii.eqb c ","%char = false).
    { destruct (Ascii.eqb c ","%char) eqn:Hc; [| reflexivity].
      apply comma_not_space in Hc. congruence. }
    rewrite Hc. destruct in_run; simpl; apply IH.
  - simpl. now rewrite IH.
Qed.

(** The cleaned candidate has a comma exactly when the candidate has. *)
Lemma clean_keeps_comma cand : contains "," (clean cand) = contains "," cand.
Proof.
  unfold clean, sub_ws_space, strip.
  rewrite !contains_comma_chars, !chars_text.
  now rewrite existsb_comma_collapse, existsb_comma_rdrop, existsb_comma_ldrop.
Qed.

(** The validator, step by step. *)
Lemma validate_steps key cand w t :
  WeatherApi._validate_location_with_geocoding_api key cand w t
  = let t1 := (t ++ [direct_request key cand])%list in
    match direct_answer w t key cand with
    | HttpFail _ _ => (Ok None, t1)
    | HttpResp r =>
        if error_status r then (Ok None, t1)
        else
          match resp_json r with
          | None => (Ok None, t1)
          | Some locations =>
              if truthy locations then (Ok (direct_result locations), t1)
              else if negb (contains "," cand) then
                match india_answer w t key cand with
                | HttpFail _ _ => (Ok None, (t1 ++ [india_request key cand])%list)
                | HttpResp r2 =>
                    (Ok (india_result r2), (t1 ++ [india_request key cand])%list)
                end
              else (Ok None, t1)
          end
    end.
Proof.
  rewrite <- (clean_keeps_comma cand).
  unfold WeatherApi._validate_location_with_geocoding_api, direct_answer,
    india_answer, direct_request, india_request, direct_params, india_params,
    clean, error_status, direct_result, india_result.
  unfold try_except, bind, requests_get, lift, ret, raise_for_status, json_of.
  cbv zeta.
  destruct (w_http w t WeatherApi.geo_url _) as [k m | r]; [reflexivity |].
  destruct (Nat.leb 400 (status_code r) && Nat.ltb (status_code r) 600);
    [reflexivity |].
  cbn [catch_Exception].
  destruct (resp_json r) as [locations |]; [| reflexivity].
  destruct (truthy locations).
  - destruct (index locations 0) as [best | e]; [| reflexivity].
    destruct (item best "name") as [n | e]; [| reflexivity].
    destruct (item best "country") as [c | e]; [| reflexivity].
    destruct (WeatherApi.is_str c "IN"); reflexivity.
  - cbn [negb andb].
    destruct (negb (contains "," _)); [| reflexivity].
    destruct (w_http w _ WeatherApi.geo_url _) as [k m | r2]; [reflexivity |].
    destruct (Nat.eqb (status_code r2) 200); [| reflexivity].
    destruct (resp_json r2) as [l2 |]; [| reflexivity].
    destruct (truthy l2); [| reflexivity].
    destruct (index l2 0) as [first | e]; [| reflexivity].
    destruct (item first "name") as [n | e]; reflexivity.
Qed.

Lemma is_str_true c s : WeatherApi.is_str c s = true -> c = JStr s.
Proof.
  destruct c; simpl; try discriminate.
  intros H. apply String.eqb_eq in H. now subst.
Qed.

Lemma direct_result_form locations s :
  direct_result locations = Some s ->
  exists best n c,
    index locations 0 = Ok best /\ item best "name" = Ok n
    /\ item best "country" = Ok c /\ s = py_str n ++ "," ++ py_str c.
Proof.
  unfold direct_result.
  destruct (index locations 0) as [best | e] eqn:Hb; [| discriminate].
  destruct (item best "name") as [n | e] eqn:Hn; [| discriminate].
  destruct (item best "country") as [c | e] eqn:Hc; [| discriminate].
  intros H. exists best, n, c. repeat split; try reflexivity; try assumption.
  destruct (WeatherApi.is_str c "IN") eqn:E; inversion H; subst; [| reflexivity].
  apply is_str_true in E. now subst.
Qed.

Lemma direct_result_of locations best n c :
  index locations 0 = Ok best -> item best "name" = Ok n ->
  item best "country" = Ok c ->
  direct_result locations = Some (py_str n ++ "," ++ py_str c).
Proof.
  intros Hb Hn Hc. unfold direct_result. rewrite Hb, Hn, Hc.
  destruct (WeatherApi.is_str c "IN") eqn:E; [| reflexivity].
  apply is_str_true in E. now subst.
Qed.

Lemma india_result_form r s :
  india_result r = Some s ->
  exists locations n,
    status_code r = 200 /\ resp_json r = Some locations
    /\ first_name locations n /\ s = py_str n ++ ",IN".
Proof.
  unfold india_result, first_name.
  destruct (Nat.eqb (status_code r) 200) eqn:Hs; [| discriminate].
  destruct (resp_json r) as [locations |]; [| discriminate].
  destruct (truthy locations) eqn:Ht; [| discriminate].
  destruct (index locations 0) as [first | e] eqn:Hi; [| discriminate].
  destruct (item first "name") as [n | e] eqn:Hn; [| discriminate].
  intros H. inversion H; subst. exists locations, n.
  apply Nat.eqb_eq in Hs. repeat split; try assumption.
  now exists first.
Qed.

Lemma india_result_of r locations n :
  status_code r = 200 -> resp_json r = Some locations ->
  first_name locations n ->
  india_result r = Some (py_str n ++ ",IN").
Proof.
  intros Hs Hj (Ht & first & Hi & Hn). unfold india_result.
  now rewrite Hs, Hj, Ht, Hi, Hn.
Qed.

Lemma validate_total key cand w t :
  exists res t',
    WeatherApi._validate_location_with_geocoding_api key cand w t = (Ok res, t').
Proof.
  rewrite validate_steps. cbv zeta.
  destruct (direct_answer w t key cand) as [k m | r]; [eexists _, _; reflexivity |].
  destruct (error_status r); [eexists _, _; reflexivity |].
  destruct (resp_json r) as [locations |]; [| eexists _, _; reflexivity].
  destruct (truthy locations); [eexists _, _; reflexivity |].
  destruct (negb (contains "," cand)); [| eexists _, _; reflexivity].
  destruct (india_answer w t key cand); eexists _, _; reflexivity.
Qed.

Lemma validate_some_has_comma key cand w t s t' :
  WeatherApi._validate_location_with_geocoding_api key cand w t
  = (Ok (Some s), t') ->
  exists name cc, s = name ++ "," ++ cc.
Proof.
  rewrite validate_steps. cbv zeta.
  destruct (direct_answer w t key cand) as [k m | r]; [discriminate |].
  destruct (error_status r); [discriminate |].
  destruct (resp_json r) as [locations |]; [| discriminate].
  destruct (truthy locations).
  - intros H. inversion H as [[Hr Ht']].
    destruct (direct_result_form _ Hr) as (best & n & c & _ & _ & _ & ->).
    now exists (py_str n), (py_str c).
  - destruct (negb (contains "," cand)); [| discriminate].
    destruct (india_answer w t key cand) as [k m | r2]; [discriminate |].
    intros H. inversion H as [[Hr Ht']].
    destruct (india_result_form _ Hr) as (l2 & n & _ & _ & _ & ->).
    now exists (py_str n), "IN".
Qed.

(** C10.  Whatever the geocoding validator resolves has the form
    "Name,CC": it is either the name and the country code of the first
    entry of the direct lookup, or, when the direct lookup came back
    empty and the candidate has no comma, the name of the first entry of
    a second lookup with the country code IN.  In that second case the
    validator does send the second request, for the candidate (with its
    white space normalised) followed by ", India", and when that request
    resolves the result is the resolved name followed by ",IN".  The
    validator itself never raises. *)
Theorem geocoding_validator_resolved_form (key cand : string) (w : World)
    (t : trace) :
  (exists res t',
      WeatherApi._validate_location_with_geocoding_api key cand w t = (Ok res, t'))
  /\ (forall s t',
      WeatherApi._validate_location_with_geocoding_api key cand w t
      = (Ok (Some s), t') ->
      (direct_hit w t key cand s \/ india_hit w t key cand s)
      /\ exists name cc, s = name ++ "," ++ cc)
  /\ (forall s,
      direct_hit w t key cand s ->
      WeatherApi._validate_location_with_geocoding_api key cand w t
      = (Ok (Some s), (t ++ [direct_request key cand])%list))
  /\ (forall locations,
      direct_gives w t key cand locations ->
      truthy locations = false ->
      contains "," cand = false ->
      (exists res,
          WeatherApi._validate_location_with_geocoding_api key cand w t
          = (Ok res, (t ++ [direct_request key cand; india_request key cand])%list))
      /\ forall locations_india n,
          india_gives w t key cand locations_india ->
          first_name locations_india n ->
          WeatherApi._validate_location_with_geocoding_api key cand w t
          = (Ok (Some (py_str n ++ ",IN")),
             (t ++ [direct_request key cand; india_request key cand])%list)).
Proof.
  split; [apply validate_total |].
  rewrite validate_steps. cbv zeta.
  split; [| split].
  - intros s t'.
    destruct (direct_answer w t key cand) as [k m | r] eqn:Hd; [discriminate |].
    destruct (error_status r) eqn:He; [discriminate |].
    destruct (resp_json r) as [locations |] eqn:Hj; [| discriminate].
    destruct (truthy locations) eqn:Ht.
    + intros H. inversion H as [[Hr Ht']]. clear H.
      destruct (direct_result_form _ Hr) as (best & n & c & Hb & Hn & Hc & ->).
      split; [| now exists (py_str n), (py_str c)].
      left. exists locations, best, n, c.
      split; [now exists r |]. repeat split; assumption.
    + destruct (contains "," cand) eqn:Hcomma; [discriminate |]. cbn [negb].
      destruct (india_answer w t key cand) as [k m | r2] eqn:Hi; [discriminate |].
      intros H. inversion H as [[Hr Ht']]. clear H.
      destruct (india_result_form _ Hr) as (l2 & n & Hs & Hj2 & Hf & ->).
      split; [| now exists (py_str n), "IN"].
      right. exists locations, l2, n.
      split; [now exists r |]. split; [assumption |]. split; [assumption |].
      split; [now exists r2 |]. split; [exact Hf | reflexivity].
  - intros s (locations & best & n & c & (r & Hd & He & Hj) & Ht & Hb & Hn & Hc & ->).
    rewrite Hd, He, Hj, Ht. now rewrite (direct_result_of _ Hb Hn Hc).
  - intros locations (r & Hd & He & Hj) Ht Hcomma.
    rewrite Hd, He, Hj, Ht, Hcomma. cbn [negb].
    rewrite <- !app_assoc. cbn [app].
    split.
    + destruct (india_answer w t key cand); eexists; reflexivity.
    + intros l2 n (r2 & Hi & Hs & Hj2) Hf.
      rewrite Hi. now rewrite (india_result_of _ Hs Hj2 Hf).
Qed.

Lemma geocoding_validator_resolved_form_witness :
  WeatherApi._validate_location_with_geocoding_api "k" "Mumbai"
    (geocoder [("Mumbai", ("Mumbai", "IN"))]) []
  = (Ok (Some "Mumbai,IN"), [direct_request "k" "Mumbai"])
  /\ WeatherApi._validate_location_with_geocoding_api "k" " Hampi  "
       (geocoder [("Hampi, India", ("Hampi", "IN"))]) []
     = (Ok (Some "Hampi,IN"),
        [direct_request "k" " Hampi  "; india_request "k" " Hampi  "])
  /\ (exists name cc, "Paris,FR" = name ++ "," ++ cc).
Proof.
  split; [| split].
  - destruct (geocoding_validator_resolved_form "k" "Mumbai"
                (geocoder [("Mumbai", ("Mumbai", "IN"))]) [])
      as (_ & _ & H & _).
    apply (H "Mumbai,IN").
    exists (JList [JDict [("name", JStr "Mumbai"); ("country", JStr "IN")]]),
      (JDict [("name", JStr "Mumbai"); ("country", JStr "IN")]),
      (JStr "Mumbai"), (JStr "IN").
    split; [| repeat split].
    eexists. repeat split.
  - destruct (geocoding_validator_resolved_form "k" " Hampi  "
                (geocoder [("Hampi, India", ("Hampi", "IN"))]) [])
      as (_ & _ & _ & H).
    destruct (H (JList [])) as [_ H'].
    + eexists. repeat split.
    + reflexivity.
    + reflexivity.
    + apply (H' (JList [JDict [("name", JStr "Hampi"); ("country", JStr "IN")]])
                (JStr "Hampi")).
      * eexists. repeat split.
      * split; [reflexivity |]. eexists. split; reflexivity.
  - destruct (geocoding_validator_resolved_form "k" "Paris"
                (geocoder [("Paris", ("Paris", "FR"))]) [])
      as (_ & H & _).
    apply (H "Paris,FR" [direct_request "k" "Paris"]). reflexivity.
Defined.

(** ** The order of the location patterns *)

(** A validated location is not the empty string. *)
Lemma validated_is_truthy key cand w t s t' :
  WeatherApi._validate_location_with_geocoding_api key cand w t
  = (Ok (Some s), t') ->
  WeatherApi.opt_truthy (Some s) = true.
Proof.
  intros H.
  destruct (validate_some_has_comma _ _ _ _ H) as (name & cc & ->).
  simpl. destruct name; reflexivity.
Qed.

Lemma validate_first_cons key c r w t :
  WeatherApi.validate_first key (c :: r) w t
  = match WeatherApi._validate_location_with_geocoding_api key c w t with
    | (Ok (Some s), t1) => (Ok (Some s), t1)
    | (Ok None, t1) => WeatherApi.validate_first key r w t1
    | (Raise e, t1) => (Raise e, t1)
    end.
Proof.
  cbn [WeatherApi.validate_first]. unfold bind.
  destruct (WeatherApi._validate_location_with_geocoding_api key c w t)
    as [[[s |] | e] t1] eqn:H; try reflexivity.
  now rewrite (validated_is_truthy _ _ _ _ H).
Qed.

(** The loop goes through the candidates in order: what it does on a
    list in two parts is what it does on the second part, provided the
    first part has no candidate that validates. *)
Lemma validate_first_app key pre post w t t1 :
  WeatherApi.validate_first key pre w t = (Ok None, t1) ->
  WeatherApi.validate_first key (pre ++ post)%list w t
  = WeatherApi.validate_first key post w t1.
Proof.
  revert t. induction pre as [| c pre IH]; intros t H.
  - inversion H; subst. reflexivity.
  - cbn [app]. rewrite validate_first_cons in *.
    destruct (WeatherApi._validate_location_with_geocoding_api key c w t)
      as [[[s |] | e] t2]; try discriminate H.
    now apply IH.
Qed.

Lemma validate_first_found key cands : forall w t v t2,
  WeatherApi.validate_first key cands w t = (Ok (Some v), t2) ->
  exists pre c post t1,
    cands = (pre ++ c :: post)%list
    /\ WeatherApi.validate_first key pre w t = (Ok None, t1)
    /\ WeatherApi._validate_location_with_geocoding_api key c w t1
       = (Ok (Some v), t2).
Proof.
  induction cands as [| c r IH]; intros w t v t2 H; [discriminate H |].
  rewrite validate_first_cons in H.
  destruct (WeatherApi._validate_location_with_geocoding_api key c w t)
    as [[[s |] | e] t1] eqn:Hc; try discriminate H.
  - inversion H; subst. exists [], c, r, t. repeat split. exact Hc.
  - destruct (IH _ _ _ _ H) as (pre & c' & post & t1' & -> & Hpre & Hv).
    exists (c :: pre), c', post, t1'. repeat split; [| exact Hv].
    rewrite validate_first_cons, Hc. exact Hpre.
Qed.

Lemma validate_first_total key cands : forall w t,
  exists res t', WeatherApi.validate_first key cands w t = (Ok res, t').
Proof.
  induction cands as [| c r IH]; intros w t; [now exists None, t |].
  rewrite validate_first_cons.
  destruct (validate_total key c w t) as (res & t1 & ->).
  destruct res as [s |]; [now exists (Some s), t1 | apply IH].
Qed.

(** main_backup.py: the patterns are tried in order, and the first one
    that leaves a location wins. *)
Lemma first_location_found q : forall ps l,
  MainBackup.first_location q ps = Some l <->
  exists pre r post,
    ps = (pre ++ r :: post)%list
    /\ Forall (fun r' => MainBackup.try_pattern q r' = None) pre
    /\ MainBackup.try_pattern q r = Some l.
Proof.
  induction ps as [| r ps IH]; intros l; simpl.
  - split; [discriminate |]. intros (pre & r & post & H & _).
    destruct pre; discriminate H.
  - destruct (MainBackup.try_pattern q r) as [l' |] eqn:Hr.
    + split.
      * intros H. inversion H; subst. exists [], r, ps. repeat split; auto.
      * intros (pre & r' & post & H & Hpre & Hl).
        destruct pre as [| p pre]; inversion H; subst.
        -- congruence.
        -- inversion Hpre; subst. congruence.
    + rewrite IH. split.
      * intros (pre & r' & post & -> & Hpre & Hl).
        exists (r :: pre), r', post. repeat split; auto.
      * intros (pre & r' & post & H & Hpre & Hl).
        destruct pre as [| p pre]; inversion H; subst.
        -- congruence.
        -- inversion Hpre; subst. now exists pre, r', post.
Qed.

Lemma try_pattern_some q r l :
  MainBackup.try_pattern q r = Some l ->
  exists m, Re.search false r q = Some m
            /\ l = MainBackup.trim (Re.group1 q m)
            /\ 2 < String.length l.
Proof.
  unfold MainBackup.try_pattern.
  destruct (Re.search false r q) as [m |]; [| discriminate].
  destruct (Nat.ltb 2 _) eqn:Hlen; [| discriminate].
  intros H. inversion H; subst. exists m. repeat split.
  now apply Nat.ltb_lt.
Qed.

(** C5, as the code has it.  [_extract_location] of main_backup.py tries
    its four patterns ("in X", "for X", "at X", "of X", with a
    capitalized X) in that order and returns the trimmed match of the
    first pattern that leaves more than two characters; a pattern that
    matches but leaves two characters or fewer is passed over.
    [_extract_and_validate_location] of tools/weather_api.py applies all
    of its four patterns ("for X", "in X", a leading phrase before
    weather, climate, analysis or temperature, capitalized phrases) and
    collects their candidates in that order.  Without an API key
    (DEMO_KEY) it returns the first collected candidate, unvalidated and
    without any request.  With a key it always returns, and it returns
    a location exactly when some candidate validates while none of the
    candidates before it did, the location being the validated form of
    that candidate. *)
Theorem location_patterns_in_priority_order :
  (forall q l,
      MainBackup._extract_location q = Some l <->
      exists pre r post,
        MainBackup.patterns = (pre ++ r :: post)%list
        /\ Forall (fun r' => MainBackup.try_pattern q r' = None) pre
        /\ MainBackup.try_pattern q r = Some l)
  /\ (forall q r l,
      MainBackup.try_pattern q r = Some l ->
      exists m, Re.search false r q = Some m
                /\ l = MainBackup.trim (Re.group1 q m)
                /\ 2 < String.length l)
  /\ (forall q,
      WeatherApi.potential_locations q
      = (WeatherApi.stripped_group Patterns.for_pattern q
         ++ WeatherApi.stripped_group Patterns.in_pattern q
         ++ WeatherApi.stripped_group Patterns.start_pattern q
         ++ WeatherApi.caps_candidates q)%list)
  /\ (forall q w t,
      WeatherApi._extract_and_validate_location "DEMO_KEY" q w t
      = (Ok (hd_error (WeatherApi.potential_locations q)), t))
  /\ (forall key q w t,
      key <> "DEMO_KEY" ->
      (exists res t',
          WeatherApi._extract_and_validate_location key q w t = (Ok res, t'))
      /\ forall v t2,
          WeatherApi._extract_and_validate_location key q w t = (Ok (Some v), t2)
          <->
          exists pre c post t1,
            WeatherApi.potential_locations q = (pre ++ c :: post)%list
            /\ WeatherApi.validate_first key pre w t = (Ok None, t1)
            /\ WeatherApi._validate_location_with_geocoding_api key c w t1
               = (Ok (Some v), t2)).
Proof.
  split; [intros; apply first_location_found |].
  split; [intros q r l H; now apply try_pattern_some |].
  split; [reflexivity |].
  split.
  - intros q w t. unfold WeatherApi._extract_and_validate_location.
    cbn [String.eqb Ascii.eqb Bool.eqb]. 
    now destruct (WeatherApi.potential_locations q).
  - intros key q w t Hkey.
    unfold WeatherApi._extract_and_validate_location.
    apply String.eqb_neq in Hkey. rewrite Hkey.
    split; [apply validate_first_total |].
    intros v t2. split.
    + apply validate_first_found.
    + intros (pre & c & post & t1 & -> & Hpre & Hv).
      rewrite (@validate_first_app key pre (c :: post) w t t1 Hpre),
        validate_first_cons.
      now rewrite Hv.
Qed.

Lemma location_patterns_in_priority_order_witness :
  "k" <> "DEMO_KEY"
  /\ WeatherApi._extract_and_validate_location "k"
       "weather for Atlantis in Mumbai"
       (geocoder [("Mumbai", ("Mumbai", "IN"))]) []
     = (Ok (Some "Mumbai,IN"),
        [direct_request "k" "Atlantis in Mumbai";
         india_request "k" "Atlantis in Mumbai";
         direct_request "k" "Mumbai"])
  /\ (exists m,
        Re.search false (Patterns.prep_pattern "for") "in A,  for Delhi" = Some m
        /\ "Delhi" = MainBackup.trim (Re.group1 "in A,  for Delhi" m)
        /\ 2 < String.length "Delhi").
Proof.
  destruct location_patterns_in_priority_order as (_ & Htry & _ & _ & Hval).
  split; [discriminate |]. split.
  - destruct (Hval "k" "weather for Atlantis in Mumbai"
                (geocoder [("Mumbai", ("Mumbai", "IN"))]) []) as [_ H];
      [discriminate |].
    apply H.
    exists ["Atlantis in Mumbai"], "Mumbai", ["Atlantis"; "Mumbai"],
      [direct_request "k" "Atlantis in Mumbai";
       india_request "k" "Atlantis in Mumbai"].
    split; [vm_compute; reflexivity |].
    split; vm_compute; reflexivity.
  - apply (Htry "in A,  for Delhi" (Patterns.prep_pattern "for") "Delhi").
    vm_compute. reflexivity.
Defined.

(** C5 as the specification words it fails in both extractors.
    In tools/weather_api.py, with a key, the first pattern ("for X")
    matches "weather for Atlantis in Mumbai" and its candidate does not
    validate; the location returned comes from the second pattern.  In
    main_backup.py the first pattern ("in X") matches "in A,  for Delhi"
    and the location returned is the match of the second. *)
Lemma first_matching_pattern_does_not_always_win :
  WeatherApi.stripped_group Patterns.for_pattern "weather for Atlantis in Mumbai"
    = ["Atlantis in Mumbai"]
  /\ WeatherApi.stripped_group Patterns.in_pattern "weather for Atlantis in Mumbai"
    = ["Mumbai"]
  /\ fst (WeatherApi._validate_location_with_geocoding_api "k" "Atlantis in Mumbai"
            (geocoder [("Mumbai", ("Mumbai", "IN"))]) [])
     = Ok None
  /\ fst (WeatherApi._extract_and_validate_location "k"
            "weather for Atlantis in Mumbai"
            (geocoder [("Mumbai", ("Mumbai", "IN"))]) [])
     = Ok (Some "Mumbai,IN")
  /\ option_map (Re.group1 "in A,  for Delhi")
       (Re.search false (Patterns.prep_pattern "in") "in A,  for Delhi")
     = Some "A, "
  /\ option_map (Re.group1 "in A,  for Delhi")
       (Re.search false (Patterns.prep_pattern "for") "in A,  for Delhi")
     = Some "Delhi"
  /\ MainBackup._extract_location "in A,  for Delhi" = Some "Delhi".
Proof. repeat split; vm_compute; reflexivity. Qed.

(** ** What is trimmed and what is filtered *)

Lemma stripped_group_in r q c :
  In c (WeatherApi.stripped_group r q) ->
  exists m, Re.search true r q = Some m /\ c = strip (Re.group1 q m).
Proof.
  unfold WeatherApi.stripped_group.
  destruct (Re.search true r q) as [m |]; [| intros []].
  intros [<- | []]. now exists m.
Qed.

Lemma ldrop_head p l c r : ldrop p l = c :: r -> p c = false.
Proof.
  induction l as [| x l IH]; simpl; [discriminate |].
  destruct (p x) eqn:Hx; [exact IH |].
  intros H. inversion H; subst. exact Hx.
Qed.

(** After [rstrip(ch)] a string does not end with [ch]: stripping again
    changes nothing. *)
Lemma rstrip_char_idempotent ch s :
  rstrip_char ch (rstrip_char ch s) = rstrip_char ch s.
Proof.
  unfold rstrip_char, rdrop. rewrite chars_text, rev_involutive.
  destruct (ldrop (Ascii.eqb ch) (rev (chars s))) as [| c r] eqn:H;
    [reflexivity |].
  apply ldrop_head in H. simpl. now rewrite H.
Qed.

(** C6, as the code has it.  In tools/weather_api.py a candidate is
    either the white-space-stripped match of one of the first three
    patterns (nothing else is trimmed from it and the stoplist is not
    applied to it) or a capitalized phrase whose lower-case form is not
    in the stoplist; what the extractor returns without a key is one of
    these candidates, and what it returns with a key is the validated
    form of one of them.  In main_backup.py the location returned is
    the match of one of the four patterns, stripped of white space and
    then of trailing commas, question marks and exclamation marks, in
    that order; it has more than two characters and no exclamation mark
    at its end; no stoplist is applied. *)
Theorem candidates_trimmed_and_filtered :
  (forall q c,
      In c (WeatherApi.potential_locations q) ->
      (exists r m,
          In r [Patterns.for_pattern; Patterns.in_pattern; Patterns.start_pattern]
          /\ Re.search true r q = Some m
          /\ c = strip (Re.group1 q m))
      \/ (In c (Re.findall false Patterns.caps_pattern q)
          /\ mem (lower c) WeatherApi.stoplist = false))
  /\ (forall q w t c t',
      WeatherApi._extract_and_validate_location "DEMO_KEY" q w t
      = (Ok (Some c), t') ->
      In c (WeatherApi.potential_locations q))
  /\ (forall key q w t v t2,
      key <> "DEMO_KEY" ->
      WeatherApi._extract_and_validate_location key q w t = (Ok (Some v), t2) ->
      exists c t1,
        In c (WeatherApi.potential_locations q)
        /\ WeatherApi._validate_location_with_geocoding_api key c w t1
           = (Ok (Some v), t2))
  /\ (forall q l,
      MainBackup._extract_location q = Some l ->
      exists r m,
        In r MainBackup.patterns
        /\ Re.search false r q = Some m
        /\ l = rstrip_char "!"%char
                 (rstrip_char "?"%char
                    (rstrip_char ","%char (strip (Re.group1 q m))))
        /\ 2 < String.length l
        /\ rstrip_char "!"%char l = l).
Proof.
  split; [| split; [| split]].
  - intros q c H. unfold WeatherApi.potential_locations in H.
    repeat (apply in_app_or in H; destruct H as [H | H]).
    + apply stripped_group_in in H. destruct H as (m & Hm & ->).
      left. exists Patterns.for_pattern, m. simpl. auto.
    + apply stripped_group_in in H. destruct H as (m & Hm & ->).
      left. exists Patterns.in_pattern, m. simpl. auto.
    + apply stripped_group_in in H. destruct H as (m & Hm & ->).
      left. exists Patterns.start_pattern, m. simpl. auto.
    + right. unfold WeatherApi.caps_candidates in H.
      apply filter_In in H. destruct H as [Hin Hstop].
      split; [exact Hin |]. now apply negb_true_iff in Hstop.
  - intros q w t c t' H.
    unfold WeatherApi._extract_and_validate_location in H.
    cbn [String.eqb Ascii.eqb Bool.eqb] in H. 
    destruct (WeatherApi.potential_locations q) as [| c0 rest];
      inversion H; subst. now left.
  - intros key q w t v t2 Hkey H.
    unfold WeatherApi._extract_and_validate_location in H.
    apply String.eqb_neq in Hkey. rewrite Hkey in H.
    destruct (validate_first_found _ _ _ _ H)
      as (pre & c & post & t1 & E & _ & Hv).
    exists c, t1. split; [| exact Hv].
    rewrite E. apply in_or_app. right. now left.
  - intros q l H. unfold MainBackup._extract_location in H.
    apply first_location_found in H.
    destruct H as (pre & r & post & E & _ & Hr).
    destruct (try_pattern_some _ _ Hr) as (m & Hm & Hl & Hlen).
    exists r, m. split; [rewrite E; apply in_or_app; right; now left |].
    split; [exact Hm |]. split; [exact Hl |]. split; [exact Hlen |].
    rewrite Hl. unfold MainBackup.trim. apply rstrip_char_idempotent.
Qed.

Lemma candidates_trimmed_and_filtered_witness :
  ((exists r m,
       In r [Patterns.for_pattern; Patterns.in_pattern; Patterns.start_pattern]
       /\ Re.search true r "Weather for Mumbai," = Some m
       /\ "Mumbai," = strip (Re.group1 "Weather for Mumbai," m))
   \/ (In "Mumbai," (Re.findall false Patterns.caps_pattern "Weather for Mumbai,")
       /\ mem (lower "Mumbai,") WeatherApi.stoplist = false))
  /\ In "Mumbai," (WeatherApi.potential_locations "Weather for Mumbai,")
  /\ (exists c t1,
        In c (WeatherApi.potential_locations "What's the weather in Mumbai?")
        /\ WeatherApi._validate_location_with_geocoding_api "k" c
             (geocoder [("Mumbai", ("Mumbai", "IN"))]) t1
           = (Ok (Some "Mumbai,IN"), [direct_request "k" "Mumbai"]))
  /\ (exists r m,
        In r MainBackup.patterns
        /\ Re.search false r "the air of Goa!" = Some m
        /\ "Goa" = rstrip_char "!"%char
                     (rstrip_char "?"%char
                        (rstrip_char ","%char
                           (strip (Re.group1 "the air of Goa!" m))))
        /\ 2 < String.length "Goa"
        /\ rstrip_char "!"%char "Goa" = "Goa").
Proof.
  destruct candidates_trimmed_and_filtered as (Hc & Hd & Hk & Hm).
  split; [| split; [| split]].
  - apply (Hc "Weather for Mumbai," "Mumbai,"). vm_compute. now left.
  - apply (Hd "Weather for Mumbai," offline [] "Mumbai," []).
    vm_compute. reflexivity.
  - apply (Hk "k" "What's the weather in Mumbai?"
              (geocoder [("Mumbai", ("Mumbai", "IN"))]) []
              "Mumbai,IN" [direct_request "k" "Mumbai"]).
    + discriminate.
    + vm_compute. reflexivity.
  - apply (Hm "the air of Goa!" "Goa"). vm_compute. reflexivity.
Defined.

(** C6 as the specification words it fails.  The candidate of
    the "for X" pattern in "forecast for weather" is the stoplist word
    "weather", and it is what the extractor returns without a key.  The
    candidate of the same pattern in "Weather for Mumbai," keeps its
    comma and is sent for validation with it.  And main_backup.py, which
    has no stoplist, returns "Weather" for "Report for Weather". *)
Lemma stoplist_word_and_trailing_comma_get_through :
  WeatherApi.potential_locations "forecast for weather"
    = ["weather"; "forecast for"]
  /\ mem (lower "weather") WeatherApi.stoplist = true
  /\ WeatherApi._extract_and_validate_location "DEMO_KEY" "forecast for weather"
       offline []
     = (Ok (Some "weather"), [])
  /\ WeatherApi.potential_locations "Weather for Mumbai," = ["Mumbai,"; "Mumbai"]
  /\ rstrip_char ","%char "Mumbai," = "Mumbai"
  /\ hd_error (snd (WeatherApi._extract_and_validate_location "k"
                      "Weather for Mumbai," (geocoder []) []))
     = Some (EvHttp WeatherApi.geo_url
               [("q", "Mumbai,"); ("limit", "3"); ("appid", "k")])
  /\ MainBackup._extract_location "Report for Weather" = Some "Weather".
Proof. repeat split; vm_compute; reflexivity. Qed.

(** ** No location *)

Lemma validate_first_none key cands : forall w t t',
  WeatherApi.validate_first key cands w t = (Ok None, t')
  <-> none_validates key w cands t t'.
Proof.
  induction cands as [| c r IH]; intros w t t'.
  - simpl. unfold ret. split; [now inversion 1 | now intros ->].
  - rewrite validate_first_cons. cbn [none_validates].
    destruct (WeatherApi._validate_location_with_geocoding_api key c w t)
      as [[[s |] | e] t1].
    + split; [discriminate | intros (t2 & H & _); discriminate H].
    + rewrite IH. split.
      * intros H. now exists t1.
      * intros (t2 & H & Hr). inversion H; subst. exact Hr.
    + split; [discriminate | intros (t2 & H & _); discriminate H].
Qed.

Lemma first_location_none q ps :
  MainBackup.first_location q ps = None
  <-> Forall (fun r => MainBackup.try_pattern q r = None) ps.
Proof.
  induction ps as [| r ps IH]; simpl.
  - split; constructor.
  - destruct (MainBackup.try_pattern q r) eqn:Hr.
    + split; [discriminate |]. intros H. inversion H; subst. congruence.
    + rewrite IH. split.
      * intros H. now constructor.
      * intros H. now inversion H.
Qed.

(** C7, as the code has it.  [_extract_and_validate_location] of
    tools/weather_api.py returns [None], without raising, when the
    patterns give no candidate (with or without a key) and when, with a
    key, no candidate validates; it never raises.  [_extract_location]
    of main_backup.py returns [None] exactly when no pattern leaves a
    location.  [extract_location_from_query] of frontend/gradio_app.py
    is different: when none of its patterns matches it returns the
    default place name "Delhi". *)
Theorem no_location_is_none_except_gradio_default :
  (forall key q w t,
      WeatherApi.potential_locations q = [] ->
      WeatherApi._extract_and_validate_location key q w t = (Ok None, t))
  /\ (forall key q w t t',
      key <> "DEMO_KEY" ->
      none_validates key w (WeatherApi.potential_locations q) t t' ->
      WeatherApi._extract_and_validate_location key q w t = (Ok None, t'))
  /\ (forall key q w t, exists res t',
      WeatherApi._extract_and_validate_location key q w t = (Ok res, t'))
  /\ (forall q,
      MainBackup._extract_location q = None
      <-> Forall (fun r => MainBackup.try_pattern q r = None) MainBackup.patterns)
  /\ (forall q,
      GradioApp.first_match (lower q) GradioApp.location_patterns = None ->
      GradioApp.extract_location_from_query q = "Delhi").
Proof.
  split; [| split; [| split; [| split]]].
  - intros key q w t H. unfold WeatherApi._extract_and_validate_location.
    rewrite H. now destruct (String.eqb key "DEMO_KEY").
  - intros key q w t t' Hkey H.
    unfold WeatherApi._extract_and_validate_location.
    apply String.eqb_neq in Hkey. rewrite Hkey.
    now apply validate_first_none.
  - intros key q w t. unfold WeatherApi._extract_and_validate_location.
    destruct (String.eqb key "DEMO_KEY").
    + eexists _, _. reflexivity.
    + apply validate_first_total.
  - intros q. apply first_location_none.
  - intros q H. unfold GradioApp.extract_location_from_query. now rewrite H.
Qed.

Lemma no_location_is_none_except_gradio_default_witness :
  WeatherApi._extract_and_validate_location "k" "hello" offline [] = (Ok None, [])
  /\ WeatherApi._extract_and_validate_location "k" "weather in Atlantis"
       (geocoder []) []
     = (Ok None,
        [direct_request "k" "Atlantis"; india_request "k" "Atlantis";
         direct_request "k" "Atlantis"; india_request "k" "Atlantis"])
  /\ Forall (fun r => MainBackup.try_pattern "weather in mumbai" r = None)
       MainBackup.patterns
  /\ GradioApp.extract_location_from_query "hello there" = "Delhi".
Proof.
  destruct no_location_is_none_except_gradio_default
    as (Hempty & Hnone & _ & Hmain & Hgradio).
  split; [| split; [| split]].
  - apply Hempty. vm_compute. reflexivity.
  - apply Hnone; [discriminate |]. vm_compute.
    eexists. split; [reflexivity |]. eexists. split; reflexivity.
  - apply (Hmain "weather in mumbai"). vm_compute. reflexivity.
  - apply Hgradio. vm_compute. reflexivity.
Defined.

(** C7 as the specification words it fails in
    frontend/gradio_app.py: no pattern matches "hello there", and the
    extractor returns the default place name. *)
Lemma default_place_name_is_returned :
  GradioApp.first_match (lower "hello there") GradioApp.location_patterns = None
  /\ GradioApp.extract_location_from_query "hello there" = "Delhi".
Proof. split; vm_compute; reflexivity. Qed.

Import Traces.

(* ================================================================== *)
(** * Further properties *)
(* ================================================================== *)

(** ** The tools at work *)

Example weather_tool_on_a_known_city :
  WeatherTools.IntelligentWeatherTool_run one_decimal "k" "Weather in Pune"
    openweather []
  = (Ok pune_weather_text,
     [direct_request "k" "Pune"; current_request "k" "Pune,IN";
      forecast_request "k" "Pune,IN"]).
Proof. vm_compute. reflexivity. Qed.

Example air_quality_tool_on_a_known_city :
  WeatherTools.IntelligentAirQualityTool_run "k" "Air quality in Pune"
    openweather []
  = (Ok pune_air_text,
     [direct_request "k" "Pune"; coordinates_request "k" "Pune,IN";
      EvHttp WeatherTools.air_url
        [("lat", "18.52"); ("lon", "73.85"); ("appid", "k")]]).
Proof. vm_compute. reflexivity. Qed.

Example geospatial_agent_on_a_comprehensive_query :
  snd (GeospatialExpert.process_intelligent_query one_decimal (Ok "k")
         "Complete assessment for Pune" openweather [])
  = [direct_request "k" "Pune"; current_request "k" "Pune,IN";
     forecast_request "k" "Pune,IN";
     direct_request "k" "Pune"; coordinates_request "k" "Pune,IN";
     EvHttp WeatherTools.air_url
       [("lat", "18.52"); ("lon", "73.85"); ("appid", "k")]].
Proof. vm_compute. reflexivity. Qed.

(** ** What the search returns *)

Lemma skipn_nth_error {A : Type} (l : list A) :
  forall i d, nth_error l i = Some d -> skipn i l = d :: skipn (S i) l.
Proof.
  induction l as [| x l IH]; intros [| i] d H; simpl in H; try discriminate.
  - now inversion H.
  - simpl. now apply IH.
Qed.

Lemma score_of_in_range results drow drows i d :
  distances results = Some (drow :: drows) ->
  nth_error drow i = Some d ->
  score_of results i = Ok (PrimFloat.sub 1%float d).
Proof.
  intros Hd Hn. unfold score_of. rewrite Hd. simpl.
  destruct drow as [| d0 drow]; [now destruct i |].
  now rewrite Hn.
Qed.

Lemma score_of_out_of_range results d0 drow drows i :
  distances results = Some ((d0 :: drow) :: drows) ->
  nth_error (d0 :: drow) i = None ->
  exists e, score_of results i = Raise e /\ e_class e = IndexError.
Proof.
  intros Hd Hn. unfold score_of. rewrite Hd. simpl first_row. cbv beta iota.
  unfold rbind. rewrite Hn. eexists. split; reflexivity.
Qed.

Lemma collect_exact floor results drow drows :
  distances results = Some (drow :: drows) ->
  forall docs i acc,
    i + length docs <= length drow ->
    collect floor results i docs acc
    = Ok (app acc (kept floor (scored docs (skipn i drow)))).
Proof.
  intros Hd. induction docs as [| doc docs IH]; intros i acc Hlen; simpl.
  - unfold scored, kept. simpl. now rewrite app_nil_r.
  - simpl in Hlen.
    destruct (nth_error drow i) as [d |] eqn:Hn.
    2:{ apply nth_error_None in Hn. lia. }
    rewrite (score_of_in_range _ _ Hd Hn). simpl.
    rewrite IH by lia.
    rewrite (skipn_nth_error _ _ Hn).
    unfold scored, kept. simpl.
    destruct (PrimFloat.ltb floor (PrimFloat.sub 1 d)).
    + now rewrite <- app_assoc.
    + reflexivity.
Qed.

Lemma scored_documents_exact floor results docs rows drow drows :
  documents results = Some (docs :: rows) ->
  distances results = Some (drow :: drows) ->
  length docs <= length drow ->
  scored_documents floor results = Ok (kept floor (scored docs drow)).
Proof.
  intros Hdocs Hd Hlen. unfold scored_documents. rewrite Hdocs.
  destruct docs as [| doc docs]; [reflexivity |].
  now rewrite (collect_exact floor _ Hd (doc :: docs) 0 []).
Qed.

Lemma collect_short_row floor results d0 drow drows :
  distances results = Some ((d0 :: drow) :: drows) ->
  forall docs i acc,
    i <= length (d0 :: drow) ->
    length (d0 :: drow) < i + length docs ->
    exists e, collect floor results i docs acc = Raise e
              /\ e_class e = IndexError.
Proof.
  intros Hd. induction docs as [| doc docs IH]; intros i acc Hi Hlen.
  - simpl in *. lia.
  - cbn [collect].
    destruct (nth_error (d0 :: drow) i) as [d |] eqn:Hn.
    + rewrite (score_of_in_range _ _ Hd Hn). cbn [rbind].
      assert (i < length (d0 :: drow)) by (apply nth_error_Some; congruence).
      apply IH; [lia | simpl in *; lia].
    + destruct (@score_of_out_of_range _ _ _ _ _ Hd Hn) as (e & He & Hc).
      exists e. rewrite He. now split.
Qed.

Lemma collect_empty_row floor results drows :
  distances results = Some ([] :: drows) ->
  PrimFloat.ltb floor 0%float = false ->
  forall docs i acc, collect floor results i docs acc = Ok acc.
Proof.
  intros Hd Hf. induction docs as [| doc docs IH]; intros i acc; cbn [collect].
  - reflexivity.
  - unfold score_of. rewrite Hd. cbn. rewrite Hf. apply IH.
Qed.

(** The three searches on a retriever that answers. *)
Lemma searches_on_answer q k w t results :
  w_encode w t q = None ->
  w_query w (t ++ [EvEncode q])%list q k = Ok results ->
  RunAstrogeo.search_vector_db (Handles true true) q k w t
    = (match scored_documents floor_03 results with
       | Ok frs => Ok frs | Raise _ => Ok [] end,
       (t ++ [EvEncode q; EvQuery q k])%list)
  /\ (forall c a,
       FinalApp.search_vector_db (FinalApp.MkFinal (Handles true true) c a) q k w t
       = (match scored_documents floor_02 results with
          | Ok frs => Ok frs | Raise _ => Ok [] end,
          (t ++ [EvEncode q; EvQuery q k])%list))
  /\ (forall key,
       MultiAgent.search_vector_db (MultiAgent.MkSystem key true) q k w t
       = (scored_documents floor_03 results,
          (t ++ [EvEncode q; EvQuery q k])%list)).
Proof.
  intros He Hq.
  assert (Ht : ((t ++ [EvEncode q]) ++ [EvQuery q k] = t ++ [EvEncode q; EvQuery q k])%list)
    by now rewrite <- app_assoc.
  repeat split; intros;
    unfold RunAstrogeo.search_vector_db, FinalApp.search_vector_db,
      MultiAgent.search_vector_db, MultiAgent.VectorStore_search_vector_db,
      try_except, encode_and_query, bind, encode, collection_query, lift;
    simpl; rewrite He, Hq, Ht.
  - now destruct (scored_documents floor_03 results).
  - now destruct (scored_documents floor_02 results).
  - now destruct (scored_documents floor_03 results).
Qed.

(** X1.  When the encoder and the index answer and the distance row is
    at least as long as the document row, each of the three searches
    returns exactly the documents whose score, one minus the distance at
    the same position, is above the floor of the call site (0.3, and 0.2
    in final_astrogeo_app.py): each with that score, in the order of the
    index, none left out; and it has called the encoder once and then
    the index once. *)
Theorem search_returns_the_rows_above_the_floor :
  forall q k w t results docs rows drow drows,
    w_encode w t q = None ->
    w_query w (t ++ [EvEncode q])%list q k = Ok results ->
    documents results = Some (docs :: rows) ->
    distances results = Some (drow :: drows) ->
    length docs <= length drow ->
    RunAstrogeo.search_vector_db (Handles true true) q k w t
      = (Ok (kept floor_03 (scored docs drow)),
         (t ++ [EvEncode q; EvQuery q k])%list)
    /\ (forall c a,
         FinalApp.search_vector_db
           (FinalApp.MkFinal (Handles true true) c a) q k w t
         = (Ok (kept floor_02 (scored docs drow)),
            (t ++ [EvEncode q; EvQuery q k])%list))
    /\ (forall key,
         MultiAgent.search_vector_db (MultiAgent.MkSystem key true) q k w t
         = (Ok (kept floor_03 (scored docs drow)),
            (t ++ [EvEncode q; EvQuery q k])%list)).
Proof.
  intros q k w t results docs rows drow drows He Hq Hdocs Hd Hlen.
  destruct (searches_on_answer q k w t He Hq) as (Hr & Hf & Hm).
  repeat split; intros.
  - rewrite Hr. now rewrite (scored_documents_exact floor_03 _ Hdocs Hd Hlen).
  - rewrite Hf. now rewrite (scored_documents_exact floor_02 _ Hdocs Hd Hlen).
  - rewrite Hm. now rewrite (scored_documents_exact floor_03 _ Hdocs Hd Hlen).
Qed.

Lemma search_returns_the_rows_above_the_floor_witness :
  RunAstrogeo.search_vector_db (Handles true true) "isro" 3
    (indexed two_close_one_far) []
  = (Ok [Fragment "Chandrayaan-3 landed in 2023." 0.75%float;
         Fragment "Bhuvan serves maps." 0.5%float],
     [EvEncode "isro"; EvQuery "isro" 3]).
Proof.
  apply (search_returns_the_rows_above_the_floor "isro" 3
           (indexed two_close_one_far) []
           (results := two_close_one_far) (rows := []) (drows := [])
           eq_refl eq_refl eq_refl eq_refl).
  simpl. lia.
Defined.

(** X2.  When the distance row is shorter than the document row (and not
    empty), the searches of run_astrogeo.py and final_astrogeo_app.py
    return the empty list, also when documents before the missing
    distance were above the floor, and the search of
    multi_agent_astrogeo.py raises an [IndexError]; with an empty
    distance row every score is 0 and all three return the empty
    list. *)
Theorem short_distance_row_empties_the_search :
  forall q k w t results docs rows drow drows,
    w_encode w t q = None ->
    w_query w (t ++ [EvEncode q])%list q k = Ok results ->
    documents results = Some (docs :: rows) ->
    distances results = Some (drow :: drows) ->
    length drow < length docs ->
    RunAstrogeo.search_vector_db (Handles true true) q k w t
      = (Ok [], (t ++ [EvEncode q; EvQuery q k])%list)
    /\ (forall c a,
         FinalApp.search_vector_db
           (FinalApp.MkFinal (Handles true true) c a) q k w t
         = (Ok [], (t ++ [EvEncode q; EvQuery q k])%list))
    /\ (forall key,
         (drow = [] ->
          MultiAgent.search_vector_db (MultiAgent.MkSystem key true) q k w t
          = (Ok [], (t ++ [EvEncode q; EvQuery q k])%list))
         /\ (drow <> [] ->
             exists e,
               MultiAgent.search_vector_db (MultiAgent.MkSystem key true) q k w t
               = (Raise e, (t ++ [EvEncode q; EvQuery q k])%list)
               /\ e_class e = IndexError)).
Proof.
  intros q k w t results docs rows drow drows He Hq Hdocs Hd Hlen.
  destruct (searches_on_answer q k w t He Hq) as (Hr & Hf & Hm).
  assert (H3 : forall floor, PrimFloat.ltb floor 0%float = false ->
             (drow = [] -> scored_documents floor results = Ok [])
             /\ (drow <> [] -> exists e, scored_documents floor results = Raise e
                                         /\ e_class e = IndexError)).
  { intros floor Hfl. unfold scored_documents. rewrite Hdocs.
    destruct docs as [| doc docs]; [simpl in Hlen; lia |].
    split.
    - intros ->. now apply collect_empty_row with drows.
    - intros Hne. destruct drow as [| d0 drow]; [congruence |].
      eapply collect_short_row; [exact Hd | simpl; lia | simpl in *; lia]. }
  destruct (H3 floor_03 eq_refl) as [H3e H3s].
  destruct (H3 floor_02 eq_refl) as [H2e H2s].
  repeat split; intros.
  - rewrite Hr. destruct drow as [| d0 drow].
    + now rewrite H3e.
    + destruct H3s as (e & -> & _); [discriminate | reflexivity].
  - rewrite Hf. destruct drow as [| d0 drow].
    + now rewrite H2e.
    + destruct H2s as (e & -> & _); [discriminate | reflexivity].
  - rewrite Hm. now rewrite H3e.
  - rewrite Hm. destruct (H3s H) as (e & -> & Hc). now exists e.
Qed.

Lemma short_distance_row_empties_the_search_witness :
  RunAstrogeo.search_vector_db (Handles true true) "isro" 3
    (indexed one_distance_short) []
  = (Ok [], [EvEncode "isro"; EvQuery "isro" 3]).
Proof.
  apply (short_distance_row_empties_the_search "isro" 3
           (indexed one_distance_short) []
           (results := one_distance_short) (rows := []) (drows := [])
           eq_refl eq_refl eq_refl eq_refl).
  simpl. lia.
Defined.

(** ** The requests of the geocoding validator *)

(** A request, its status check and its decoding, in front of any
    continuation. *)
Lemma fetch_steps {A : Type} url ps (k : response -> json -> M A) w t :
  (r <- requests_get url ps ;;
   lift (raise_for_status r) ;;;
   d <- lift (json_of r) ;;
   k r d) w t
  = match w_http w t url ps with
    | HttpFail kd m =>
        (Raise (Exn (RequestException kd) m), (t ++ [EvHttp url ps])%list)
    | HttpResp r =>
        match (_ <~ raise_for_status r ;; json_of r) with
        | Ok d => k r d w (t ++ [EvHttp url ps])%list
        | Raise e => (Raise e, (t ++ [EvHttp url ps])%list)
        end
    end.
Proof.
  unfold bind, requests_get, lift.
  destruct (w_http w t url ps) as [kd m | r]; [reflexivity |].
  destruct (raise_for_status r) as [[] | e]; [| reflexivity].
  cbn [rbind]. now destruct (json_of r).
Qed.

Lemma validate_trace key cand w t :
  exists res,
    WeatherApi._validate_location_with_geocoding_api key cand w t
      = (Ok res, (t ++ [direct_request key cand])%list)
    \/ (contains "," cand = false
        /\ WeatherApi._validate_location_with_geocoding_api key cand w t
           = (Ok res, (t ++ [direct_request key cand; india_request key cand])%list)).
Proof.
  rewrite validate_steps. cbv zeta.
  destruct (direct_answer w t key cand) as [k m | r]; [now eexists; left |].
  destruct (error_status r); [now eexists; left |].
  destruct (resp_json r) as [locations |]; [| now eexists; left].
  destruct (truthy locations); [now eexists; left |].
  destruct (contains "," cand) eqn:Hc; cbn [negb]; [now eexists; left |].
  rewrite <- app_assoc. cbn [app].
  destruct (india_answer w t key cand) as [k m | r2]; eexists; right; split;
    reflexivity.
Qed.

Lemma validate_first_requests key w :
  forall cands t,
    exists res evs,
      WeatherApi.validate_first key cands w t = (Ok res, (t ++ evs)%list)
      /\ Forall (http_to WeatherApi.geo_url) evs
      /\ length evs <= 2 * length cands
      /\ (forallb (contains ",") cands = true -> length evs <= length cands).
Proof.
  induction cands as [| c cands IH]; intros t.
  - exists None, []. cbn. rewrite app_nil_r. repeat split; auto.
  - cbn [WeatherApi.validate_first]. unfold bind.
    assert (Hstep : exists res evs,
               WeatherApi._validate_location_with_geocoding_api key c w t
                 = (Ok res, (t ++ evs)%list)
               /\ Forall (http_to WeatherApi.geo_url) evs
               /\ length evs <= 2
               /\ (contains "," c = true -> length evs <= 1)).
    { destruct (validate_trace key c w t) as (res & [H | [Hc H]]);
        exists res; eexists; (split; [exact H |]); repeat split;
        try (repeat constructor; eexists; reflexivity); cbn; auto; congruence. }
    destruct Hstep as (res & evs & Hv & Hg & Hl & Hcomma). rewrite Hv.
    destruct (WeatherApi.opt_truthy res).
    + exists res, evs. unfold ret. repeat split; auto.
      * cbn [length]. lia.
      * cbn [forallb length]. intros Hc. apply andb_true_iff in Hc.
        destruct Hc as [Hc _]. specialize (Hcomma Hc). lia.
    + destruct (IH (t ++ evs)%list) as (res' & evs' & Hv' & Hg' & Hl' & Hcomma').
      exists res', (evs ++ evs')%list. rewrite Hv', app_assoc.
      repeat split.
      * apply Forall_app. now split.
      * rewrite length_app. cbn [length]. lia.
      * cbn [forallb length]. intros Hc. apply andb_true_iff in Hc.
        destruct Hc as [Hc Hr]. specialize (Hcomma Hc). specialize (Hcomma' Hr).
        rewrite length_app. lia.
Qed.

Lemma extract_requests key query w t :
  exists res evs,
    WeatherApi._extract_and_validate_location key query w t
      = (Ok res, (t ++ evs)%list)
    /\ Forall (http_to WeatherApi.geo_url) evs
    /\ length evs <= 2 * length (WeatherApi.potential_locations query)
    /\ (key = "DEMO_KEY" -> evs = []).
Proof.
  unfold WeatherApi._extract_and_validate_location. cbv zeta.
  destruct (String.eqb key "DEMO_KEY") eqn:Hk.
  - eexists. exists []. unfold ret. rewrite app_nil_r.
    repeat split; auto. cbn. lia.
  - destruct (validate_first_requests key w
                (WeatherApi.potential_locations query) t)
      as (res & evs & Hv & Hg & Hl & _).
    exists res, evs. repeat split; auto.
    intros ->. discriminate Hk.
Qed.

(** X3.  Looking for the location of a query never raises and sends
    requests to the geocoding endpoint only: at most two for each
    candidate of the query, none at all under the key DEMO_KEY; one
    validation sends the direct lookup and, for a candidate without a
    comma only, at most one retry with [, India] appended. *)
Theorem geocoding_requests_are_bounded :
  forall key w t,
    (forall query, exists res evs,
        WeatherApi._extract_and_validate_location key query w t
          = (Ok res, (t ++ evs)%list)
        /\ Forall (http_to WeatherApi.geo_url) evs
        /\ length evs <= 2 * length (WeatherApi.potential_locations query)
        /\ (key = "DEMO_KEY" -> evs = []))
    /\ (forall cand, exists res,
          WeatherApi._validate_location_with_geocoding_api key cand w t
            = (Ok res, (t ++ [direct_request key cand])%list)
          \/ (contains "," cand = false
              /\ WeatherApi._validate_location_with_geocoding_api key cand w t
                 = (Ok res, (t ++ [direct_request key cand;
                                   india_request key cand])%list))).
Proof.
  intros key w t. split.
  - intros query. apply extract_requests.
  - intros cand. apply validate_trace.
Qed.

Lemma geocoding_requests_are_bounded_witness :
  exists res evs,
    WeatherApi._extract_and_validate_location "DEMO_KEY" "Weather in Pune"
      offline []
    = (Ok res, ([] ++ evs)%list)
    /\ evs = [].
Proof.
  destruct (geocoding_requests_are_bounded "DEMO_KEY" offline []) as [H _].
  destruct (H "Weather in Pune") as (res & evs & He & _ & _ & Hk).
  exists res, evs. split; [exact He | apply Hk; reflexivity].
Defined.

(** ** The weather tool *)

Lemma weather_data_steps fmt key loc w t :
  WeatherTools._get_comprehensive_weather_data fmt key loc w t
  = let ps := WeatherTools.weather_params key loc in
    let t1 := (t ++ [current_request key loc])%list in
    let t2 := (t ++ [current_request key loc; forecast_request key loc])%list in
    match fetched w t WeatherTools.current_url ps with
    | Raise e => (Ok (weather_failure loc e), t1)
    | Ok current_data =>
        match fetched w t1 WeatherTools.forecast_url ps with
        | Raise e => (Ok (weather_failure loc e), t2)
        | Ok forecast_data =>
            (Ok (match WeatherTools.weather_report fmt current_data forecast_data with
                 | Ok s => s
                 | Raise e => weather_failure loc e
                 end), t2)
        end
    end.
Proof.
  unfold WeatherTools._get_comprehensive_weather_data, fetched, current_request,
    forecast_request, weather_failure.
  unfold try_except, bind, requests_get, lift, ret. cbv zeta.
  destruct (w_http w t _ _) as [k m | r]; [reflexivity |].
  destruct (raise_for_status r) as [[] | e]; [| reflexivity].
  cbn [rbind]. destruct (json_of r) as [cur | e]; [| reflexivity].
  rewrite <- app_assoc. cbn [app].
  destruct (w_http w _ _ _) as [k m | r2]; [reflexivity |].
  destruct (raise_for_status r2) as [[] | e]; [| reflexivity].
  cbn [rbind]. destruct (json_of r2) as [fc | e]; [| reflexivity].
  now destruct (WeatherTools.weather_report fmt cur fc).
Qed.

(** X4.  The weather tool never raises.  It first looks for the location
    of the query, which sends requests to the geocoding endpoint only;
    without a location it returns its fixed text on how to name a city
    and sends nothing more; with a location it sends the request for the
    current weather and then at most the request for the forecast, both
    for the location that the lookup returned. *)
Theorem weather_tool_requests :
  forall fmt key query w t,
  exists loc evs,
    WeatherApi._extract_and_validate_location key query w t
      = (Ok loc, (t ++ evs)%list)
    /\ Forall (http_to WeatherApi.geo_url) evs
    /\ length evs <= 2 * length (WeatherApi.potential_locations query)
    /\ match loc with
       | Some (String _ _ as v) =>
           exists s,
             WeatherTools.IntelligentWeatherTool_run fmt key query w t
               = (Ok s, (t ++ evs ++ [current_request key v])%list)
             \/ WeatherTools.IntelligentWeatherTool_run fmt key query w t
                = (Ok s, (t ++ evs ++ [current_request key v;
                                       forecast_request key v])%list)
       | _ =>
           WeatherTools.IntelligentWeatherTool_run fmt key query w t
             = (Ok (WeatherTools.no_location_text query), (t ++ evs)%list)
       end.
Proof.
  intros fmt key query w t.
  destruct (extract_requests key query w t) as (loc & evs & He & Hg & Hl & _).
  exists loc, evs. repeat split; auto.
  unfold WeatherTools.IntelligentWeatherTool_run, try_except, bind.
  rewrite He.
  destruct loc as [[| c v] |]; try reflexivity.
  rewrite weather_data_steps. cbv zeta. rewrite !app_assoc.
  destruct (fetched w _ WeatherTools.current_url _);
    [| eexists; left; reflexivity].
  destruct (fetched w _ WeatherTools.forecast_url _);
    eexists; right; reflexivity.
Qed.

(** X5.  A weather lookup stops at the first step that fails: when the
    request for the current weather raises, has a 4xx or 5xx status or
    does not decode, the forecast is not requested, and the text
    returned names the location and the error; a failure of the forecast
    request, or of building the report, gives the same kind of text
    after the two requests. *)
Theorem weather_lookup_stops_at_the_first_failure :
  forall fmt key loc w t,
    let ps := WeatherTools.weather_params key loc in
    let t1 := (t ++ [current_request key loc])%list in
    let t2 := (t ++ [current_request key loc; forecast_request key loc])%list in
    (forall e,
        fetched w t WeatherTools.current_url ps = Raise e ->
        WeatherTools._get_comprehensive_weather_data fmt key loc w t
        = (Ok (weather_failure loc e), t1))
    /\ (forall current_data e,
          fetched w t WeatherTools.current_url ps = Ok current_data ->
          fetched w t1 WeatherTools.forecast_url ps = Raise e ->
          WeatherTools._get_comprehensive_weather_data fmt key loc w t
          = (Ok (weather_failure loc e), t2))
    /\ (forall current_data forecast_data,
          fetched w t WeatherTools.current_url ps = Ok current_data ->
          fetched w t1 WeatherTools.forecast_url ps = Ok forecast_data ->
          WeatherTools._get_comprehensive_weather_data fmt key loc w t
          = (Ok (match WeatherTools.weather_report fmt current_data
                         forecast_data with
                 | Ok s => s
                 | Raise e => weather_failure loc e
                 end), t2)).
Proof.
  intros fmt key loc w t ps t1 t2. repeat split; intros;
    rewrite weather_data_steps; cbv zeta; fold ps; fold t1; rewrite H;
    try rewrite H0; reflexivity.
Qed.

Lemma weather_lookup_stops_at_the_first_failure_witness :
  WeatherTools._get_comprehensive_weather_data (fun _ => "0.0") "k" "Pune,IN"
    (answering (HttpResp server_error)) []
  = (Ok "Weather data retrieval failed for Pune,IN: 500 Server Error: Internal Server Error",
     [current_request "k" "Pune,IN"]).
Proof.
  destruct (weather_lookup_stops_at_the_first_failure (fun _ => "0.0") "k"
              "Pune,IN" (answering (HttpResp server_error)) []) as (H & _).
  apply (H (Exn (RequestException HTTPError)
                "500 Server Error: Internal Server Error")).
  reflexivity.
Defined.

Lemma for_each_dry (items : list json) :
  Forall (fun it => exists kvs, it = JDict kvs /\ assoc "rain" kvs = None) items ->
  forall acc,
    for_each items acc
      (fun acc it => v <~ WeatherTools.rain_3h it ;; Num.add_json acc v)
    = Ok (match acc with
          | Num.NInt z => Num.NInt z
          | Num.NFloat f => Num.NFloat f
          end)
    \/ exists f, acc = Num.NFloat f.
Proof.
  intros H acc. destruct acc; [left | right; eauto].
  induction H as [| it items (kvs & -> & Hr) _ IH]; [reflexivity |].
  cbn [for_each]. unfold WeatherTools.rain_3h. cbn [get rbind]. rewrite Hr.
  cbn. rewrite Z.add_0_r. exact IH.
Qed.

(** X6.  The rainfall figure of the weather report reads the first 16
    entries of the forecast list and nothing else of the forecast: two
    forecasts that agree on these entries give the same report; and
    when none of these entries has a [rain] key the total is the
    integer 0. *)
Theorem rainfall_reads_sixteen_forecast_entries :
  forall fmt current_data forecast_data forecast_data' l l',
    item forecast_data "list" = Ok (JList l) ->
    item forecast_data' "list" = Ok (JList l') ->
    firstn 16 l = firstn 16 l' ->
    WeatherTools.weather_report fmt current_data forecast_data
      = WeatherTools.weather_report fmt current_data forecast_data'
    /\ (Forall (fun it => exists kvs, it = JDict kvs /\ assoc "rain" kvs = None)
          (firstn 16 l) ->
        WeatherTools.total_rainfall forecast_data = Ok (Num.NInt 0)).
Proof.
  intros fmt cur fd fd' l l' Hl Hl' Hfirst.
  assert (Ht : WeatherTools.total_rainfall fd = WeatherTools.total_rainfall fd').
  { unfold WeatherTools.total_rainfall. rewrite Hl, Hl'. cbn [rbind slice_to].
    now rewrite Hfirst. }
  split.
  - unfold WeatherTools.weather_report. now rewrite Ht.
  - intros Hdry. unfold WeatherTools.total_rainfall. rewrite Hl.
    cbn [rbind slice_to iter].
    destruct (for_each_dry Hdry (Num.NInt 0)) as [H | [f H]]; [exact H | discriminate].
Qed.

Lemma rainfall_reads_sixteen_forecast_entries_witness :
  WeatherTools.weather_report (fun _ => "0.0") (JDict [])
      (JDict [("list", JList (repeat (JDict []) 16 ++ [JStr "ignored"]))])
    = WeatherTools.weather_report (fun _ => "0.0") (JDict [])
        (JDict [("list", JList (repeat (JDict []) 16))])
  /\ WeatherTools.total_rainfall
       (JDict [("list", JList (repeat (JDict []) 16 ++ [JStr "ignored"]))])
     = Ok (Num.NInt 0).
Proof.
  destruct (rainfall_reads_sixteen_forecast_entries (fun _ => "0.0") (JDict [])
              (JDict [("list", JList (repeat (JDict []) 16 ++ [JStr "ignored"]))])
              (JDict [("list", JList (repeat (JDict []) 16))])
              eq_refl eq_refl eq_refl) as [H1 H2].
  split; [exact H1 |].
  apply H2. cbn. repeat constructor; exists []; split; reflexivity.
Defined.

(** ** The air-quality tool *)

Lemma air_data_steps key loc w t :
  WeatherTools._get_air_quality_data key loc w t
  = let t1 := (t ++ [coordinates_request key loc])%list in
    match fetched w t WeatherApi.geo_url (WeatherTools.geo_params key loc) with
    | Raise e => (Ok (air_failure loc e), t1)
    | Ok geo_data =>
        if truthy geo_data then
          match WeatherTools.first_place geo_data with
          | Raise e => (Ok (air_failure loc e), t1)
          | Ok (lat, lon, city_name, country) =>
              let t2 := (t ++ [coordinates_request key loc;
                               pollution_request key lat lon])%list in
              match fetched w t1 WeatherTools.air_url
                      (WeatherTools.air_params key lat lon) with
              | Raise e => (Ok (air_failure loc e), t2)
              | Ok air_data =>
                  (Ok (match WeatherTools.air_report city_name country air_data with
                       | Ok s => s
                       | Raise e => air_failure loc e
                       end), t2)
              end
          end
        else (Ok ("Air quality coordinates not found for " ++ loc), t1)
    end.
Proof.
  unfold WeatherTools._get_air_quality_data, fetched, coordinates_request,
    pollution_request, air_failure.
  unfold try_except, bind, requests_get, lift, ret. cbv zeta.
  destruct (w_http w t _ _) as [k m | r]; [reflexivity |].
  destruct (raise_for_status r) as [[] | e]; [| reflexivity].
  cbn [rbind]. destruct (json_of r) as [geo | e]; [| reflexivity].
  destruct (truthy geo); cbn [negb]; [| reflexivity].
  destruct (WeatherTools.first_place geo) as [[[[lat lon] city] country] | e];
    [| reflexivity].
  rewrite <- app_assoc. cbn [app].
  destruct (w_http w _ _ _) as [k m | r2]; [reflexivity |].
  destruct (raise_for_status r2) as [[] | e]; [| reflexivity].
  cbn [rbind]. destruct (json_of r2) as [air | e]; [| reflexivity].
  now destruct (WeatherTools.air_report city country air).
Qed.

(** X7.  The air-quality tool never raises.  It looks for the location
    of the query as the weather tool does; without a location it returns
    its fixed text and sends nothing more; with a location it asks the
    geocoding endpoint for the coordinates of that location and then
    sends at most one request for the pollution data. *)
Theorem air_quality_tool_requests :
  forall key query w t,
  exists loc evs,
    WeatherApi._extract_and_validate_location key query w t
      = (Ok loc, (t ++ evs)%list)
    /\ Forall (http_to WeatherApi.geo_url) evs
    /\ length evs <= 2 * length (WeatherApi.potential_locations query)
    /\ match loc with
       | Some (String _ _ as v) =>
           exists s,
             WeatherTools.IntelligentAirQualityTool_run key query w t
               = (Ok s, (t ++ evs ++ [coordinates_request key v])%list)
             \/ exists lat lon,
                 WeatherTools.IntelligentAirQualityTool_run key query w t
                 = (Ok s, (t ++ evs ++ [coordinates_request key v;
                                        pollution_request key lat lon])%list)
       | _ =>
           WeatherTools.IntelligentAirQualityTool_run key query w t
             = (Ok (WeatherTools.no_air_location_text query), (t ++ evs)%list)
       end.
Proof.
  intros key query w t.
  destruct (extract_requests key query w t) as (loc & evs & He & Hg & Hl & _).
  exists loc, evs. repeat split; auto.
  unfold WeatherTools.IntelligentAirQualityTool_run,
    WeatherTools._extract_location_from_query, try_except, bind.
  rewrite He.
  destruct loc as [[| c v] |]; try reflexivity.
  rewrite air_data_steps. cbv zeta. rewrite !app_assoc.
  destruct (fetched w _ WeatherApi.geo_url _) as [geo | e];
    [| eexists; left; reflexivity].
  destruct (truthy geo); [| eexists; left; reflexivity].
  destruct (WeatherTools.first_place geo) as [[[[lat lon] city] country] | e];
    [| eexists; left; reflexivity].
  destruct (fetched w _ WeatherTools.air_url _);
    eexists; right; exists lat, lon; rewrite ?app_assoc; reflexivity.
Qed.

(** X8.  An air-quality lookup asks for the pollution data only after
    the geocoding endpoint gave a non-empty answer whose first entry has
    [lat], [lon] and [name]; the request then carries the [lat] and the
    [lon] of that entry.  When the geocoding answer is empty the text
    says that the coordinates were not found; when a step raises, before
    or after the request for the pollution data, the text names the
    location and the error; otherwise the text is the report on the
    pollution data. *)
Theorem air_quality_lookup_needs_coordinates :
  forall key loc w t,
    let t1 := (t ++ [coordinates_request key loc])%list in
    (forall e,
        fetched w t WeatherApi.geo_url (WeatherTools.geo_params key loc) = Raise e ->
        WeatherTools._get_air_quality_data key loc w t
        = (Ok (air_failure loc e), t1))
    /\ (forall geo_data,
          fetched w t WeatherApi.geo_url (WeatherTools.geo_params key loc)
            = Ok geo_data ->
          truthy geo_data = false ->
          WeatherTools._get_air_quality_data key loc w t
          = (Ok ("Air quality coordinates not found for " ++ loc), t1))
    /\ (forall geo_data e,
          fetched w t WeatherApi.geo_url (WeatherTools.geo_params key loc)
            = Ok geo_data ->
          truthy geo_data = true ->
          WeatherTools.first_place geo_data = Raise e ->
          WeatherTools._get_air_quality_data key loc w t
          = (Ok (air_failure loc e), t1))
    /\ (forall s t',
          WeatherTools._get_air_quality_data key loc w t = (Ok s, t') ->
          t' <> t1 ->
          exists geo_data first lat lon name,
            fetched w t WeatherApi.geo_url (WeatherTools.geo_params key loc)
              = Ok geo_data
            /\ truthy geo_data = true
            /\ index geo_data 0 = Ok first
            /\ item first "lat" = Ok lat
            /\ item first "lon" = Ok lon
            /\ item first "name" = Ok name
            /\ t' = (t1 ++ [pollution_request key lat lon])%list)
    /\ (forall geo_data lat lon city_name country e,
          fetched w t WeatherApi.geo_url (WeatherTools.geo_params key loc)
            = Ok geo_data ->
          truthy geo_data = true ->
          WeatherTools.first_place geo_data = Ok (lat, lon, city_name, country) ->
          fetched w t1 WeatherTools.air_url (WeatherTools.air_params key lat lon)
            = Raise e ->
          WeatherTools._get_air_quality_data key loc w t
          = (Ok (air_failure loc e),
             (t1 ++ [pollution_request key lat lon])%list))
    /\ (forall geo_data lat lon city_name country air_data,
          fetched w t WeatherApi.geo_url (WeatherTools.geo_params key loc)
            = Ok geo_data ->
          truthy geo_data = true ->
          WeatherTools.first_place geo_data = Ok (lat, lon, city_name, country) ->
          fetched w t1 WeatherTools.air_url (WeatherTools.air_params key lat lon)
            = Ok air_data ->
          WeatherTools._get_air_quality_data key loc w t
          = (Ok (match WeatherTools.air_report city_name country air_data with
                 | Ok s => s
                 | Raise e => air_failure loc e
                 end),
             (t1 ++ [pollution_request key lat lon])%list)).
Proof.
  intros key loc w t t1.
  split; [| split; [| split; [| split; [| split]]]]; intros.
  - rewrite air_data_steps. cbv zeta. now rewrite H.
  - rewrite air_data_steps. cbv zeta. now rewrite H, H0.
  - rewrite air_data_steps. cbv zeta. now rewrite H, H0, H1.
  - rewrite air_data_steps in H. cbv zeta in H. fold t1 in H.
    destruct (fetched w t WeatherApi.geo_url _) as [geo | e] eqn:Hf;
      [| inversion H; subst; congruence].
    destruct (truthy geo) eqn:Htr; [| inversion H; subst; congruence].
    destruct (WeatherTools.first_place geo) as [[[[lat lon] city] country] | e]
      eqn:Hp; [| inversion H; subst; congruence].
    unfold WeatherTools.first_place in Hp.
    destruct (index geo 0) as [first | e] eqn:Hi; [| discriminate].
    cbn [rbind] in Hp.
    destruct (item first "lat") as [lat' | e] eqn:Hlat; [| discriminate].
    cbn [rbind] in Hp.
    destruct (item first "lon") as [lon' | e] eqn:Hlon; [| discriminate].
    cbn [rbind] in Hp.
    destruct (item first "name") as [n | e] eqn:Hname; [| discriminate].
    cbn [rbind] in Hp.
    destruct (get first "country" (JStr "Unknown")) as [c | e]; [| discriminate].
    cbn [rbind] in Hp. inversion Hp; subst.
    exists geo, first, lat, lon, city.
    split; [reflexivity |]. split; [exact Htr |]. split; [exact Hi |].
    split; [exact Hlat |]. split; [exact Hlon |]. split; [exact Hname |].
    unfold t1 in *. rewrite <- app_assoc. cbn [app].
    destruct (fetched w _ WeatherTools.air_url _); now inversion H.
  - rewrite air_data_steps. cbv zeta. fold t1. rewrite H, H0, H1, H2.
    unfold t1. now rewrite <- app_assoc.
  - rewrite air_data_steps. cbv zeta. fold t1. rewrite H, H0, H1, H2.
    unfold t1. now rewrite <- app_assoc.
Qed.

Lemma air_quality_lookup_needs_coordinates_witness :
  WeatherTools._get_air_quality_data "k" "Atlantis"
    (geocoder [("Pune", ("Pune", "IN"))]) []
  = (Ok "Air quality coordinates not found for Atlantis",
     [coordinates_request "k" "Atlantis"]).
Proof.
  destruct (air_quality_lookup_needs_coordinates "k" "Atlantis"
              (geocoder [("Pune", ("Pune", "IN"))]) []) as (_ & H & _).
  apply (H (JList [])); reflexivity.
Defined.

(** ** The listings of the NASA tools *)

Lemma code_points_cons c r :
  exists g gs, code_points (c :: r) = (c :: g) :: gs.
Proof.
  cbn [code_points]. destruct (code_points r) as [| g gs]; [now exists [], [] |].
  destruct (starts_with_continuation g); eauto.
Qed.

(** A slice that is not empty, of a text that is not empty, has a first
    character. *)
Lemma take_has_a_character n c s :
  exists g gs, code_points (chars (take (S n) (String c s))) = g :: gs.
Proof.
  unfold take, chars. cbn [list_ascii_of_string].
  destruct (code_points_cons c (list_ascii_of_string s)) as (g & gs & ->).
  cbn [firstn List.concat app]. unfold text. cbn [string_of_list_ascii].
  cbn [list_ascii_of_string].
  destruct (code_points_cons c
              (list_ascii_of_string
                 (string_of_list_ascii (g ++ List.concat (firstn n gs)))))
    as (g' & gs' & ->).
  eauto.
Qed.

Lemma string_app_nil_r (s : string) : s ++ "" = s.
Proof. induction s as [| c s IH]; cbn; congruence. Qed.

Lemma concat_empty_cons (x : string) (l : list string) :
  String.concat "" (x :: l) = x ++ String.concat "" l.
Proof. destruct l; cbn; [now rewrite string_app_nil_r | reflexivity]. Qed.

Lemma mars_lines :
  forall ps text s,
    for_each ps text NasaApi.mars_line = Ok s ->
    exists lines,
      length lines = length ps /\ Forall mars_entry lines
      /\ s = text ++ String.concat "" lines.
Proof.
  induction ps as [| p ps IH]; intros text s H; cbn [for_each] in H.
  - inversion H; subst. exists []. cbn.
    repeat split; auto. now rewrite string_app_nil_r.
  - unfold NasaApi.mars_line in H at 1.
    destruct (item p "earth_date") as [d |]; [| discriminate]. cbn [rbind] in H.
    destruct (item p "camera") as [c |]; [| discriminate]. cbn [rbind] in H.
    destruct (item c "full_name") as [n |]; [| discriminate]. cbn [rbind] in H.
    destruct (item p "img_src") as [u |]; [| discriminate]. cbn [rbind] in H.
    apply IH in H. destruct H as (lines & Hlen & Hall & ->).
    exists (("- " ++ py_str d ++ " " ++ py_str n ++ ": " ++ py_str u ++ nl) :: lines).
    split; [cbn [length]; now rewrite Hlen |].
    split; [constructor; [now exists (py_str d), (py_str n), (py_str u) | exact Hall] |].
    rewrite concat_empty_cons. now rewrite !string_app_assoc.
Qed.

Lemma asteroid_entries :
  forall arr items items',
    for_each arr items NasaApi.asteroid_entry = Ok items' ->
    exists lines,
      items' = app items lines /\ length lines = length arr
      /\ Forall asteroid_line lines.
Proof.
  induction arr as [| a arr IH]; intros items items' H; cbn [for_each] in H.
  - inversion H; subst. exists []. now rewrite app_nil_r.
  - unfold NasaApi.asteroid_entry in H at 1.
    destruct (item a "name") as [n |]; [| discriminate]. cbn [rbind] in H.
    destruct (item a "is_potentially_hazardous_asteroid") as [h |];
      [| discriminate]. cbn [rbind] in H.
    apply IH in H. destruct H as (lines & -> & Hlen & Hall).
    exists ((py_str n ++ " (Potentially Hazardous: " ++ py_str h ++ ")") :: lines).
    split; [now rewrite <- app_assoc |].
    split; [cbn [length]; now rewrite Hlen |].
    constructor; [now exists (py_str n), (py_str h) | exact Hall].
Qed.

Lemma asteroid_day_entries items day items' :
  NasaApi.asteroid_day items day = Ok items' ->
  exists lines,
    items' = app items lines /\ length lines <= 2 /\ Forall asteroid_line lines.
Proof.
  unfold NasaApi.asteroid_day. intros H.
  destruct (slice_to (snd day) 2) as [head |] eqn:Hs; [| discriminate].
  cbn [rbind] in H.
  destruct (iter head) as [arr |] eqn:Hi; [| discriminate]. cbn [rbind] in H.
  assert (Harr : length arr <= 2 \/ exists s r, arr = JStr s :: r).
  { destruct (snd day); unfold slice_to, fail in Hs; try discriminate;
      inversion Hs; subst; cbn [iter] in Hi; inversion Hi; subst.
    - destruct (code_points (chars (take 2 s))) as [| g gs];
        [left; cbn; lia |]. right. cbn. eauto.
    - left. change (length (firstn 2 l) <= 2). rewrite length_firstn. lia. }
  destruct Harr as [Hlen | (s & r & ->)].
  - apply asteroid_entries in H. destruct H as (lines & -> & Hl & Hall).
    exists lines. repeat split; auto. lia.
  - cbn in H. discriminate.
Qed.

Lemma asteroid_days :
  forall days items items',
    for_each days items NasaApi.asteroid_day = Ok items' ->
    exists lines,
      items' = app items lines /\ length lines <= 2 * length days
      /\ Forall asteroid_line lines.
Proof.
  induction days as [| day days IH]; intros items items' H; cbn [for_each] in H.
  - inversion H; subst. exists []. rewrite app_nil_r. repeat split; auto.
  - destruct (NasaApi.asteroid_day items day) as [items1 |] eqn:Hd;
      [| discriminate]. cbn [rbind] in H.
    apply asteroid_day_entries in Hd. destruct Hd as (l1 & -> & Hl1 & Ha1).
    apply IH in H. destruct H as (l2 & -> & Hl2 & Ha2).
    exists (app l1 l2). rewrite <- app_assoc. repeat split.
    + rewrite length_app. cbn [length]. lia.
    + apply Forall_app. now split.
Qed.

(** X9.  The two listings of tools/nasa_api.py are short however long
    the answer of the provider is.  The Mars rover tool returns its
    failure text, its text for no photos, or the heading followed by
    one to three lines, each made of a date, a camera name and an image
    address.  The asteroid tool returns its failure text or the heading
    followed by at most four entries, each made of a name and the
    hazard flag. *)
Theorem nasa_listings_are_bounded :
  forall key sol w t,
    (exists s,
        run_tool (MarsRover key sol) w t
          = (Ok s, (t ++ [request_of (MarsRover key sol)])%list)
        /\ ((exists m, s = failure_prefix (MarsRover key sol) ++ m)
            \/ s = "No Mars photos found for that sol."
            \/ exists lines,
                1 <= length lines <= 3 /\ Forall mars_entry lines
                /\ s = mars_header ++ String.concat "" lines))
    /\ (exists s,
          run_tool (Asteroid key) w t
            = (Ok s, (t ++ [request_of (Asteroid key)])%list)
          /\ ((exists m, s = failure_prefix (Asteroid key) ++ m)
              \/ exists entries,
                  length entries <= 4 /\ Forall asteroid_line entries
                  /\ s = asteroid_header ++ join nl entries)).
Proof.
  intros key sol w t. split.
  - cbn [run_tool request_of failure_prefix].
    unfold NasaApi.NasaMarsRoverTool_run, try_except, bind, requests_get, lift, ret.
    destruct (w_http w t _ _) as [k m | r]; [eexists; split; [reflexivity | eauto] |].
    destruct (raise_for_status r) as [[] | e];
      [| eexists; split; [reflexivity | eauto]].
    destruct (json_of r) as [body | e]; [| eexists; split; [reflexivity | eauto]].
    destruct (get body "photos" (JList [])) as [photos | e];
      [| eexists; split; [reflexivity | eauto]].
    destruct (truthy photos) eqn:Htr; cbn [negb];
      [| eexists; split; [reflexivity | eauto]].
    destruct (slice_to photos 3) as [items |] eqn:Hs;
      [| eexists; split; [reflexivity | eauto]].
    destruct (iter items) as [ps |] eqn:Hi;
      [| eexists; split; [reflexivity | eauto]].
    destruct (for_each ps _ NasaApi.mars_line) as [s |] eqn:Hf;
      [| eexists; split; [reflexivity | eauto]].
    exists s. split; [reflexivity |]. right. right.
    assert (Hps : 1 <= length ps <= 3).
    { destruct photos; unfold slice_to, fail in Hs; try discriminate;
        inversion Hs; subst; cbn [iter] in Hi; inversion Hi; subst.
      - destruct s0 as [| c s0]; [discriminate Htr |].
        destruct (take_has_a_character 2 c s0) as (g & gs & Hg).
        rewrite Hg in Hf. cbn in Hf. discriminate.
      - change (1 <= length (firstn 3 l) <= 3). rewrite length_firstn.
        destruct l; [discriminate Htr |]. cbn [length]. lia. }
    apply mars_lines in Hf. destruct Hf as (lines & Hlen & Hall & ->).
    exists lines. rewrite Hlen. repeat split; auto; lia.
  - cbn [run_tool request_of failure_prefix].
    unfold NasaApi.NasaAsteroidTool_run, try_except, bind, requests_get, lift, ret.
    destruct (w_http w t _ _) as [k m | r]; [eexists; split; [reflexivity | eauto] |].
    destruct (raise_for_status r) as [[] | e];
      [| eexists; split; [reflexivity | eauto]].
    destruct (json_of r) as [body | e]; [| eexists; split; [reflexivity | eauto]].
    destruct (get body "near_earth_objects" (JDict [])) as [data | e];
      [| eexists; split; [reflexivity | eauto]].
    destruct (items data) as [days | e]; [| eexists; split; [reflexivity | eauto]].
    destruct (for_each (firstn 2 days) [] NasaApi.asteroid_day) as [entries |] eqn:Hf;
      [| eexists; split; [reflexivity | eauto]].
    eexists. split; [reflexivity |]. right.
    apply asteroid_days in Hf. destruct Hf as (lines & -> & Hlen & Hall).
    exists lines. cbn [app]. repeat split; auto.
    rewrite length_firstn in Hlen. lia.
Qed.

(** ** What a query makes the applications call *)

Lemma silent_ret {A : Type} (a : A) : silent (ret a).
Proof. intros w t. reflexivity. Qed.

Lemma silent_lift {A : Type} (r : result A) : silent (lift r).
Proof. intros w t. reflexivity. Qed.

Lemma silent_bind {A B : Type} (c : M A) (k : A -> M B) :
  silent c -> (forall a, silent (k a)) -> silent (bind c k).
Proof.
  intros Hc Hk w t. unfold bind. specialize (Hc w t).
  destruct (c w t) as [[a | e] t1]; simpl in Hc; subst; [apply Hk | reflexivity].
Qed.

Lemma bind_silent_trace {A B : Type} (c : M A) (k : A -> M B) w t :
  (forall a, silent (k a)) -> snd (bind c k w t) = snd (c w t).
Proof.
  intros Hk. unfold bind. destruct (c w t) as [[a | e] t1]; [apply Hk | reflexivity].
Qed.

Lemma request_then_silent {A : Type} url ps (k : response -> M A) w t :
  (forall r, silent (k r)) ->
  snd (bind (requests_get url ps) k w t) = (t ++ [EvHttp url ps])%list.
Proof.
  intros Hk. rewrite bind_silent_trace by exact Hk.
  unfold requests_get. now destruct (w_http w t url ps).
Qed.

(** A handler for [Exception] that only returns a value: the statement
    returns, and its trace is the trace of the body. *)
Lemma caught_trace {A : Type} (body : M A) (f : exn -> A) w t :
  exists a,
    try_except body catch_Exception (fun e => ret (f e)) w t
    = (Ok a, snd (body w t)).
Proof.
  unfold try_except. destruct (body w t) as [[a | e] t1]; eexists; reflexivity.
Qed.

Lemma yields_bind_ret {A B : Type} (c : M A) (f : A -> B) w t P :
  yields c w t P -> yields (bind c (fun a => ret (f a))) w t P.
Proof.
  intros (a & evs & H & HP). exists (f a), evs. split; [| exact HP].
  unfold bind. now rewrite H.
Qed.

Lemma yields_weaken {A : Type} (c : M A) w t (P Q : list event -> Prop) :
  (forall evs, P evs -> Q evs) -> yields c w t P -> yields c w t Q.
Proof. intros HPQ (a & evs & H & HP). exists a, evs. split; auto. Qed.

Lemma encode_and_query_trace h q k w t :
  h = Handles true true ->
  exists evs, snd (encode_and_query h q k w t) = (t ++ evs)%list
              /\ retrieval q evs /\ evs <> [].
Proof.
  intros ->. unfold encode_and_query, bind, encode, collection_query. cbn.
  destruct (w_encode w t q).
  - exists [EvEncode q]. repeat split; [constructor | discriminate].
  - exists [EvEncode q; EvQuery q k]. rewrite <- app_assoc.
    repeat split; [constructor | discriminate].
Qed.

Lemma Run_search_yields h q k w t :
  yields (RunAstrogeo.search_vector_db h q k) w t (retrieval q).
Proof.
  unfold yields, RunAstrogeo.search_vector_db.
  match goal with
  | |- context [try_except ?b _ _] =>
      destruct (caught_trace b (fun _ => @nil fragment) w t) as [a Ha]
  end.
  rewrite Ha. exists a.
  destruct h as [[|] [|]]; cbn [collection embedding_model negb orb];
    try (exists []; rewrite app_nil_r; split; [reflexivity | constructor]).
  rewrite bind_silent_trace by (intros ?; apply silent_lift).
  destruct (@encode_and_query_trace (Handles true true) q k w t eq_refl)
    as (evs & -> & Hr & _).
  now exists evs.
Qed.

Lemma Final_search_yields self q k w t :
  yields (FinalApp.search_vector_db self q k) w t (retrieval q).
Proof.
  unfold yields, FinalApp.search_vector_db.
  match goal with
  | |- context [try_except ?b _ _] =>
      destruct (caught_trace b (fun _ => @nil fragment) w t) as [a Ha]
  end.
  rewrite Ha. exists a.
  destruct (FinalApp.db self) as [[|] [|]]; cbn [collection embedding_model negb];
    try (exists []; rewrite app_nil_r; split; [reflexivity | constructor]).
  rewrite bind_silent_trace by (intros ?; apply silent_lift).
  destruct (@encode_and_query_trace (Handles true true) q k w t eq_refl)
    as (evs & -> & Hr & _).
  now exists evs.
Qed.

Lemma Run_report_traces key w t :
  snd (RunAstrogeo.solar_report key w t)
    = (t ++ [EvHttp "https://api.nasa.gov/DONKI/FLR" [("api_key", key)]])%list
  /\ snd (RunAstrogeo.apod_report key w t)
     = (t ++ [EvHttp "https://api.nasa.gov/planetary/apod" [("api_key", key)]])%list
  /\ snd (RunAstrogeo.mars_report key w t)
     = (t ++ [EvHttp "https://api.nasa.gov/mars-photos/api/v1/rovers/curiosity/photos"
                [("sol", "1000"); ("api_key", key)]])%list
  /\ snd (RunAstrogeo.asteroid_report key w t)
     = (t ++ [EvHttp "https://api.nasa.gov/neo/rest/v1/feed" [("api_key", key)]])%list.
Proof.
  repeat split;
    unfold RunAstrogeo.solar_report, RunAstrogeo.apod_report,
      RunAstrogeo.mars_report, RunAstrogeo.asteroid_report;
    apply request_then_silent; intros r;
    silence_by (@silent_ret) (@silent_lift) (@silent_bind).
Qed.

Lemma Multi_report_traces key w t :
  snd (MultiAgent._get_solar_activity key w t)
    = (t ++ [EvHttp "https://api.nasa.gov/DONKI/FLR" [("api_key", key)]])%list
  /\ snd (MultiAgent._get_apod key w t)
     = (t ++ [EvHttp "https://api.nasa.gov/planetary/apod" [("api_key", key)]])%list
  /\ snd (MultiAgent._get_mars_photos key w t)
     = (t ++ [EvHttp "https://api.nasa.gov/mars-photos/api/v1/rovers/curiosity/photos"
                [("sol", "1000"); ("api_key", key)]])%list
  /\ snd (MultiAgent._get_asteroid_data key w t)
     = (t ++ [EvHttp "https://api.nasa.gov/neo/rest/v1/feed" [("api_key", key)]])%list.
Proof.
  repeat split;
    unfold MultiAgent._get_solar_activity, MultiAgent._get_apod,
      MultiAgent._get_mars_photos, MultiAgent._get_asteroid_data;
    apply request_then_silent; intros r;
    silence_by (@silent_ret) (@silent_lift) (@silent_bind).
Qed.

Lemma nasa_request_cases key :
  nasa_request key (EvHttp "https://api.nasa.gov/DONKI/FLR" [("api_key", key)])
  /\ nasa_request key
       (EvHttp "https://api.nasa.gov/planetary/apod" [("api_key", key)])
  /\ nasa_request key
       (EvHttp "https://api.nasa.gov/mars-photos/api/v1/rovers/curiosity/photos"
          [("sol", "1000"); ("api_key", key)])
  /\ nasa_request key
       (EvHttp "https://api.nasa.gov/neo/rest/v1/feed" [("api_key", key)]).
Proof.
  repeat split; eexists _, _; (split; [reflexivity |]); cbn; intuition.
Qed.

Lemma Run_nasa_yields key ql w t :
  yields (RunAstrogeo.get_nasa_live_data key ql) w t
    (at_most_one_nasa_request key).
Proof.
  unfold yields, RunAstrogeo.get_nasa_live_data.
  match goal with
  | |- context [try_except ?b _ (fun e => ret (@?f e))] =>
      destruct (caught_trace b f w t) as [a Ha]
  end.
  rewrite Ha. exists a. clear Ha.
  destruct (Run_report_traces key w t) as (Hs & Ha' & Hm & Has).
  destruct (nasa_request_cases key) as (Ns & Na & Nm & Nas).
  unfold at_most_one_nasa_request.
  repeat match goal with
         | |- context [if ?b then _ else _] => destruct b
         end;
    [ rewrite Hs | rewrite Ha' | rewrite Hm | rewrite Has | ];
    try (eexists; split; [reflexivity | right; eexists; split; [reflexivity | assumption]]).
  exists []. rewrite app_nil_r. split; [reflexivity | now left].
Qed.

Lemma Multi_nasa_yields self q w t :
  yields (MultiAgent.NASA_process self q) w t
    (at_most_one_nasa_request (MultiAgent.NASA_API_KEY self)).
Proof.
  unfold yields, MultiAgent.NASA_process. cbv zeta.
  match goal with
  | |- context [try_except ?b _ (fun e => ret (@?f e))] =>
      destruct (caught_trace b f w t) as [a Ha]
  end.
  rewrite Ha. exists a. clear Ha.
  destruct (Multi_report_traces (MultiAgent.NASA_API_KEY self) w t)
    as (Hs & Ha' & Hm & Has).
  destruct (nasa_request_cases (MultiAgent.NASA_API_KEY self))
    as (Ns & Na & Nm & Nas).
  unfold at_most_one_nasa_request.
  repeat match goal with
         | |- context [if ?b then _ else _] => destruct b
         end;
    try rewrite bind_silent_trace by (intros ?; apply silent_ret);
    [ rewrite Hs | rewrite Ha' | rewrite Hm | rewrite Has | ];
    try (eexists; split; [reflexivity | right; eexists; split; [reflexivity | assumption]]).
  exists []. rewrite app_nil_r. split; [reflexivity | now left].
Qed.

(** X10.  The two fetchers of live NASA data
    ([get_nasa_live_data] in run_astrogeo.py and the NASA agent's
    [process] in multi_agent_astrogeo.py) never raise and send at most
    one request, to one of the four NASA endpoints and with the key of
    the application; and when no request gets through, the text they
    return is either their prompt to name a topic, sent without any
    request, or the failure notice with the error's message. *)
Theorem nasa_fetchers_send_at_most_one_request :
  (forall key query_lower w t,
      exists s evs,
        RunAstrogeo.get_nasa_live_data key query_lower w t
          = (Ok s, (t ++ evs)%list)
        /\ at_most_one_nasa_request key evs)
  /\ (forall self query w t,
        exists s evs,
          MultiAgent.NASA_process self query w t = (Ok s, (t ++ evs)%list)
          /\ at_most_one_nasa_request (MultiAgent.NASA_API_KEY self) evs)
  /\ (forall key query_lower w t k m,
        (forall url ps, w_http w t url ps = HttpFail k m) ->
        RunAstrogeo.get_nasa_live_data key query_lower w t
        = (Ok "Live NASA data is available! Please specify what you'd like: today's space picture, solar activity, Mars rover photos, or asteroid tracking.",
           t)
        \/ (exists ev,
              RunAstrogeo.get_nasa_live_data key query_lower w t
              = (Ok ("❌ Unable to fetch live NASA data: " ++ m),
                 (t ++ [ev])%list)))
  /\ (forall self query w t k m,
        (forall url ps, w_http w t url ps = HttpFail k m) ->
        MultiAgent.NASA_process self query w t
        = (Ok (("📡 **" ++ MultiAgent.name MultiAgent.NASALiveDataAgent
                  ++ " Report**:" ++ nl ++ nl)
                 ++ "I can provide live data on: Solar activity, NASA's daily space picture, Mars rover photos, or asteroid tracking. Please specify!"),
           t)
        \/ (exists ev,
              MultiAgent.NASA_process self query w t
              = (Ok ("❌ Unable to fetch live NASA data: " ++ m),
                 (t ++ [ev])%list))).
Proof.
  split; [| split; [| split]].
  - intros. apply Run_nasa_yields.
  - intros. apply Multi_nasa_yields.
  - intros key ql w t k m H.
    unfold RunAstrogeo.get_nasa_live_data, try_except.
    repeat match goal with
           | |- context [if ?b then _ else _] => destruct b
           end;
      try (right;
           unfold RunAstrogeo.solar_report, RunAstrogeo.apod_report,
             RunAstrogeo.mars_report, RunAstrogeo.asteroid_report, bind,
             requests_get;
           rewrite H; eexists; reflexivity).
    left. reflexivity.
  - intros self q w t k m H.
    unfold MultiAgent.NASA_process, try_except. cbv zeta.
    repeat match goal with
           | |- context [if ?b then _ else _] => destruct b
           end;
      try (right;
           unfold MultiAgent._get_solar_activity, MultiAgent._get_apod,
             MultiAgent._get_mars_photos, MultiAgent._get_asteroid_data, bind,
             requests_get;
           rewrite H; eexists; reflexivity).
    left. reflexivity.
Qed.

Lemma nasa_fetchers_send_at_most_one_request_witness :
  RunAstrogeo.get_nasa_live_data "DEMO_KEY" "solar flares" offline []
  = (Ok "Live NASA data is available! Please specify what you'd like: today's space picture, solar activity, Mars rover photos, or asteroid tracking.",
     [])
  \/ (exists ev,
        RunAstrogeo.get_nasa_live_data "DEMO_KEY" "solar flares" offline []
        = (Ok ("❌ Unable to fetch live NASA data: " ++ "Connection refused"),
           ([] ++ [ev])%list)).
Proof.
  destruct nasa_fetchers_send_at_most_one_request as (_ & _ & H & _).
  apply (H "DEMO_KEY" "solar flares" offline [] ConnectionError
           "Connection refused").
  reflexivity.
Defined.

(** A response built as sections under a handler that only returns a
    value: the function returns, and its trace is the trace of the
    body, or the trace it was given when the query is blank. *)
Lemma handled_sections (blank : bool) (first : list string)
    (body : M (list string)) (f : exn -> list string)
    (render : list string -> string) w t :
  exists s,
    bind (if blank then ret first
          else try_except body catch_Exception (fun e => ret (f e)))
         (fun sections => ret (render sections)) w t
    = (Ok s, if blank then t else snd (body w t)).
Proof.
  unfold bind. destruct blank; [eexists; reflexivity |].
  destruct (caught_trace body f w t) as [a ->]. eexists. reflexivity.
Qed.

Lemma emit_then {A : Type} ev (c : M A) w t :
  bind (emit ev) (fun _ => c) w t = c w (t ++ [ev])%list.
Proof. reflexivity. Qed.

Lemma isro_intent_reads_vector_db query :
  RunAstrogeo.is_agent
    (RunAstrogeo.i_agent (RunAstrogeo.analyze_query_intent query))
    RunAstrogeo.isro_geospatial = true ->
  RunAstrogeo.i_data_source (RunAstrogeo.analyze_query_intent query)
  = RunAstrogeo.vector_db.
Proof.
  unfold RunAstrogeo.analyze_query_intent. cbv zeta.
  repeat match goal with
         | |- context [if ?b then _ else _] => destruct b
         end; cbn; congruence.
Qed.

Lemma Run_isro_yields h q w t :
  yields (RunAstrogeo.process_isro_bhuvan_query h q) w t (retrieval q).
Proof.
  unfold RunAstrogeo.process_isro_bhuvan_query.
  destruct (Run_search_yields h q 5 w t) as (frs & evs & H & HP).
  unfold yields, bind. rewrite H.
  repeat match goal with
         | |- context [if ?b then _ else _] => destruct b
         end; eexists _, evs; (split; [reflexivity | exact HP]).
Qed.

Lemma Run_body_trace self q flag w t :
  exists src,
    snd (RunAstrogeo.process_query_body self q flag w t)
      = (t ++ EvClassify q :: src)%list
    /\ run_sources self q flag src.
Proof.
  unfold RunAstrogeo.process_query_body. rewrite emit_then. cbv zeta.
  set (t1 := (t ++ [EvClassify q])%list).
  assert (Ht : forall src, (t1 ++ src = t ++ EvClassify q :: src)%list)
    by (intros; unfold t1; now rewrite <- app_assoc).
  assert (Hnone : run_sources self q flag []).
  { left. split; [constructor | congruence]. }
  destruct (RunAstrogeo.is_agent _ RunAstrogeo.isro_geospatial) eqn:Hisro.
  { rewrite bind_silent_trace by (intros ?; apply silent_ret).
    destruct (Run_isro_yields (RunAstrogeo.db self) q w t1)
      as (s & src & -> & Hr).
    exists src. split; [apply Ht |]. left. split; [exact Hr |].
    intros _. now apply isro_intent_reads_vector_db. }
  destruct (RunAstrogeo.is_live_agent _ && flag) eqn:Hlive.
  { rewrite bind_silent_trace by (intros ?; apply silent_ret).
    destruct (Run_nasa_yields (RunAstrogeo.NASA_API_KEY self) (lower q) w t1)
      as (s & src & -> & Hr).
    exists src. split; [apply Ht |]. right. split; [| exact Hr].
    apply andb_true_iff in Hlive. tauto. }
  destruct (RunAstrogeo.is_agent _ RunAstrogeo.mars_expert).
  { destruct (flag && _) eqn:Hmars.
    - rewrite bind_silent_trace by (intros ?; apply silent_ret).
      destruct (Run_nasa_yields (RunAstrogeo.NASA_API_KEY self) (lower q) w t1)
        as (s & src & -> & Hr).
      exists src. split; [apply Ht |]. right. split; [| exact Hr].
      apply andb_true_iff in Hmars. tauto.
    - exists []. split; [now rewrite <- Ht, app_nil_r | exact Hnone]. }
  destruct (RunAstrogeo.is_vector_db _) eqn:Hv.
  { rewrite bind_silent_trace by
      (intros ?; silence_by (@silent_ret) (@silent_lift) (@silent_bind)).
    destruct (Run_search_yields (RunAstrogeo.db self) q 3 w t1)
      as (s & src & -> & Hr).
    exists src. split; [apply Ht |]. left. split; [exact Hr |].
    intros _. now destruct (RunAstrogeo.i_data_source _). }
  exists []. split; [now rewrite <- Ht, app_nil_r | exact Hnone].
Qed.

(** X11.  One call of run_astrogeo.py's [process_query] returns and
    reaches for at most one source.  A blank query calls nothing; any
    other query is classified and then either searches the vector
    database once (the encoder, then the index), which happens only for
    an intent whose data source is the vector database, or sends at
    most one request to NASA with the key of the application, which
    happens only with the switch for live data on. *)
Theorem run_process_query_reaches_one_source :
  forall self query use_nasa_api w t,
  exists s evs,
    RunAstrogeo.process_query self query use_nasa_api w t
      = (Ok s, (t ++ evs)%list)
    /\ (evs = []
        \/ exists src,
            evs = EvClassify query :: src
            /\ run_sources self query use_nasa_api src).
Proof.
  intros self q flag w t.
  unfold RunAstrogeo.process_query, RunAstrogeo.process_query_sections.
  match goal with
  | |- context [try_except ?b _ (fun e => ret (@?f e))] =>
      destruct (handled_sections (negb (PyStr.truthy (strip q)))
                  [RunAstrogeo.welcome] b f RunAstrogeo.render w t) as [s Hs]
  end.
  exists s. rewrite Hs.
  destruct (negb (PyStr.truthy (strip q))).
  - exists []. rewrite app_nil_r. split; [reflexivity | now left].
  - destruct (Run_body_trace self q flag w t) as (src & -> & Hsrc).
    exists (EvClassify q :: src). split; [reflexivity |]. right. now exists src.
Qed.

Lemma Multi_search_trace self q k w t :
  exists src,
    snd (MultiAgent.search_vector_db self q k w t) = (t ++ src)%list
    /\ retrieval q src
    /\ (src <> [] -> MultiAgent.vector_store self = true).
Proof.
  unfold MultiAgent.search_vector_db.
  destruct (MultiAgent.vector_store self).
  - unfold MultiAgent.VectorStore_search_vector_db, bind, encode,
      collection_query, lift.
    destruct (w_encode w t q).
    + exists [EvEncode q]. repeat split. constructor.
    + exists [EvEncode q; EvQuery q k]. rewrite <- app_assoc. cbn [fst snd app].
      destruct (w_query w _ q k); repeat split; constructor.
  - exists []. rewrite app_nil_r. repeat split; [constructor | congruence].
Qed.

Lemma Multi_body_trace self q flag w t :
  exists src,
    snd (MultiAgent.process_query_body self q flag w t)
      = (t ++ EvClassify q :: src)%list
    /\ multi_sources self q src.
Proof.
  unfold MultiAgent.process_query_body. rewrite emit_then. cbv zeta.
  set (t1 := (t ++ [EvClassify q])%list).
  assert (Ht : forall src, (t1 ++ src = t ++ EvClassify q :: src)%list)
    by (intros; unfold t1; now rewrite <- app_assoc).
  assert (Hnone : multi_sources self q []).
  { left. split; [constructor | congruence]. }
  destruct (MultiAgent.r_agent (MultiAgent.route_query q MultiAgent.agents))
    as [[| | |] |] eqn:Hr.
  - rewrite bind_silent_trace by (intros ?; apply silent_ret).
    cbn [MultiAgent.process]. unfold MultiAgent.ISRO_process.
    rewrite bind_silent_trace by
      (intros ?; silence_by (@silent_ret) (@silent_lift) (@silent_bind)).
    destruct (Multi_search_trace self q 5 w t1) as (src & -> & Hs & Hv).
    exists src. split; [apply Ht |]. left. split; [exact Hs |].
    intros Hne. split; [exact Hr | now apply Hv].
  - rewrite bind_silent_trace by (intros ?; apply silent_ret).
    cbn [MultiAgent.process].
    destruct (Multi_nasa_yields self q w t1) as (s & src & -> & Hs).
    exists src. split; [apply Ht |]. right. split; [exact Hr | exact Hs].
  - exists []. split; [now rewrite <- Ht, app_nil_r | exact Hnone].
  - exists []. split; [now rewrite <- Ht, app_nil_r | exact Hnone].
  - exists []. split; [| exact Hnone].
    rewrite <- Ht, app_nil_r.
    assert (Hs : silent
              (message <- lift (MultiAgent.message_text
                                  (MultiAgent.r_message
                                     (MultiAgent.route_query q MultiAgent.agents))) ;;
               match MultiAgent.r_suggestions
                       (MultiAgent.route_query q MultiAgent.agents) with
               | [] =>
                   ret (app ["🧠 **AstroGeo Multi-Agent Analysis**" ++ nl ++ nl;
                             "**Your Query**: " ++ q ++ nl ++ nl] [message])
               | _ :: _ =>
                   ret (app (app ["🧠 **AstroGeo Multi-Agent Analysis**" ++ nl ++ nl;
                                  "**Your Query**: " ++ q ++ nl ++ nl] [message])
                          ((nl ++ nl ++ "**🎯 Try these space topics instead:**" ++ nl)
                           :: map (fun suggestion => "• " ++ suggestion ++ nl)
                                (MultiAgent.r_suggestions
                                   (MultiAgent.route_query q MultiAgent.agents))))
               end))
      by silence_by (@silent_ret) (@silent_lift) (@silent_bind).
    apply Hs.
Qed.

(** X12.  One call of multi_agent_astrogeo.py's [process_query] returns
    and reaches for at most one source.  A blank query calls nothing;
    any other query is routed and then either searches the vector
    database once, which happens only when the ISRO agent is assigned
    and a store is there, or sends at most one request to NASA with the
    key of the system, which happens only when the NASA agent is
    assigned.  The switch [use_nasa_api] plays no part: the call does
    the same with it on and off. *)
Theorem multi_process_query_reaches_one_source :
  forall self query use_nasa_api w t,
    (exists s evs,
        MultiAgent.process_query self query use_nasa_api w t
          = (Ok s, (t ++ evs)%list)
        /\ (evs = []
            \/ exists src,
                evs = EvClassify query :: src
                /\ multi_sources self query src))
    /\ MultiAgent.process_query self query use_nasa_api w t
       = MultiAgent.process_query self query (negb use_nasa_api) w t.
Proof.
  intros self q flag w t. split; [| reflexivity].
  unfold MultiAgent.process_query, MultiAgent.process_query_sections.
  match goal with
  | |- context [try_except ?b _ (fun e => ret (@?f e))] =>
      destruct (handled_sections (negb (PyStr.truthy (strip q)))
                  [MultiAgent.welcome] b f MultiAgent.render w t) as [s Hs]
  end.
  exists s. rewrite Hs.
  destruct (negb (PyStr.truthy (strip q))).
  - exists []. rewrite app_nil_r. split; [reflexivity | now left].
  - destruct (Multi_body_trace self q flag w t) as (src & -> & Hsrc).
    exists (EvClassify q :: src). split; [reflexivity |]. right. now exists src.
Qed.

(** X13.  For a query that is not blank, [analyze_space_query] of
    final_astrogeo_app.py returns, and its own handler is never needed:
    it calls the crew at most once (only with the switch on, the crew
    module imported and the crew built; a crew that raises is passed
    over), then searches the vector database once, and sends no request
    itself.  The response ends with the summary, which reports the
    number of fragments that this search returned, and which says that
    the NASA integration is active whenever the switch is on and the
    crew module was imported, whether or not a crew was called. *)
Theorem final_analysis_calls_and_summary :
  forall self query query_type use_nasa_agents w t,
    strip query <> "" ->
    exists front docs src,
      FinalApp.analyze_space_query_body self query query_type use_nasa_agents w t
        = (Ok (app front (summary self use_nasa_agents (length docs))),
           (t ++ crew_calls self query use_nasa_agents ++ src)%list)
      /\ FinalApp.analyze_space_query self query query_type use_nasa_agents w t
         = (Ok (FinalApp.render
                  (app front (summary self use_nasa_agents (length docs)))),
            (t ++ crew_calls self query use_nasa_agents ++ src)%list)
      /\ FinalApp.search_vector_db self query 3 w
           (t ++ crew_calls self query use_nasa_agents)%list
         = (Ok docs, (t ++ crew_calls self query use_nasa_agents ++ src)%list)
      /\ retrieval query src.
Proof.
  intros self q qt flag w t Hq.
  assert (Hcrew : exists response,
             (if flag && FinalApp.CREWAI_AVAILABLE self then
                crewai_result <- FinalApp.analyze_with_crewai self q qt ;;
                match crewai_result with
                | Some (String _ _ as text) =>
                    ret (app
                           ["🚀 **AstroGeo Advanced Analysis**" ++ nl ++ nl;
                            "**Query**: " ++ q ++ nl;
                            "**Type**: " ++ title qt ++ nl;
                            "**Analysis Mode**: "
                              ++ (if flag then "NASA AI Agents" else "Knowledge Base") ++ nl;
                            "**Timestamp**: " ++ w_now w ++ nl ++ nl]
                           ["## 🤖 **NASA AI Agents Analysis**" ++ nl ++ nl;
                            text ++ nl ++ nl])
                | _ =>
                    ret ["🚀 **AstroGeo Advanced Analysis**" ++ nl ++ nl;
                         "**Query**: " ++ q ++ nl;
                         "**Type**: " ++ title qt ++ nl;
                         "**Analysis Mode**: "
                           ++ (if flag then "NASA AI Agents" else "Knowledge Base") ++ nl;
                         "**Timestamp**: " ++ w_now w ++ nl ++ nl]
                end
              else
                ret ["🚀 **AstroGeo Advanced Analysis**" ++ nl ++ nl;
                     "**Query**: " ++ q ++ nl;
                     "**Type**: " ++ title qt ++ nl;
                     "**Analysis Mode**: "
                       ++ (if flag then "NASA AI Agents" else "Knowledge Base") ++ nl;
                     "**Timestamp**: " ++ w_now w ++ nl ++ nl]) w t
             = (Ok response, (t ++ crew_calls self q flag)%list)).
  { unfold crew_calls, FinalApp.analyze_with_crewai.
    destruct (flag && FinalApp.CREWAI_AVAILABLE self) eqn:Hf; cbn [andb].
    - apply andb_true_iff in Hf. destruct Hf as [-> Ha]. rewrite Ha. cbn [negb orb].
      destruct (FinalApp.crew self); cbn [negb].
      + unfold bind, try_except, crew_kickoff, ret.
        destruct (w_crew w t q) as [[| c text] | e]; eexists; reflexivity.
      + unfold bind, ret. rewrite app_nil_r. eexists; reflexivity.
    - unfold ret. rewrite app_nil_r. eexists; reflexivity. }
  destruct Hcrew as (response & Hcrew).
  destruct (Final_search_yields self q 3 w (t ++ crew_calls self q flag)%list)
    as (docs & src & Hsearch & Hr).
  rewrite <- app_assoc in Hsearch.
  assert (Hbody : exists front,
             FinalApp.analyze_space_query_body self q qt flag w t
             = (Ok (app front (summary self flag (length docs))),
                (t ++ crew_calls self q flag ++ src)%list)).
  { unfold FinalApp.analyze_space_query_body. cbv zeta.
    unfold bind at 1. unfold now at 1.
    unfold bind at 1. rewrite Hcrew.
    unfold bind at 1. rewrite Hsearch.
    unfold ret, summary. eexists. reflexivity. }
  destruct Hbody as (front & Hbody).
  exists front, docs, src. split; [exact Hbody |]. split; [| split; assumption].
  unfold FinalApp.analyze_space_query, FinalApp.analyze_space_query_sections.
  rewrite (truthy_nonempty Hq). cbn [negb].
  unfold bind, try_except. now rewrite Hbody.
Qed.

Lemma final_analysis_calls_and_summary_witness :
  exists front docs src,
    FinalApp.analyze_space_query_body
      (FinalApp.MkFinal (Handles true true) false true) "isro" "general" true
      (indexed two_close_one_far) []
    = (Ok (app front
             (summary (FinalApp.MkFinal (Handles true true) false true) true
                (length docs))),
       ([] ++ crew_calls (FinalApp.MkFinal (Handles true true) false true)
                "isro" true ++ src)%list)
    /\ FinalApp.analyze_space_query
         (FinalApp.MkFinal (Handles true true) false true) "isro" "general" true
         (indexed two_close_one_far) []
       = (Ok (FinalApp.render
                (app front
                   (summary (FinalApp.MkFinal (Handles true true) false true)
                      true (length docs)))),
          ([] ++ crew_calls (FinalApp.MkFinal (Handles true true) false true)
                   "isro" true ++ src)%list)
    /\ FinalApp.search_vector_db
         (FinalApp.MkFinal (Handles true true) false true) "isro" 3
         (indexed two_close_one_far)
         ([] ++ crew_calls (FinalApp.MkFinal (Handles true true) false true)
                  "isro" true)%list
       = (Ok docs,
          ([] ++ crew_calls (FinalApp.MkFinal (Handles true true) false true)
                   "isro" true ++ src)%list)
    /\ retrieval "isro" src.
Proof.
  apply (final_analysis_calls_and_summary
           (FinalApp.MkFinal (Handles true true) false true) "isro" "general"
           true (indexed two_close_one_far) []).
  discriminate.
Defined.

(* ================================================================== *)
(** * What the patterns capture *)
(* ================================================================== *)

Import Lang.

Lemma advance_refl st : advance st st [].
Proof. split; [reflexivity | cbn; lia]. Qed.

Lemma advance_trans st1 st2 st3 w1 w2 :
  advance st1 st2 w1 -> advance st2 st3 w2 -> advance st1 st3 (w1 ++ w2).
Proof.
  intros [H1 P1] [H2 P2]. split.
  - rewrite H1, H2. now rewrite app_assoc.
  - rewrite P2, P1, length_app. lia.
Qed.

Lemma lit_sound ci :
  forall s st st',
    Re.lit ci s st = Some st' ->
    exists w, advance st st' w
              /\ Forall2 (fun x c => Re.chr_ok ci x c = true) s w
              /\ Re.g1 st' = Re.g1 st.
Proof.
  induction s as [| x s IH]; intros st st' H; cbn [Re.lit] in H.
  - inversion H; subst. exists []. split; [apply advance_refl |]. now split.
  - destruct (Re.rest st) as [| c t] eqn:Hr; [discriminate |].
    destruct (Re.chr_ok ci x c) eqn:Hc; [| discriminate].
    apply IH in H. destruct H as (w & [Hw Hp] & Hall & Hg).
    exists (c :: w). split; [| split].
    + split; [rewrite Hr; cbn in *; now rewrite Hw | cbn in *; lia].
    + now constructor.
    + exact Hg.
Qed.

Lemma run_rep_unfold ci g mn a st k :
  Re.run ci (Re.Rep g mn a) st k
  = rep_loop (Re.run ci a) g mn k (S (length (Re.rest st))) 0 st.
Proof. reflexivity. Qed.

Lemma rep_loop_sound ci a g mn k :
  (forall st k m,
      Re.run ci a st k = Some m ->
      exists st' w, k st' = Some m /\ advance st st' w /\ spans ci a w
                    /\ (groupless a = true -> Re.g1 st' = Re.g1 st)) ->
  forall fuel cnt st m,
    rep_loop (Re.run ci a) g mn k fuel cnt st = Some m ->
    exists st' ws,
      k st' = Some m /\ advance st st' (concat ws)
      /\ Forall (spans ci a) ws /\ mn <= cnt + length ws
      /\ (groupless a = true -> Re.g1 st' = Re.g1 st).
Proof.
  intros IHa.
  assert (Hstop : forall cnt st m,
             (if Nat.leb mn cnt then k st else None) = Some m ->
             exists st' ws,
               k st' = Some m /\ advance st st' (concat ws)
               /\ Forall (spans ci a) ws /\ mn <= cnt + length ws
               /\ (groupless a = true -> Re.g1 st' = Re.g1 st)).
  { intros cnt st m H. destruct (Nat.leb mn cnt) eqn:Hle; [| discriminate].
    apply Nat.leb_le in Hle. exists st, []. cbn.
    repeat split; auto; lia. }
  induction fuel as [| f IHf]; intros cnt st m H; [discriminate |].
  assert (Hmore : forall m,
             Re.run ci a st
               (fun st' => if Nat.ltb (Re.pos st) (Re.pos st')
                           then rep_loop (Re.run ci a) g mn k f (S cnt) st'
                           else None) = Some m ->
             exists st' ws,
               k st' = Some m /\ advance st st' (concat ws)
               /\ Forall (spans ci a) ws /\ mn <= cnt + length ws
               /\ (groupless a = true -> Re.g1 st' = Re.g1 st)).
  { intros m0 Hr. apply IHa in Hr.
    destruct Hr as (st1 & w1 & Hk & Hadv & Hsp & Hg1).
    destruct (Nat.ltb (Re.pos st) (Re.pos st1)); [| discriminate].
    apply IHf in Hk. destruct Hk as (st' & ws & Hk & Hadv' & Hall & Hmn & Hg2).
    exists st', (w1 :: ws). cbn [concat length].
    split; [exact Hk |]. split; [eapply advance_trans; eassumption |].
    split; [now constructor |]. split; [lia |].
    intros Hgl. rewrite Hg2, Hg1; auto. }
  cbn [rep_loop] in H. destruct g.
  - match type of H with
    | match ?x with _ => _ end = _ => destruct x as [m0 |] eqn:Hr
    end.
    + inversion H; subst. now apply Hmore.
    + now apply Hstop.
  - match type of H with
    | match ?x with _ => _ end = _ => destruct x as [m0 |] eqn:Hr
    end.
    + inversion H; subst. now apply Hstop.
    + now apply Hmore.
Qed.

(** The matcher is sound: when it succeeds from a state, it has handed
    to its continuation a state reached by consuming a text that the
    pattern spans. *)
Lemma run_sound ci :
  forall r st k m,
    Re.run ci r st k = Some m ->
    exists st' w, k st' = Some m /\ advance st st' w /\ spans ci r w
                  /\ (groupless r = true -> Re.g1 st' = Re.g1 st).
Proof.
  induction r as [| p | s | a IHa b IHb | a IHa b IHb | g mn a IHa | a IHa | | |];
    intros st k m H.
  - exists st, []. split; [exact H |]. split; [apply advance_refl |].
    split; reflexivity.
  - cbn [Re.run] in H. destruct (Re.rest st) as [| c t] eqn:Hr; [discriminate |].
    destruct (Re.cls_ok ci p c) eqn:Hc; [| discriminate].
    exists (Re.step st c t), [c]. split; [exact H |].
    split; [split; [now rewrite Hr | cbn; lia] |].
    split; [now exists c | reflexivity].
  - cbn [Re.run] in H.
    destruct (Re.lit ci (chars s) st) as [st1 |] eqn:Hl; [| discriminate].
    apply lit_sound in Hl. destruct Hl as (w & Hadv & Hall & Hg).
    exists st1, w. repeat split; auto; apply Hadv.
  - cbn [Re.run] in H. apply IHa in H.
    destruct H as (st1 & w1 & Hk & Hadv1 & Hs1 & Hg1).
    apply IHb in Hk. destruct Hk as (st2 & w2 & Hk & Hadv2 & Hs2 & Hg2).
    exists st2, (w1 ++ w2)%list. split; [exact Hk |].
    split; [eapply advance_trans; eassumption |].
    split; [now exists w1, w2 |].
    cbn [groupless]. intros Hgl. apply andb_true_iff in Hgl.
    rewrite Hg2, Hg1; tauto.
  - cbn [Re.run] in H. destruct (Re.run ci a st k) as [m0 |] eqn:Ha.
    + inversion H; subst. apply IHa in Ha.
      destruct Ha as (st1 & w & Hk & Hadv & Hs & Hg).
      exists st1, w. repeat split; try apply Hadv; auto.
      * now left.
      * cbn [groupless]. intros Hgl. apply andb_true_iff in Hgl. tauto.
    + apply IHb in H. destruct H as (st1 & w & Hk & Hadv & Hs & Hg).
      exists st1, w. repeat split; try apply Hadv; auto.
      * now right.
      * cbn [groupless]. intros Hgl. apply andb_true_iff in Hgl. tauto.
  - rewrite run_rep_unfold in H.
    apply (@rep_loop_sound ci a g mn k IHa) in H.
    destruct H as (st' & ws & Hk & Hadv & Hall & Hmn & Hg).
    exists st', (concat ws). split; [exact Hk |]. split; [exact Hadv |].
    split; [exists ws; repeat split; auto; lia | exact Hg].
  - cbn [Re.run] in H. apply IHa in H.
    destruct H as (st1 & w & Hk & Hadv & Hs & _).
    eexists _, w. split; [exact Hk |].
    split; [split; apply Hadv |]. split; [exact Hs | discriminate].
  - cbn [Re.run] in H. destruct (Nat.eqb (Re.pos st) 0); [| discriminate].
    exists st, []. split; [exact H |]. split; [apply advance_refl |].
    split; reflexivity.
  - cbn [Re.run] in H. destruct (Re.at_eol st); [| discriminate].
    exists st, []. split; [exact H |]. split; [apply advance_refl |].
    split; reflexivity.
  - cbn [Re.run] in H. destruct (Re.at_boundary st); [| discriminate].
    exists st, []. split; [exact H |]. split; [apply advance_refl |].
    split; reflexivity.
Qed.

Lemma search_at_sound ci r :
  forall l p pv m,
    Re.search_at ci r p pv l = Some m ->
    exists pre pv' l',
      l = (pre ++ l')%list
      /\ Re.m_start m = p + length pre
      /\ Re.run ci r (Re.MState (p + length pre) pv' l' None) Some
         = Some (Re.m_final m).
Proof.
  induction l as [| c l IH]; intros p pv m H; cbn [Re.search_at] in H.
  - destruct (Re.run ci r (Re.MState p pv [] None) Some) as [st |] eqn:Hr;
      [| discriminate].
    inversion H; subst. exists [], pv, []. cbn. rewrite Nat.add_0_r. auto.
  - destruct (Re.run ci r (Re.MState p pv (c :: l) None) Some) as [st |] eqn:Hr.
    + inversion H; subst. exists [], pv, (c :: l). cbn. rewrite Nat.add_0_r. auto.
    + apply IH in H. destruct H as (pre & pv' & l' & -> & Hs & Hrun).
      exists (c :: pre), pv', l'. cbn [app length].
      rewrite Nat.add_succ_r. auto.
Qed.

Lemma substring_text (pre w post : list ascii) :
  substring (length pre) (length w) (text (pre ++ w ++ post)) = text w.
Proof.
  unfold text.
  induction pre as [| c pre IH]; cbn [length app].
  - induction w as [| c w IHw]; cbn.
    + now destruct (string_of_list_ascii post).
    + now rewrite IHw.
  - cbn. exact IH.
Qed.

Lemma text_chars (s : string) : text (chars s) = s.
Proof. apply string_of_list_ascii_of_string. Qed.

(** A pattern that runs as a part without group, the group and a second
    part without group: a match of [search] splits the subject into the
    text before the match, the texts of the three parts and the text
    after, and [group(1)] is the text of the group. *)
Lemma capture_sound ci r A G B s m :
  (forall st, Re.run ci r st Some
              = Re.run ci (Re.Seq A (Re.Seq (Re.Group G) B)) st Some) ->
  groupless B = true ->
  Re.search ci r s = Some m ->
  exists pre wa wg wb post,
    chars s = (pre ++ wa ++ wg ++ wb ++ post)%list
    /\ Re.group1 s m = text wg
    /\ spans ci A wa /\ spans ci G wg /\ spans ci B wb.
Proof.
  intros Hr HB H. unfold Re.search in H.
  apply search_at_sound in H.
  destruct H as (pre & pv' & l' & Hs & Hstart & Hrun).
  rewrite Hr in Hrun. cbn [Re.run] in Hrun.
  apply run_sound in Hrun.
  destruct Hrun as (s1 & wa & Hk & [Ha1 Ha2] & Hsa & _).
  apply run_sound in Hk.
  destruct Hk as (s2 & wg & Hk & [Hg1 Hg2] & Hsg & _).
  apply run_sound in Hk.
  destruct Hk as (s3 & wb & Hk & [Hb1 Hb2] & Hsb & Hg).
  inversion Hk; subst s3. clear Hk.
  cbn [Re.rest Re.pos Re.g1] in *.
  exists pre, wa, wg, wb, (Re.rest (Re.m_final m)).
  split; [rewrite Hs, Ha1, Hg1, Hb1; reflexivity |].
  split; [| auto].
  unfold Re.group1. rewrite (Hg HB). unfold Re.slice.
  rewrite Hg2, Ha2. cbn [plus].
  replace (length pre + length wa + length wg - (length pre + length wa))
    with (length wg) by lia.
  rewrite <- (text_chars s), Hs, Ha1, Hg1, Hb1.
  rewrite <- length_app.
  rewrite (app_assoc pre wa). apply substring_text.
Qed.

(** *** Trimming *)

Lemma ldrop_suffix p : forall l, exists pre, l = (pre ++ ldrop p l)%list.
Proof.
  induction l as [| c l [pre IH]]; [now exists [] |].
  cbn [ldrop]. destruct (p c); [| now exists []].
  exists (c :: pre). cbn. now rewrite <- IH.
Qed.

Lemma rdrop_prefix p l : exists suf, l = (rdrop p l ++ suf)%list.
Proof.
  unfold rdrop. destruct (ldrop_suffix p (rev l)) as [pre H].
  exists (rev pre). rewrite <- rev_app_distr, <- H. now rewrite rev_involutive.
Qed.

Lemma ldrop_keeps p l :
  match l with c :: _ => p c = false | [] => True end -> ldrop p l = l.
Proof. destruct l as [| c l]; [reflexivity |]. cbn. now intros ->. Qed.

Lemma rdrop_keeps p l : Forall (fun c => p c = false) l -> rdrop p l = l.
Proof.
  intros H. unfold rdrop. rewrite ldrop_keeps; [apply rev_involutive |].
  apply Forall_rev in H. destruct (rev l) as [| c r]; [exact I |].
  now inversion H.
Qed.

Lemma Forall_prefix {A : Type} (P : A -> Prop) (l pre suf : list A) :
  l = (pre ++ suf)%list -> Forall P l -> Forall P pre.
Proof. intros -> H. apply Forall_app in H. tauto. Qed.

Lemma text_app (a b : list ascii) : text (a ++ b) = text a ++ text b.
Proof. unfold text. induction a as [| c a IH]; cbn; [reflexivity | now rewrite IH]. Qed.

Lemma chars_strip s :
  chars (strip s) = rdrop is_space (ldrop is_space (chars s)).
Proof. unfold strip. apply chars_text. Qed.

Lemma chars_rstrip_char ch s :
  chars (rstrip_char ch s) = rdrop (Ascii.eqb ch) (chars s).
Proof. unfold rstrip_char. apply chars_text. Qed.

(** *** The texts of the classes *)

Lemma spans_rep_cls ci g mn p w :
  spans ci (Re.Rep g mn (Re.Cls p)) w ->
  mn <= length w /\ Forall (fun c => Re.cls_ok ci p c = true) w.
Proof.
  intros (ws & Hmn & -> & Hall).
  assert (H : length (concat ws) = length ws
              /\ Forall (fun c => Re.cls_ok ci p c = true) (concat ws)).
  { clear Hmn. induction Hall as [| w ws Hw _ [IH1 IH2]].
    - split; [reflexivity | constructor].
    - destruct Hw as (c & -> & Hc). cbn [concat length app].
      split; [now rewrite IH1 | now constructor]. }
  destruct H as [Hl Hf]. split; [lia | exact Hf].
Qed.

Lemma spans_lit_exact s w : spans false (Re.Lit s) w -> w = chars s.
Proof.
  cbn [spans]. generalize (chars s). intros l H.
  induction H as [| x c l w Hc _ IH]; [reflexivity |].
  cbn in Hc. apply Ascii.eqb_eq in Hc. now subst.
Qed.

Lemma cls_ok_exact p c : Re.cls_ok false p c = p c.
Proof. unfold Re.cls_ok. cbn. apply orb_false_r. Qed.

Lemma Forall_cls_exact p w :
  Forall (fun c => Re.cls_ok false p c = true) w ->
  Forall (fun c => p c = true) w.
Proof.
  intros H. induction H as [| c w Hc _ IH]; constructor; [| exact IH].
  now rewrite cls_ok_exact in Hc.
Qed.

Lemma upper_not_space c : is_upper c = true -> is_space c = false.
Proof.
  destruct c as [[] [] [] [] [] [] [] []]; cbn; intros H;
    try reflexivity; discriminate H.
Qed.

Lemma upper_is_loc_char c : is_upper c = true -> Re.is_loc_char c = true.
Proof. intros H. unfold Re.is_loc_char, is_alpha. now rewrite H. Qed.

Lemma not_loc_char_kept ch l :
  Re.is_loc_char ch = false ->
  Forall (fun c => Re.is_loc_char c = true) l ->
  rdrop (Ascii.eqb ch) l = l.
Proof.
  intros Hch H. apply rdrop_keeps.
  eapply Forall_impl; [| exact H]. cbn. intros c Hc.
  destruct (Ascii.eqb_spec ch c) as [-> | _]; [congruence | reflexivity].
Qed.

(** What a match of one of the four patterns of main_backup.py
    captures, and what the trimming leaves of it. *)
Lemma prep_pattern_capture prep q m :
  Re.search false (Patterns.prep_pattern prep) q = Some m ->
  exists pre sp c w post,
    chars q = (pre ++ chars prep ++ sp ++ (c :: w) ++ post)%list
    /\ Re.group1 q m = text (c :: w)
    /\ sp <> [] /\ Forall (fun c => is_space c = true) sp
    /\ is_upper c = true
    /\ Forall (fun c => Re.is_loc_char c = true) w.
Proof.
  intros H.
  apply (@capture_sound false _
           (Re.Seq Re.WordB (Re.Seq (Re.Lit prep) (Re.plus Re.ws)))
           (Re.Seq Re.upper_cls (Re.Rep false 2 Re.loc_cls))
           (Re.Seq (Re.Alt Re.ws (Re.Alt Re.Eol
                                    (Re.Alt (Re.Lit "?") (Re.Lit "!")))) Re.Eps))
    in H; [| intros st; reflexivity | reflexivity].
  destruct H as (pre & wa & wg & wb & post & Hq & Hg & Ha & HG & _).
  destruct Ha as (w0 & wa' & -> & -> & wl & wsp & -> & Hl & Hsp).
  apply spans_lit_exact in Hl. subst wl.
  apply spans_rep_cls in Hsp. destruct Hsp as [Hn Hsp].
  destruct HG as (w1 & w2 & -> & (c & -> & Hc) & Hw2).
  apply spans_rep_cls in Hw2. destruct Hw2 as [_ Hw2].
  rewrite cls_ok_exact in Hc.
  exists pre, wsp, c, w2, (wb ++ post)%list.
  split; [rewrite Hq; cbn [app]; now rewrite <- !app_assoc |].
  split; [exact Hg |].
  split; [destruct wsp; [cbn in Hn; lia | discriminate] |].
  split; [now apply Forall_cls_exact |].
  split; [exact Hc |].
  now apply Forall_cls_exact.
Qed.

Lemma trimmed_capture c w :
  is_upper c = true ->
  Forall (fun c => Re.is_loc_char c = true) w ->
  exists kept suf,
    (c :: w = kept ++ suf)%list
    /\ chars (MainBackup.trim (text (c :: w))) = kept
    /\ MainBackup.trim (text (c :: w))
       = rstrip_char ","%char (strip (text (c :: w))).
Proof.
  intros Hc Hw.
  assert (Hall : Forall (fun c => Re.is_loc_char c = true) (c :: w))
    by (constructor; [now apply upper_is_loc_char | exact Hw]).
  set (x1 := rdrop is_space (c :: w)).
  set (x2 := rdrop (Ascii.eqb ","%char) x1).
  destruct (rdrop_prefix is_space (c :: w)) as [s1 H1]. fold x1 in H1.
  destruct (rdrop_prefix (Ascii.eqb ","%char) x1) as [s2 H2]. fold x2 in H2.
  assert (Hx1 : Forall (fun c => Re.is_loc_char c = true) x1)
    by (eapply Forall_prefix; eassumption).
  assert (Hx2 : Forall (fun c => Re.is_loc_char c = true) x2)
    by (eapply Forall_prefix; eassumption).
  assert (Hstrip : chars (strip (text (c :: w))) = x1).
  { rewrite chars_strip, chars_text. rewrite ldrop_keeps; [reflexivity |].
    now apply upper_not_space. }
  assert (Hcomma : chars (rstrip_char ","%char (strip (text (c :: w)))) = x2)
    by now rewrite chars_rstrip_char, Hstrip.
  assert (Hq : rstrip_char "?"%char (rstrip_char ","%char (strip (text (c :: w))))
               = rstrip_char ","%char (strip (text (c :: w)))).
  { rewrite <- (text_chars (rstrip_char "?"%char _)), chars_rstrip_char, Hcomma.
    rewrite not_loc_char_kept by (reflexivity || exact Hx2).
    now rewrite <- Hcomma, text_chars. }
  assert (Hb : MainBackup.trim (text (c :: w))
               = rstrip_char ","%char (strip (text (c :: w)))).
  { unfold MainBackup.trim. rewrite Hq.
    rewrite <- (text_chars (rstrip_char "!"%char _)), chars_rstrip_char, Hcomma.
    rewrite not_loc_char_kept by (reflexivity || exact Hx2).
    now rewrite <- Hcomma, text_chars. }
  exists x2, (s2 ++ s1)%list. split; [| split].
  - rewrite app_assoc, <- H2. exact H1.
  - now rewrite Hb.
  - exact Hb.
Qed.

(** X14.  The location that [_extract_location] of main_backup.py
    returns is a piece of the query that follows one of the words in,
    for, at, of and white space; it starts with a capital letter and
    consists of letters, white space, commas and hyphens only; and
    since a question mark or an exclamation mark is never part of what
    the patterns capture, the last two of the three [rstrip] calls
    never remove anything. *)
Theorem main_backup_location_shape :
  forall q loc,
    MainBackup._extract_location q = Some loc ->
    (exists c r, loc = String c r /\ is_upper c = true)
    /\ Forall (fun c => Re.is_loc_char c = true) (chars loc)
    /\ (exists before prep sp after,
          In prep ["in"; "for"; "at"; "of"]
          /\ q = before ++ prep ++ sp ++ loc ++ after
          /\ sp <> "" /\ Forall (fun c => is_space c = true) (chars sp))
    /\ (exists r m,
          In r MainBackup.patterns
          /\ Re.search false r q = Some m
          /\ loc = rstrip_char ","%char (strip (Re.group1 q m))).
Proof.
  intros q loc H. unfold MainBackup._extract_location in H.
  apply first_location_found in H.
  destruct H as (pre & r & post & E & _ & Hr).
  destruct (try_pattern_some _ _ Hr) as (m & Hm & Hl & Hlen).
  assert (Hin : In r MainBackup.patterns)
    by (rewrite E; apply in_or_app; right; now left).
  assert (Hprep : exists prep, In prep ["in"; "for"; "at"; "of"]
                               /\ r = Patterns.prep_pattern prep).
  { unfold MainBackup.patterns in Hin. cbn [In] in Hin.
    destruct Hin as [<- | [<- | [<- | [<- | []]]]]; eexists; split;
      try reflexivity; cbn; tauto. }
  destruct Hprep as (prep & Hp & ->).
  destruct (prep_pattern_capture _ _ Hm)
    as (bef & sp & c & w & aft & Hq & Hg & Hsp & Hspall & Hc & Hw).
  destruct (@trimmed_capture c w Hc Hw) as (kept & suf & Hk & Hchars & Htrim).
  rewrite <- Hg in Hchars, Htrim. rewrite <- Hl in Hchars.
  assert (Hloc : loc = text kept) by (now rewrite <- Hchars, text_chars).
  assert (Hne : exists r0, kept = c :: r0).
  { destruct kept as [| c0 r0].
    - rewrite Hloc in Hlen. cbn in Hlen. lia.
    - inversion Hk; subst. now exists r0. }
  destruct Hne as (r0 & ->).
  split; [| split; [| split]].
  - exists c, (text r0). split; [rewrite Hloc; reflexivity | exact Hc].
  - rewrite Hchars. eapply Forall_prefix; [exact Hk |].
    constructor; [now apply upper_is_loc_char | exact Hw].
  - exists (text bef), prep, (text sp), (text (suf ++ aft)).
    split; [exact Hp |]. split; [| split].
    + rewrite <- (text_chars q), Hq, Hk, Hloc.
      rewrite <- (text_chars prep) at 2.
      rewrite <- !text_app. now rewrite <- !app_assoc.
    + destruct sp; [congruence | discriminate].
    + now rewrite chars_text.
  - exists (Patterns.prep_pattern prep), m.
    split; [exact Hin |]. split; [exact Hm |]. now rewrite Hl.
Qed.

Lemma main_backup_location_shape_witness :
  (exists c r, "La Paz" = String c r /\ is_upper c = true)
  /\ Forall (fun c => Re.is_loc_char c = true) (chars "La Paz")
  /\ (exists before prep sp after,
        In prep ["in"; "for"; "at"; "of"]
        /\ "Rain in La Paz?" = before ++ prep ++ sp ++ "La Paz" ++ after
        /\ sp <> "" /\ Forall (fun c => is_space c = true) (chars sp))
  /\ (exists r m,
        In r MainBackup.patterns
        /\ Re.search false r "Rain in La Paz?" = Some m
        /\ "La Paz"
           = rstrip_char ","%char (strip (Re.group1 "Rain in La Paz?" m))).
Proof.
  apply (main_backup_location_shape "Rain in La Paz?").
  vm_compute. reflexivity.
Defined.

(** *** The candidates of tools/weather_api.py *)

Lemma spans_within P ci :
  forall r w, within P ci r -> spans ci r w -> Forall P w.
Proof.
  induction r as [| p | s | a IHa b IHb | a IHa b IHb | g mn a IHa | a IHa | | |];
    intros w Hin Hsp; cbn [within spans] in *; subst; try constructor.
  - destruct Hsp as (c & -> & Hc). constructor; [now apply Hin | constructor].
  - revert Hsp Hin. generalize (chars s). intros l Hsp.
    induction Hsp as [| x c l' w' Hc _ IH]; intros Hin; constructor.
    + apply (Hin x c); [now left | exact Hc].
    + apply IH. intros x' c' Hx. apply Hin. now right.
  - destruct Hsp as (w1 & w2 & -> & H1 & H2). apply Forall_app.
    split; [apply IHa | apply IHb]; tauto.
  - destruct Hsp as [H | H]; [apply IHa | apply IHb]; tauto.
  - destruct Hsp as (ws & _ & -> & Hall).
    induction Hall as [| w ws Hw _ IH]; cbn [concat]; [constructor |].
    apply Forall_app. split; [now apply IHa | exact IH].
  - now apply IHa.
Qed.

Lemma cls_ok_alpha ci c : Re.cls_ok ci is_alpha c = true -> is_alpha c = true.
Proof.
  destruct ci; [| now rewrite cls_ok_exact].
  destruct c as [[] [] [] [] [] [] [] []]; cbn; intros H;
    try reflexivity; discriminate H.
Qed.

Lemma cls_ok_loc_char ci c :
  Re.cls_ok ci Re.is_loc_char c = true -> Re.is_loc_char c = true.
Proof.
  destruct ci; [| now rewrite cls_ok_exact].
  destruct c as [[] [] [] [] [] [] [] []]; cbn; intros H;
    try reflexivity; discriminate H.
Qed.

Lemma alpha_not_space c : is_alpha c = true -> is_space c = false.
Proof.
  destruct c as [[] [] [] [] [] [] [] []]; cbn; intros H;
    try reflexivity; discriminate H.
Qed.

Lemma alpha_is_loc_char c : is_alpha c = true -> Re.is_loc_char c = true.
Proof. intros H. unfold Re.is_loc_char. now rewrite H. Qed.

Lemma alpha_space_is_loc_char c :
  Re.is_alpha_space c = true -> Re.is_loc_char c = true.
Proof.
  unfold Re.is_alpha_space, Re.is_loc_char. intros H.
  apply orb_true_iff in H. destruct H as [-> | ->]; [reflexivity |].
  now rewrite orb_true_r.
Qed.

(** What the group of the first three patterns captures: a letter and
    then letters, white space, commas and hyphens. *)
Lemma lazy_place_spans w :
  spans true (Re.Seq Re.alpha_cls (Re.lazy_plus Re.loc_cls)) w ->
  exists a r, w = a :: r /\ is_alpha a = true
              /\ Forall (fun c => Re.is_loc_char c = true) r.
Proof.
  intros (w1 & w2 & -> & (a & -> & Ha) & Hw2).
  apply spans_rep_cls in Hw2. destruct Hw2 as [_ Hw2].
  exists a, w2. split; [reflexivity |]. split; [now apply cls_ok_alpha in Ha |].
  eapply Forall_impl; [| exact Hw2]. apply cls_ok_loc_char.
Qed.

(** A stripped text that starts with a character that is no white
    space keeps this character, and is a piece of the text. *)
Lemma strip_keeps_head a r :
  is_space a = false ->
  exists kept suf,
    chars (strip (text (a :: r))) = a :: kept
    /\ (a :: r = (a :: kept) ++ suf)%list.
Proof.
  intros Ha. rewrite chars_strip, chars_text.
  rewrite ldrop_keeps by exact Ha.
  destruct (rdrop_prefix is_space (a :: r)) as [suf H].
  destruct (rdrop is_space (a :: r)) as [| a0 kept] eqn:Hr.
  - exfalso. unfold rdrop in Hr.
    apply (f_equal (@rev ascii)) in Hr. rewrite rev_involutive in Hr.
    cbn [rev] in Hr.
    destruct (ldrop_suffix is_space (rev r ++ [a])) as [pre Hp].
    rewrite Hr, app_nil_r in Hp.
    assert (Hall : Forall (fun c => is_space c = true) (ldrop is_space (rev r ++ [a]))
                   -> False).
    { rewrite Hr. intros _.
      assert (Hd : forall l, ldrop is_space (l ++ [a]) <> []).
      { induction l as [| c l IH]; cbn; [now rewrite Ha |].
        destruct (is_space c); [exact IH | discriminate]. }
      exact (Hd (rev r) Hr). }
    apply Hall. rewrite Hr. constructor.
  - inversion H; subst. exists kept, suf. split; [reflexivity | exact H].
Qed.

Lemma capturing_candidate r A B q c :
  (forall st, Re.run true r st Some
              = Re.run true
                  (Re.Seq A (Re.Seq (Re.Group (Re.Seq Re.alpha_cls
                                                  (Re.lazy_plus Re.loc_cls))) B))
                  st Some) ->
  groupless B = true ->
  In c (WeatherApi.stripped_group r q) ->
  (exists a r0, c = String a r0 /\ is_alpha a = true)
  /\ Forall (fun c => Re.is_loc_char c = true) (chars c)
  /\ exists before after, q = before ++ c ++ after.
Proof.
  intros Hr HB Hin. apply stripped_group_in in Hin.
  destruct Hin as (m & Hm & ->).
  destruct (@capture_sound true r A _ B q m Hr HB Hm)
    as (pre & wa & wg & wb & post & Hq & Hg & _ & HG & _).
  apply lazy_place_spans in HG. destruct HG as (a & r0 & -> & Ha & Hr0).
  destruct (@strip_keeps_head a r0 (alpha_not_space _ Ha)) as (kept & suf & Hk & Hs).
  rewrite Hg.
  assert (Hc : strip (text (a :: r0)) = text (a :: kept))
    by (now rewrite <- Hk, text_chars).
  split; [| split].
  - exists a, (text kept). split; [now rewrite Hc | exact Ha].
  - rewrite Hk. eapply Forall_prefix; [exact Hs |].
    constructor; [now apply alpha_is_loc_char | exact Hr0].
  - exists (text (pre ++ wa)), (text (suf ++ wb ++ post)).
    rewrite Hc, <- !text_app, <- (text_chars q), Hq, Hs.
    now rewrite <- !app_assoc.
Qed.

Lemma findall_from_sound ci r s :
  forall fuel p pv l c,
    (exists pre, chars s = (pre ++ l)%list /\ length pre = p) ->
    In c (Re.findall_from fuel ci r s p pv l) ->
    exists pre w post,
      chars s = (pre ++ w ++ post)%list /\ c = text w /\ spans ci r w.
Proof.
  induction fuel as [| f IH]; intros p pv l c (pre & Hs & Hp) Hin;
    cbn [Re.findall_from] in Hin; [destruct Hin |].
  destruct (Re.search_at ci r p pv l) as [m |] eqn:Hm; [| destruct Hin].
  apply search_at_sound in Hm.
  destruct Hm as (pre' & pv' & l' & -> & Hstart & Hrun).
  apply run_sound in Hrun.
  destruct Hrun as (st' & w & Hk & [Hrest Hpos] & Hsp & _).
  inversion Hk; subst st'. clear Hk. cbn [Re.rest Re.pos] in *.
  cbv zeta in Hin. destruct Hin as [<- | Hin].
  - exists (pre ++ pre')%list, w, (Re.rest (Re.m_final m)).
    split; [rewrite Hs, Hrest; now rewrite <- app_assoc |].
    split; [| exact Hsp].
    unfold Re.group0, Re.slice, Re.m_end. rewrite Hstart, Hpos.
    replace (p + length pre' + length w - (p + length pre')) with (length w) by lia.
    rewrite <- (text_chars s), Hs, Hrest, <- Hp, <- length_app.
    rewrite app_assoc. apply substring_text.
  - destruct (Nat.ltb (Re.m_start m) (Re.pos (Re.m_final m))).
    + apply IH in Hin; [exact Hin |].
      exists (pre ++ pre' ++ w)%list. split.
      * rewrite Hs, Hrest. now rewrite <- !app_assoc.
      * rewrite Hpos, !length_app. lia.
    + destruct (Re.rest (Re.m_final m)) as [| c0 t0] eqn:Hr; [destruct Hin |].
      apply IH in Hin; [exact Hin |].
      exists (pre ++ pre' ++ w ++ [c0])%list. split.
      * rewrite Hs, Hrest. rewrite <- !app_assoc. reflexivity.
      * rewrite Hpos, !length_app. cbn [length]. lia.
Qed.

Lemma caps_pattern_within :
  within (fun c => Re.is_alpha_space c = true) false Patterns.caps_pattern.
Proof.
  assert (Hu : forall c, Re.cls_ok false is_upper c = true -> Re.is_alpha_space c = true).
  { intros c. rewrite cls_ok_exact. intros H.
    unfold Re.is_alpha_space, is_alpha. now rewrite H. }
  assert (Ha : forall c, Re.cls_ok false is_alpha c = true -> Re.is_alpha_space c = true).
  { intros c. rewrite cls_ok_exact. intros H.
    unfold Re.is_alpha_space. now rewrite H. }
  assert (Hs : forall c, Re.cls_ok false is_space c = true -> Re.is_alpha_space c = true).
  { intros c. rewrite cls_ok_exact. intros H.
    unfold Re.is_alpha_space. rewrite H. apply orb_true_r. }
  cbn. repeat split; assumption.
Qed.

Lemma caps_candidate q c :
  In c (Re.findall false Patterns.caps_pattern q) ->
  (exists a r0, c = String a r0 /\ is_alpha a = true)
  /\ Forall (fun c => Re.is_loc_char c = true) (chars c)
  /\ exists before after, q = before ++ c ++ after.
Proof.
  intros Hin. unfold Re.findall in Hin.
  apply findall_from_sound in Hin; [| exists []; split; reflexivity].
  destruct Hin as (pre & w & post & Hq & -> & Hsp).
  assert (Hall : Forall (fun c => Re.is_alpha_space c = true) w)
    by (eapply spans_within; [apply caps_pattern_within | exact Hsp]).
  assert (Hhead : exists a r0, w = a :: r0 /\ is_upper a = true).
  { cbn [Patterns.caps_pattern Re.cat fold_right spans] in Hsp.
    destruct Hsp as (w0 & w1 & -> & -> & w2 & w3 & -> & (a & -> & Ha) & _).
    rewrite cls_ok_exact in Ha. now exists a, w3. }
  destruct Hhead as (a & r0 & -> & Ha).
  split; [| split].
  - exists a, (text r0). split; [reflexivity |].
    unfold is_alpha. now rewrite Ha.
  - rewrite chars_text. eapply Forall_impl; [| exact Hall].
    apply alpha_space_is_loc_char.
  - exists (text pre), (text post).
    now rewrite <- !text_app, <- Hq, text_chars.
Qed.

Lemma potential_location_shape q c :
  In c (WeatherApi.potential_locations q) ->
  (exists a r, c = String a r /\ is_alpha a = true)
  /\ Forall (fun c => Re.is_loc_char c = true) (chars c)
  /\ exists before after, q = before ++ c ++ after.
Proof.
  intros H. unfold WeatherApi.potential_locations in H.
  repeat (apply in_app_or in H; destruct H as [H | H]).
  - apply (@capturing_candidate _
             (Re.Seq Re.WordB (Re.Seq (Re.Lit "for") (Re.plus Re.ws)))
             (Re.Seq Patterns.tail_for_in Re.Eps)) in H;
      [exact H | intros st; reflexivity | reflexivity].
  - apply (@capturing_candidate _
             (Re.Seq Re.WordB (Re.Seq (Re.Lit "in") (Re.plus Re.ws)))
             (Re.Seq Patterns.tail_for_in Re.Eps)) in H;
      [exact H | intros st; reflexivity | reflexivity].
  - apply (@capturing_candidate _ Re.Bol
             (Re.Seq (Re.plus Re.ws)
                (Re.Seq (Re.Alt (Re.Lit "weather")
                           (Re.Alt (Re.Lit "climate")
                              (Re.Alt (Re.Lit "analysis")
                                 (Re.Lit "temperature")))) Re.Eps))) in H;
      [exact H | intros st; reflexivity | reflexivity].
  - unfold WeatherApi.caps_candidates in H. apply filter_In in H.
    apply caps_candidate. tauto.
Qed.

(** X15.  Every candidate location of tools/weather_api.py, and so the
    location returned under the key DEMO_KEY, is a piece of the query
    that is not empty, starts with a letter and consists of letters,
    white space, commas and hyphens only: a digit or any other
    character never gets into a candidate. *)
Theorem weather_candidates_shape :
  forall q,
    (forall c,
        In c (WeatherApi.potential_locations q) ->
        (exists a r, c = String a r /\ is_alpha a = true)
        /\ Forall (fun c => Re.is_loc_char c = true) (chars c)
        /\ exists before after, q = before ++ c ++ after)
    /\ (forall w t c t',
          WeatherApi._extract_and_validate_location "DEMO_KEY" q w t
            = (Ok (Some c), t') ->
          (exists a r, c = String a r /\ is_alpha a = true)
          /\ Forall (fun c => Re.is_loc_char c = true) (chars c)
          /\ exists before after, q = before ++ c ++ after).
Proof.
  intros q. split; [intros c; apply potential_location_shape |].
  intros w t c t' H. apply potential_location_shape.
  unfold WeatherApi._extract_and_validate_location in H.
  cbn [String.eqb Ascii.eqb Bool.eqb] in H.
  destruct (WeatherApi.potential_locations q) as [| c0 rest];
    inversion H; subst. now left.
Qed.

Lemma weather_candidates_shape_witness :
  (exists a r, "Mumbai" = String a r /\ is_alpha a = true)
  /\ Forall (fun c => Re.is_loc_char c = true) (chars "Mumbai")
  /\ exists before after, "What's the weather in Mumbai?" = before ++ "Mumbai" ++ after.
Proof.
  destruct (weather_candidates_shape "What's the weather in Mumbai?") as [H _].
  apply H. vm_compute. tauto.
Defined.

(** *** The text that the geocoder is asked for *)

Lemma collapse_ws_single_spaced :
  forall l b, single_spaced b (collapse_ws b l) = true.
Proof.
  induction l as [| c l IH]; intros b; cbn [collapse_ws]; [reflexivity |].
  destruct (is_space c) eqn:Hc.
  - destruct b; [apply IH |].
    cbn [single_spaced]. change (is_space " "%char) with true. cbn. apply IH.
  - cbn [single_spaced]. rewrite Hc. apply IH.
Qed.

Lemma collapse_ws_place_chars :
  forall l b,
    Forall (fun c => Re.is_loc_char c = true) l ->
    Forall (fun c => is_place_char c = true) (collapse_ws b l).
Proof.
  induction l as [| c l IH]; intros b H; cbn [collapse_ws]; [constructor |].
  inversion H as [| ? ? Hc Hl]; subst.
  destruct (is_space c) eqn:Hs.
  - destruct b; [now apply IH |]. constructor; [reflexivity | now apply IH].
  - constructor; [| now apply IH].
    clear - Hc Hs. unfold is_place_char. unfold Re.is_loc_char in Hc.
    rewrite Hs in Hc.
    destruct (is_alpha c), (Ascii.eqb c " "%char), (Ascii.eqb c ","%char),
      (Ascii.eqb c "-"%char); cbn in *; try reflexivity; discriminate Hc.
Qed.

(** X20.  What the geocoder is asked for.  The first request of a
    validation carries, as [q], the candidate with its ends stripped and
    every run of white space made one space; for a candidate of a query
    this text starts with a letter, consists of letters, single spaces,
    commas and hyphens only, and has no two spaces in a row. *)
Theorem geocoder_is_asked_for_clean_text :
  forall key q cand w t,
    In cand (WeatherApi.potential_locations q) ->
    (exists res rest,
        WeatherApi._validate_location_with_geocoding_api key cand w t
        = (Ok res,
           (t ++ EvHttp WeatherApi.geo_url
                   [("q", clean cand); ("limit", "3"); ("appid", key)]
                 :: rest)%list))
    /\ (exists a r, clean cand = String a r /\ is_alpha a = true)
    /\ Forall (fun c => is_place_char c = true) (chars (clean cand))
    /\ single_spaced false (chars (clean cand)) = true.
Proof.
  intros key q cand w t Hin. split; [| split; [| split]].
  - destruct (validate_trace key cand w t) as (res & [H | [_ H]]);
      exists res; eexists; rewrite H; reflexivity.
  - destruct (potential_location_shape _ _ Hin) as ((a & r & -> & Ha) & _ & _).
    destruct (@strip_keeps_head a (chars r) (alpha_not_space _ Ha))
      as (kept & suf & Hk & _).
    unfold clean, sub_ws_space.
    assert (Hs : chars (strip (String a r)) = a :: kept).
    { rewrite <- Hk. f_equal. f_equal. cbn. now rewrite text_chars. }
    rewrite Hs. cbn [collapse_ws]. rewrite (alpha_not_space _ Ha).
    eexists _, _. split; [reflexivity | exact Ha].
  - destruct (potential_location_shape _ _ Hin) as (_ & Hall & _).
    unfold clean, sub_ws_space. rewrite chars_text.
    apply collapse_ws_place_chars.
    rewrite chars_strip.
    destruct (ldrop_suffix is_space (chars cand)) as [pre Hp].
    destruct (rdrop_prefix is_space (ldrop is_space (chars cand))) as [suf Hs].
    rewrite Hp, Hs in Hall. apply Forall_app in Hall. destruct Hall as [_ Hall].
    apply Forall_app in Hall. tauto.
  - unfold clean, sub_ws_space. rewrite chars_text.
    apply collapse_ws_single_spaced.
Qed.

Lemma geocoder_is_asked_for_clean_text_witness :
  (exists res rest,
      WeatherApi._validate_location_with_geocoding_api "k" "New   York"
        offline []
      = (Ok res,
         ([] ++ EvHttp WeatherApi.geo_url
                  [("q", clean "New   York"); ("limit", "3"); ("appid", "k")]
               :: rest)%list))
  /\ (exists a r, clean "New   York" = String a r /\ is_alpha a = true)
  /\ Forall (fun c => is_place_char c = true) (chars (clean "New   York"))
  /\ single_spaced false (chars (clean "New   York")) = true.
Proof.
  apply (geocoder_is_asked_for_clean_text "k"
           "Weather for New   York including rain" "New   York" offline []).
  vm_compute. tauto.
Defined.


(* ================================================================== *)
(** * The classifier of astronomical queries *)
(* ================================================================== *)

Import Astro.

Lemma prefix_append (sub rest : string) : String.prefix sub (sub ++ rest) = true.
Proof.
  induction sub as [| c sub IH]; cbn.
  - now destruct rest.
  - destruct (ascii_dec c c) as [_ | Hn]; [exact IH | congruence].
Qed.

Lemma contains_intro (x sub y : string) : contains sub (x ++ sub ++ y) = true.
Proof.
  assert (Hu : forall s, contains_from sub s
                         = String.prefix sub s
                           || match s with
                              | EmptyString => false
                              | String _ r => contains_from sub r
                              end)
    by (intros s; destruct s; reflexivity).
  unfold contains. induction x as [| c x IH].
  - cbn [append]. rewrite Hu, prefix_append. reflexivity.
  - cbn [append]. rewrite Hu, IH. apply orb_true_r.
Qed.

Lemma contains_in_chars (pre sub post : list ascii) (s : string) :
  chars s = (pre ++ sub ++ post)%list -> contains (text sub) s = true.
Proof.
  intros H. rewrite <- (text_chars s), H, !text_app. apply contains_intro.
Qed.

(** A query that one of the two patterns
    [\b<agency>\b.*mission|mission.*<agency>] matches holds the name of
    the agency and the word mission. *)
Lemma agency_mission_sound agency s :
  MainBackupAgents.matches (MainBackupAgents.agency_mission_pattern agency) s = true ->
  contains agency s = true /\ contains "mission" s = true.
Proof.
  unfold MainBackupAgents.matches.
  destruct (Re.search false _ s) as [m |] eqn:Hm; [intros _ | discriminate].
  unfold Re.search in Hm. apply search_at_sound in Hm.
  destruct Hm as (pre & pv' & l' & Hs & _ & Hrun).
  apply run_sound in Hrun.
  destruct Hrun as (st' & w & _ & [Hrest _] & Hsp & _).
  cbn [Re.rest] in Hrest. rewrite Hrest in Hs. clear Hrest.
  unfold MainBackupAgents.agency_mission_pattern in Hsp.
  cbn [spans Re.cat fold_right] in Hsp.
  destruct Hsp as [H | H].
  - destruct H as (w0 & w1 & -> & -> & wa & w2 & -> & Ha & w3 & w4 & -> & ->
                   & wany & w5 & -> & _ & wm & w6 & -> & Hmi & ->).
    apply (@spans_lit_exact agency) in Ha. apply (@spans_lit_exact "mission") in Hmi.
    subst wa wm. cbn [app] in Hs. split.
    + rewrite <- (text_chars agency).
      apply contains_in_chars with pre ((wany ++ chars "mission" ++ []) ++ Re.rest st')%list.
      rewrite Hs. now rewrite <- !app_assoc.
    + change "mission" with (text (chars "mission")).
      apply contains_in_chars with (pre ++ chars agency ++ wany)%list (Re.rest st').
      rewrite Hs. rewrite <- !app_assoc. cbn [app]. reflexivity.
  - destruct H as (wm & w1 & -> & Hmi & wany & w2 & -> & _ & wa & w3 & -> & Ha & ->).
    apply (@spans_lit_exact agency) in Ha. apply (@spans_lit_exact "mission") in Hmi.
    subst wa wm. split.
    + rewrite <- (text_chars agency).
      apply contains_in_chars with (pre ++ chars "mission" ++ wany)%list (Re.rest st').
      rewrite Hs. rewrite <- !app_assoc. cbn [app]. reflexivity.
    + change "mission" with (text (chars "mission")).
      apply contains_in_chars with pre ((wany ++ chars agency ++ []) ++ Re.rest st')%list.
      rewrite Hs. now rewrite <- !app_assoc.
Qed.

Lemma any_in_app l1 l2 s : any_in (app l1 l2) s = any_in l1 s || any_in l2 s.
Proof. unfold any_in. apply existsb_app. Qed.

(** X16.  The label of [_classify_astronomical_query] (main_backup.py)
    is borne out by the words of the query, in lower case: a query
    labelled nasa holds nasa and mission, or one of the NASA programme
    names; a query labelled isro holds isro and mission, or one of the
    ISRO mission names; a query labelled mission holds the word mission
    and none of the names of programmes, planets or solar terms; and a
    query is labelled general exactly when it holds none of these words
    at all. *)
Theorem astronomical_label_is_borne_out :
  forall q,
    let ql := lower q in
    (MainBackupAgents._classify_astronomical_query q = MainBackupAgents.nasa ->
     (contains "nasa" ql = true /\ contains "mission" ql = true)
     \/ any_in MainBackupAgents.nasa_programs ql = true)
    /\ (MainBackupAgents._classify_astronomical_query q = MainBackupAgents.isro ->
        (contains "isro" ql = true /\ contains "mission" ql = true)
        \/ any_in MainBackupAgents.isro_missions ql = true)
    /\ (MainBackupAgents._classify_astronomical_query q = MainBackupAgents.mission ->
        contains "mission" ql = true
        /\ any_in (app MainBackupAgents.isro_missions
                     (app MainBackupAgents.nasa_programs
                        (app MainBackupAgents.planets
                           MainBackupAgents.solar_words))) ql = false)
    /\ (MainBackupAgents._classify_astronomical_query q = MainBackupAgents.general
        <-> any_in astro_words ql = false).
Proof.
  intros q ql. unfold MainBackupAgents._classify_astronomical_query. fold ql.
  unfold astro_words. rewrite !any_in_app.
  assert (Hm : any_in ["mission"] ql = contains "mission" ql)
    by (cbn; apply orb_false_r).
  rewrite Hm.
  destruct (MainBackupAgents.matches (MainBackupAgents.agency_mission_pattern "nasa") ql)
    eqn:Hn.
  { apply agency_mission_sound in Hn. destruct Hn as [Hn1 Hn2].
    rewrite Hn2. rewrite !orb_true_r.
    repeat split; try discriminate; auto. }
  destruct (MainBackupAgents.matches (MainBackupAgents.agency_mission_pattern "isro") ql)
    eqn:Hi.
  { apply agency_mission_sound in Hi. destruct Hi as [Hi1 Hi2].
    rewrite Hi2. rewrite !orb_true_r.
    repeat split; try discriminate; auto. }
  destruct (any_in MainBackupAgents.isro_missions ql) eqn:H1;
    [cbn [orb]; repeat split; try discriminate; auto |].
  destruct (any_in MainBackupAgents.nasa_programs ql) eqn:H2;
    [cbn [orb]; repeat split; try discriminate; auto |].
  destruct (any_in MainBackupAgents.planets ql) eqn:H3;
    [cbn [orb]; repeat split; try discriminate; auto |].
  destruct (any_in MainBackupAgents.solar_words ql) eqn:H4;
    [cbn [orb]; repeat split; try discriminate; auto |].
  destruct (contains "mission" ql) eqn:H5;
    cbn [orb]; repeat split; try discriminate; auto.
Qed.

Lemma astronomical_label_is_borne_out_witness :
  (contains "isro" (lower "Which ISRO mission reached Mars?") = true
   /\ contains "mission" (lower "Which ISRO mission reached Mars?") = true)
  \/ any_in MainBackupAgents.isro_missions
       (lower "Which ISRO mission reached Mars?") = true.
Proof.
  destruct (astronomical_label_is_borne_out "Which ISRO mission reached Mars?")
    as (_ & H & _).
  apply H. vm_compute. reflexivity.
Defined.

(* ================================================================== *)
(** * The agent that calls the two tools *)
(* ================================================================== *)

Lemma weather_run_bound fmt key query w t :
  exists s evs,
    WeatherTools.IntelligentWeatherTool_run fmt key query w t
      = (Ok s, (t ++ evs)%list)
    /\ Forall (fun ev => is_http ev = true) evs
    /\ length evs <= 2 * length (WeatherApi.potential_locations query) + 2.
Proof.
  destruct (extract_requests key query w t) as (loc & evs & He & Hg & Hl & _).
  assert (Hh : Forall (fun ev => is_http ev = true) evs).
  { eapply Forall_impl; [| exact Hg]. intros ev [ps ->]. reflexivity. }
  assert (Hmore : forall more,
             Forall (fun ev => is_http ev = true) more -> length more <= 2 ->
             Forall (fun ev => is_http ev = true) (evs ++ more)
             /\ length (evs ++ more)
                <= 2 * length (WeatherApi.potential_locations query) + 2).
  { intros more Hm Hlen. split; [apply Forall_app; now split |].
    rewrite length_app. lia. }
  unfold WeatherTools.IntelligentWeatherTool_run, try_except, bind.
  rewrite He.
  destruct loc as [[| c v] |];
    try (eexists _, evs; split; [reflexivity |]; split; [exact Hh | lia]).
  rewrite weather_data_steps. cbv zeta.
  destruct (fetched w _ WeatherTools.current_url _).
  - rewrite <- !app_assoc. cbn [app].
    destruct (fetched w _ WeatherTools.forecast_url _);
      eexists _, (evs ++ [_; _])%list; rewrite <- ?app_assoc;
      (split; [reflexivity |]); apply Hmore; cbn [length]; auto;
      repeat constructor.
  - eexists _, (evs ++ [_])%list; rewrite <- ?app_assoc;
      (split; [reflexivity |]); apply Hmore; cbn [length]; auto;
      repeat constructor.
Qed.

Lemma air_run_bound key query w t :
  exists s evs,
    WeatherTools.IntelligentAirQualityTool_run key query w t
      = (Ok s, (t ++ evs)%list)
    /\ Forall (fun ev => is_http ev = true) evs
    /\ length evs <= 2 * length (WeatherApi.potential_locations query) + 2.
Proof.
  destruct (extract_requests key query w t) as (loc & evs & He & Hg & Hl & _).
  assert (Hh : Forall (fun ev => is_http ev = true) evs).
  { eapply Forall_impl; [| exact Hg]. intros ev [ps ->]. reflexivity. }
  assert (Hmore : forall more,
             Forall (fun ev => is_http ev = true) more -> length more <= 2 ->
             Forall (fun ev => is_http ev = true) (evs ++ more)
             /\ length (evs ++ more)
                <= 2 * length (WeatherApi.potential_locations query) + 2).
  { intros more Hm Hlen. split; [apply Forall_app; now split |].
    rewrite length_app. lia. }
  unfold WeatherTools.IntelligentAirQualityTool_run,
    WeatherTools._extract_location_from_query, try_except, bind.
  rewrite He.
  destruct loc as [[| c v] |];
    try (eexists _, evs; split; [reflexivity |]; split; [exact Hh | lia]).
  rewrite air_data_steps. cbv zeta.
  assert (Hone : forall s,
             exists s0 evs0,
               (Ok s, ((t ++ evs) ++ [coordinates_request key (String c v)])%list)
               = (@Ok string s0, (t ++ evs0)%list)
               /\ Forall (fun ev => is_http ev = true) evs0
               /\ length evs0
                  <= 2 * length (WeatherApi.potential_locations query) + 2).
  { intros s. eexists _, (evs ++ [_])%list. rewrite <- !app_assoc.
    split; [reflexivity |]. apply Hmore; cbn [length]; auto;
      repeat constructor. }
  destruct (fetched w _ WeatherApi.geo_url _) as [geo | e]; [| apply Hone].
  destruct (truthy geo); [| apply Hone].
  destruct (WeatherTools.first_place geo) as [[[[lat lon] city] country] | e];
    [| apply Hone].
  rewrite <- !app_assoc. cbn [app].
  destruct (fetched w _ WeatherTools.air_url _);
    eexists _, (evs ++ [_; _])%list; rewrite <- ?app_assoc;
    (split; [reflexivity |]); apply Hmore; cbn [length]; auto;
    repeat constructor.
Qed.

(** X17.  [process_intelligent_query] of agents/geospatial_expert.py
    never raises, whatever the import of the tool instances comes to.
    A weather query and an air-quality query import their tool before
    their own [try]: when the import raises, it is the handler of
    [process_intelligent_query] that answers, with its processing-error
    text, and nothing is sent; a comprehensive query imports inside its
    [try] and answers a failed import with its own failure text.  When
    the import succeeds no handler runs, since the tools turn their own
    failures into text: a weather query gets the text of the weather
    tool between its heading and its closing lines, an air-quality query
    the text of the air-quality tool, and a comprehensive query runs the
    weather tool and then the air-quality tool, each of which looks the
    location up again, and gets both texts.  Any other query imports
    nothing, sends nothing and gets the fixed description of the
    services.  All that is sent are requests, at most two for each
    candidate location and two more per tool. *)
Theorem geospatial_agent_wraps_the_tools :
  forall fmt imported query w t,
    let c := length (WeatherApi.potential_locations query) in
    let answer := GeospatialExpert.process_intelligent_query fmt imported query w t in
    (exists s evs,
        answer = (Ok s, (t ++ evs)%list)
        /\ Forall (fun ev => is_http ev = true) evs
        /\ length evs <= 4 * c + 4)
    /\ match GeospatialExpert._classify_environmental_query query with
       | GeospatialExpert.weather_intelligence =>
           (forall e,
               imported = Raise e ->
               answer
               = (Ok ("Environmental intelligence processing error: "
                        ++ e_msg e), t))
           /\ (forall key,
                  imported = Ok key ->
                  exists s evs,
                    WeatherTools.IntelligentWeatherTool_run fmt key query w t
                      = (Ok s, (t ++ evs)%list)
                    /\ answer
                       = (Ok (GeospatialExpert.weather_heading ++ s
                                ++ GeospatialExpert.weather_closing),
                          (t ++ evs)%list)
                    /\ Forall (fun ev => is_http ev = true) evs
                    /\ length evs <= 2 * c + 2)
       | GeospatialExpert.air_quality_intelligence =>
           (forall e,
               imported = Raise e ->
               answer
               = (Ok ("Environmental intelligence processing error: "
                        ++ e_msg e), t))
           /\ (forall key,
                  imported = Ok key ->
                  exists s evs,
                    WeatherTools.IntelligentAirQualityTool_run key query w t
                      = (Ok s, (t ++ evs)%list)
                    /\ answer
                       = (Ok (GeospatialExpert.air_heading ++ s
                                ++ GeospatialExpert.air_closing),
                          (t ++ evs)%list)
                    /\ Forall (fun ev => is_http ev = true) evs
                    /\ length evs <= 2 * c + 2)
       | GeospatialExpert.comprehensive_environmental =>
           (forall e,
               imported = Raise e ->
               answer
               = (Ok ("Comprehensive environmental analysis failed: "
                        ++ e_msg e), t))
           /\ (forall key,
                  imported = Ok key ->
                  exists s1 evs1 s2 evs2,
                    WeatherTools.IntelligentWeatherTool_run fmt key query w t
                      = (Ok s1, (t ++ evs1)%list)
                    /\ WeatherTools.IntelligentAirQualityTool_run key query w
                         (t ++ evs1)%list
                       = (Ok s2, (t ++ evs1 ++ evs2)%list)
                    /\ answer
                       = (Ok (GeospatialExpert.comprehensive_heading ++ s1
                                ++ GeospatialExpert.comprehensive_between ++ s2
                                ++ GeospatialExpert.comprehensive_closing),
                          (t ++ evs1 ++ evs2)%list)
                    /\ Forall (fun ev => is_http ev = true) (evs1 ++ evs2)
                    /\ length (evs1 ++ evs2) <= 4 * c + 4)
       | GeospatialExpert.general_environmental =>
           answer
           = (Ok (GeospatialExpert._process_general_environmental query), t)
       end.
Proof.
  intros fmt imported query w t c answer.
  assert (Hnone : forall s : string,
             exists s0 evs,
               (Ok s, t) = (@Ok string s0, (t ++ evs)%list)
               /\ Forall (fun ev => is_http ev = true) evs
               /\ length evs <= 4 * c + 4).
  { intros s. exists s, []. rewrite app_nil_r.
    split; [reflexivity |]. split; [constructor | cbn; lia]. }
  unfold answer, GeospatialExpert.process_intelligent_query. cbv zeta.
  destruct (GeospatialExpert._classify_environmental_query query).
  - unfold GeospatialExpert._process_weather_intelligence,
      GeospatialExpert.import_tools, try_except, bind, lift, ret.
    destruct imported as [key | e].
    + destruct (weather_run_bound fmt key query w t) as (s & evs & H & Hh & Hl).
      rewrite H. cbn [catch_Exception]. split.
      * eexists _, evs. split; [reflexivity |]. split; [exact Hh |].
        fold c in Hl. lia.
      * split; [intros e He; discriminate He |].
        intros key' Hk. injection Hk as <-.
        exists s, evs. split; [exact H |]. split; [reflexivity |].
        split; assumption.
    + cbn [catch_Exception]. split; [apply Hnone |].
      split; [intros e' He; now injection He as <- |].
      intros key Hk. discriminate Hk.
  - unfold GeospatialExpert._process_air_quality_intelligence,
      GeospatialExpert.import_tools, try_except, bind, lift, ret.
    destruct imported as [key | e].
    + destruct (air_run_bound key query w t) as (s & evs & H & Hh & Hl).
      rewrite H. cbn [catch_Exception]. split.
      * eexists _, evs. split; [reflexivity |]. split; [exact Hh |].
        fold c in Hl. lia.
      * split; [intros e He; discriminate He |].
        intros key' Hk. injection Hk as <-.
        exists s, evs. split; [exact H |]. split; [reflexivity |].
        split; assumption.
    + cbn [catch_Exception]. split; [apply Hnone |].
      split; [intros e' He; now injection He as <- |].
      intros key Hk. discriminate Hk.
  - unfold GeospatialExpert._process_comprehensive_environmental,
      GeospatialExpert.import_tools, try_except, bind, lift, ret.
    destruct imported as [key | e].
    + destruct (weather_run_bound fmt key query w t)
        as (s1 & evs1 & H1 & Hh1 & Hl1).
      destruct (air_run_bound key query w (t ++ evs1)%list)
        as (s2 & evs2 & H2 & Hh2 & Hl2).
      rewrite <- app_assoc in H2. rewrite H1, H2. cbn [catch_Exception].
      assert (Hall : Forall (fun ev => is_http ev = true) (evs1 ++ evs2))
        by (apply Forall_app; now split).
      assert (Hlen : length (evs1 ++ evs2) <= 4 * c + 4)
        by (rewrite length_app; fold c in Hl1, Hl2; lia).
      split.
      * eexists _, (evs1 ++ evs2)%list. split; [reflexivity |].
        split; assumption.
      * split; [intros e He; discriminate He |].
        intros key' Hk. injection Hk as <-.
        exists s1, evs1, s2, evs2. split; [exact H1 |]. split; [exact H2 |].
        split; [reflexivity |]. split; assumption.
    + cbn [catch_Exception]. split; [apply Hnone |].
      split; [intros e' He; now injection He as <- |].
      intros key Hk. discriminate Hk.
  - split; [apply Hnone | reflexivity].
Qed.

Lemma geospatial_agent_wraps_the_tools_witness :
  GeospatialExpert.process_intelligent_query one_decimal
    (Raise (Exn OtherError "No module named 'crewai_tools'"))
    "Weather in Pune" openweather []
  = (Ok "Environmental intelligence processing error: No module named 'crewai_tools'",
     [])
  /\ GeospatialExpert.process_intelligent_query one_decimal
       (Raise (Exn OtherError "No module named 'crewai_tools'"))
       "Complete assessment for Pune" openweather []
     = (Ok "Comprehensive environmental analysis failed: No module named 'crewai_tools'",
        [])
  /\ exists s evs,
       WeatherTools.IntelligentWeatherTool_run one_decimal "k"
         "Weather in Pune" openweather []
       = (Ok s, evs)
       /\ GeospatialExpert.process_intelligent_query one_decimal (Ok "k")
            "Weather in Pune" openweather []
          = (Ok (GeospatialExpert.weather_heading ++ s
                   ++ GeospatialExpert.weather_closing), evs).
Proof.
  split; [| split].
  - destruct (geospatial_agent_wraps_the_tools one_decimal
                (Raise (Exn OtherError "No module named 'crewai_tools'"))
                "Weather in Pune" openweather []) as (_ & H).
    cbv zeta in H.
    change (GeospatialExpert._classify_environmental_query "Weather in Pune")
      with GeospatialExpert.weather_intelligence in H.
    destruct H as (H & _).
    apply (H (Exn OtherError "No module named 'crewai_tools'")). reflexivity.
  - destruct (geospatial_agent_wraps_the_tools one_decimal
                (Raise (Exn OtherError "No module named 'crewai_tools'"))
                "Complete assessment for Pune" openweather []) as (_ & H).
    cbv zeta in H.
    change (GeospatialExpert._classify_environmental_query
              "Complete assessment for Pune")
      with GeospatialExpert.comprehensive_environmental in H.
    destruct H as (H & _).
    apply (H (Exn OtherError "No module named 'crewai_tools'")). reflexivity.
  - destruct (geospatial_agent_wraps_the_tools one_decimal (Ok "k")
                "Weather in Pune" openweather []) as (_ & H).
    cbv zeta in H.
    change (GeospatialExpert._classify_environmental_query "Weather in Pune")
      with GeospatialExpert.weather_intelligence in H.
    destruct H as (_ & H).
    destruct (H "k" eq_refl) as (s & evs & H1 & H2 & _).
    exists s, evs. split; [exact H1 | exact H2].
Defined.

(** ** The data endpoints are asked for resolved places *)

Lemma resolved_location key q w t v t' :
  key <> "DEMO_KEY" ->
  WeatherApi._extract_and_validate_location key q w t = (Ok (Some v), t') ->
  exists name cc cand t1 t2,
    v = name ++ "," ++ cc
    /\ In cand (WeatherApi.potential_locations q)
    /\ WeatherApi._validate_location_with_geocoding_api key cand w t1
       = (Ok (Some v), t2).
Proof.
  intros Hkey H. unfold WeatherApi._extract_and_validate_location in H.
  apply String.eqb_neq in Hkey. rewrite Hkey in H.
  destruct (validate_first_found _ _ _ _ H) as (pre & c & post & t1 & E & _ & Hv).
  destruct (validate_some_has_comma _ _ _ _ Hv) as (name & cc & Hs).
  exists name, cc, c, t1, t'. split; [exact Hs |].
  split; [rewrite E; apply in_or_app; right; now left | exact Hv].
Qed.

(** X21.  With a key other than DEMO_KEY, every request that the weather
    tool sends goes to the geocoding endpoint or asks one of the two
    weather endpoints for a text of the form Name,CC that the validation
    of one of the candidates of the query returned; and the air-quality
    tool asks for pollution data only after it asked the geocoding
    endpoint for the coordinates of such a text. *)
Theorem data_endpoints_get_resolved_places :
  forall fmt key q w t,
    key <> "DEMO_KEY" ->
    (forall s evs url ps,
        WeatherTools.IntelligentWeatherTool_run fmt key q w t
          = (Ok s, (t ++ evs)%list) ->
        In (EvHttp url ps) evs ->
        url = WeatherApi.geo_url
        \/ exists name cc cand t1 t2,
            (url = WeatherTools.current_url \/ url = WeatherTools.forecast_url)
            /\ ps = WeatherTools.weather_params key (name ++ "," ++ cc)
            /\ In cand (WeatherApi.potential_locations q)
            /\ WeatherApi._validate_location_with_geocoding_api key cand w t1
               = (Ok (Some (name ++ "," ++ cc)), t2))
    /\ (forall s evs ps,
          WeatherTools.IntelligentAirQualityTool_run key q w t
            = (Ok s, (t ++ evs)%list) ->
          In (EvHttp WeatherTools.air_url ps) evs ->
          exists name cc cand t1 t2,
            In (coordinates_request key (name ++ "," ++ cc)) evs
            /\ In cand (WeatherApi.potential_locations q)
            /\ WeatherApi._validate_location_with_geocoding_api key cand w t1
               = (Ok (Some (name ++ "," ++ cc)), t2)).
Proof.
  intros fmt key q w t Hkey.
  destruct (extract_requests key q w t) as (loc & evs_g & He & Hg & _ & _).
  assert (Hgeo : forall url ps, In (EvHttp url ps) evs_g -> url = WeatherApi.geo_url).
  { intros url ps Hin. rewrite Forall_forall in Hg.
    destruct (Hg _ Hin) as [ps' E]. now inversion E. }
  split.
  - intros s evs url ps H Hin.
    unfold WeatherTools.IntelligentWeatherTool_run, try_except, bind in H.
    rewrite He in H.
    destruct loc as [[| c v] |].
    + injection H as _ Ht. apply app_inv_head in Ht. subst evs.
      left. eapply Hgeo; eassumption.
    + destruct (@resolved_location key q w t _ _ Hkey He)
        as (name & cc & cand & t1 & t2 & Hv & Hc & Hval).
      rewrite weather_data_steps in H. cbv zeta in H.
      assert (Hcase : evs = (evs_g ++ [current_request key (String c v)])%list
                      \/ evs = (evs_g ++ [current_request key (String c v);
                                          forecast_request key (String c v)])%list).
      { destruct (fetched w _ WeatherTools.current_url _).
        - destruct (fetched w _ WeatherTools.forecast_url _);
            injection H as _ Ht; rewrite <- app_assoc in Ht;
            apply app_inv_head in Ht; now right.
        - injection H as _ Ht. rewrite <- app_assoc in Ht.
          apply app_inv_head in Ht. now left. }
      assert (Hin' : In (EvHttp url ps) evs_g
                     \/ current_request key (String c v) = EvHttp url ps
                     \/ forecast_request key (String c v) = EvHttp url ps).
      { destruct Hcase as [-> | ->]; apply in_app_or in Hin;
          destruct Hin as [Hin | Hin]; auto; cbn [In] in Hin; tauto. }
      destruct Hin' as [Hin' | [E | E]].
      * left. eapply Hgeo; eassumption.
      * right. inversion E; subst url ps. rewrite Hv in *.
        exists name, cc, cand, t1, t2. repeat split; auto.
      * right. inversion E; subst url ps. rewrite Hv in *.
        exists name, cc, cand, t1, t2. repeat split; auto.
    + injection H as _ Ht. apply app_inv_head in Ht. subst evs.
      left. eapply Hgeo; eassumption.
  - intros s evs ps H Hin.
    assert (Hne : WeatherTools.air_url <> WeatherApi.geo_url) by discriminate.
    unfold WeatherTools.IntelligentAirQualityTool_run,
      WeatherTools._extract_location_from_query, try_except, bind in H.
    rewrite He in H.
    destruct loc as [[| c v] |].
    + injection H as _ Ht. apply app_inv_head in Ht. subst evs.
      exfalso. apply Hne. eapply Hgeo; eassumption.
    + destruct (@resolved_location key q w t _ _ Hkey He)
        as (name & cc & cand & t1 & t2 & Hv & Hc & Hval).
      rewrite air_data_steps in H. cbv zeta in H.
      assert (Hcase : exists more,
                 evs = (evs_g ++ coordinates_request key (String c v) :: more)%list).
      { destruct (fetched w _ WeatherApi.geo_url _) as [geo | e].
        - destruct (truthy geo).
          + destruct (WeatherTools.first_place geo)
              as [[[[lat lon] city] country] | e].
            * destruct (fetched w _ WeatherTools.air_url _);
                injection H as _ Ht; rewrite <- app_assoc in Ht;
                apply app_inv_head in Ht; eexists; exact (eq_sym Ht).
            * injection H as _ Ht. rewrite <- app_assoc in Ht.
              apply app_inv_head in Ht. eexists; exact (eq_sym Ht).
          + injection H as _ Ht. rewrite <- app_assoc in Ht.
            apply app_inv_head in Ht. eexists; exact (eq_sym Ht).
        - injection H as _ Ht. rewrite <- app_assoc in Ht.
          apply app_inv_head in Ht. eexists; exact (eq_sym Ht). }
      destruct Hcase as (more & ->).
      exists name, cc, cand, t1, t2. rewrite <- Hv.
      split; [apply in_or_app; right; now left | split; assumption].
    + injection H as _ Ht. apply app_inv_head in Ht. subst evs.
      exfalso. apply Hne. eapply Hgeo; eassumption.
Qed.

Lemma data_endpoints_get_resolved_places_witness :
  WeatherTools.current_url = WeatherApi.geo_url
  \/ exists name cc cand t1 t2,
      (WeatherTools.current_url = WeatherTools.current_url
       \/ WeatherTools.current_url = WeatherTools.forecast_url)
      /\ WeatherTools.weather_params "k" "Pune,IN"
         = WeatherTools.weather_params "k" (name ++ "," ++ cc)
      /\ In cand (WeatherApi.potential_locations "Weather in Pune")
      /\ WeatherApi._validate_location_with_geocoding_api "k" cand openweather t1
         = (Ok (Some (name ++ "," ++ cc)), t2).
Proof.
  assert (Hkey : "k" <> "DEMO_KEY") by discriminate.
  destruct (@data_endpoints_get_resolved_places one_decimal "k"
              "Weather in Pune" openweather [] Hkey) as [H _].
  apply (H pune_weather_text
           [direct_request "k" "Pune"; current_request "k" "Pune,IN";
            forecast_request "k" "Pune,IN"]).
  - vm_compute. reflexivity.
  - cbn. tauto.
Defined.

(* ================================================================== *)
(** * The location of frontend/gradio_app.py *)
(* ================================================================== *)

Lemma title_from_alpha_space :
  forall l b,
    Forall (fun c => Re.is_alpha_space c = true) l ->
    Forall (fun c => Re.is_alpha_space c = true) (title_from b l).
Proof.
  induction l as [| c l IH]; intros b H; cbn [title_from]; [constructor |].
  inversion H as [| ? ? Hc Hl]; subst. constructor; [| now apply IH].
  clear - Hc. destruct b;
    destruct c as [[] [] [] [] [] [] [] []]; cbn in *;
      try reflexivity; discriminate Hc.
Qed.

Lemma title_head_upper c l :
  Re.is_alpha_space c = true -> is_space c = false ->
  exists c', title_from false (c :: l) = c' :: title_from (is_alpha c) l
             /\ is_upper c' = true.
Proof.
  intros Hc Hs. cbn [title_from]. eexists. split; [reflexivity |].
  clear - Hc Hs.
  destruct c as [[] [] [] [] [] [] [] []]; cbn in *;
    try reflexivity; discriminate.
Qed.

Lemma first_match_found ql : forall ps loc,
  GradioApp.first_match ql ps = Some loc ->
  exists r m, In r ps /\ Re.search false r ql = Some m
              /\ loc = title (strip (Re.group1 ql m)).
Proof.
  induction ps as [| r ps IH]; intros loc H; cbn [GradioApp.first_match] in H;
    [discriminate |].
  destruct (Re.search false r ql) as [m |] eqn:Hm.
  - inversion H; subst. exists r, m. repeat split; auto. now left.
  - apply IH in H. destruct H as (r' & m & Hin & Hs & Hl).
    exists r', m. repeat split; auto. now right.
Qed.

Lemma strip_parts l :
  exists pre suf,
    l = (pre ++ rdrop is_space (ldrop is_space l) ++ suf)%list
    /\ match rdrop is_space (ldrop is_space l) with
       | c :: _ => is_space c = false
       | [] => True
       end.
Proof.
  destruct (ldrop_suffix is_space l) as [pre Hp].
  destruct (rdrop_prefix is_space (ldrop is_space l)) as [suf Hs].
  exists pre, suf. split; [now rewrite <- Hs |].
  destruct (rdrop is_space (ldrop is_space l)) as [| c r] eqn:Hr; [exact I |].
  destruct (ldrop is_space l) as [| c0 r0] eqn:Hl.
  - discriminate Hs.
  - inversion Hs; subst. now apply ldrop_head in Hl.
Qed.

(** X18.  The location that [extract_location_from_query] of
    frontend/gradio_app.py returns is its default, Delhi, or a text made
    of letters and white space only which is empty or starts with a
    capital letter: what the pattern captured, stripped and put in title
    case. *)
Theorem gradio_location_shape :
  forall q,
    GradioApp.extract_location_from_query q = "Delhi"
    \/ (Forall (fun c => Re.is_alpha_space c = true)
          (chars (GradioApp.extract_location_from_query q))
        /\ (GradioApp.extract_location_from_query q = ""
            \/ exists c r,
                GradioApp.extract_location_from_query q = String c r
                /\ is_upper c = true)).
Proof.
  intros q. unfold GradioApp.extract_location_from_query. cbv zeta.
  destruct (GradioApp.first_match (lower q) GradioApp.location_patterns)
    as [loc |] eqn:Hf; [right | now left].
  apply first_match_found in Hf. destruct Hf as (r & m & Hin & Hm & ->).
  assert (Hw : exists word, r = Patterns.word_in_pattern word).
  { unfold GradioApp.location_patterns in Hin. cbn [In] in Hin.
    destruct Hin as [<- | [<- | [<- | [<- | []]]]]; eexists; reflexivity. }
  destruct Hw as (word & ->).
  apply (@capture_sound false _
           (Re.Seq (Re.Lit word) (Re.Lit " in "))
           (Re.plus (Re.Cls Re.is_alpha_space)) Re.Eps) in Hm;
    [| intros st; reflexivity | reflexivity].
  destruct Hm as (pre & wa & wg & wb & post & _ & Hg & _ & HG & _).
  apply spans_rep_cls in HG. destruct HG as [_ HG].
  apply Forall_cls_exact in HG.
  rewrite Hg. unfold title. rewrite chars_strip, !chars_text.
  destruct (strip_parts wg) as (p & s & Hparts & Hhead).
  remember (rdrop is_space (ldrop is_space wg)) as core eqn:Ecore.
  clear Ecore.
  assert (Hcore : Forall (fun c => Re.is_alpha_space c = true) core).
  { rewrite Hparts in HG. apply Forall_app in HG. destruct HG as [_ HG].
    apply Forall_app in HG. tauto. }
  split.
  - now apply title_from_alpha_space.
  - destruct core as [| c core']; [now left | right].
    inversion Hcore as [| ? ? Hc _]; subst.
    destruct (@title_head_upper c core' Hc Hhead) as (c' & -> & Hup).
    exists c', (text (title_from (is_alpha c) core')). split; [reflexivity | exact Hup].
Qed.

(** The empty case happens: the pattern captures the white space that
    follows [in]. *)
Example gradio_location_can_be_empty :
  GradioApp.extract_location_from_query "Weather in  " = "".
Proof. vm_compute. reflexivity. Qed.

(* ================================================================== *)
(** * The keyword tables of main_backup.py *)
(* ================================================================== *)

Lemma first_entity_some ql :
  forall entities e,
    MainBackupAgents.first_entity ql entities = Some e ->
    exists before keywords after,
      entities = (before ++ (e, keywords) :: after)%list
      /\ no_entity ql before
      /\ any_in keywords ql = true.
Proof.
  induction entities as [| [e0 kws] entities IH]; intros e H;
    cbn [MainBackupAgents.first_entity] in H; [discriminate |].
  destruct (any_in kws ql) eqn:Hk.
  - inversion H; subst. exists [], kws, entities.
    repeat split; [constructor | exact Hk].
  - apply IH in H. destruct H as (before & keywords & after & -> & Hb & Ha).
    exists ((e0, kws) :: before), keywords, after.
    repeat split; [constructor; [exact Hk | exact Hb] | exact Ha].
Qed.

Lemma first_entity_none ql :
  forall entities,
    MainBackupAgents.first_entity ql entities = None <-> no_entity ql entities.
Proof.
  induction entities as [| [e0 kws] entities IH];
    cbn [MainBackupAgents.first_entity].
  - split; [constructor | reflexivity].
  - destruct (any_in kws ql) eqn:Hk.
    + split; [discriminate |]. intros H. inversion H as [| ? ? Hh _]; subst.
      cbn [snd] in Hh. congruence.
    + rewrite IH. split.
      * intros H. constructor; [exact Hk | exact H].
      * intros H. now inversion H.
Qed.

(** X19.  The two keyword tables of main_backup.py.
    [_extract_space_entity] returns the first entity, in the order of
    the table, one of whose keywords occurs in the query in lower case:
    no entity before it has a keyword in the query; and it returns
    [None] exactly when no entity has.  [_analyze_query_type] returns
    general_weather exactly when none of the keywords of its five lists
    occurs in the query in lower case. *)
Theorem main_backup_keyword_tables :
  forall q,
    (forall e,
        MainBackupAgents._extract_space_entity q = Some e ->
        exists before keywords after,
          MainBackupAgents.space_entities
            = (before ++ (e, keywords) :: after)%list
          /\ no_entity (lower q) before
          /\ any_in keywords (lower q) = true)
    /\ (MainBackupAgents._extract_space_entity q = None
        <-> no_entity (lower q) MainBackupAgents.space_entities)
    /\ (MainBackupAgents._analyze_query_type q = MainBackupAgents.general_weather
        <-> any_in query_type_words (lower q) = false).
Proof.
  intros q. split; [| split].
  - intros e H. now apply first_entity_some.
  - apply first_entity_none.
  - unfold MainBackupAgents._analyze_query_type. cbv zeta.
    change query_type_words with
      (app ["current weather"; "weather now"; "today weather"]
         (app ["forecast"; "tomorrow"; "next week"; "prediction"]
            (app ["air quality"; "aqi"; "pollution"; "pm2.5"]
               (app ["climate"; "long term"; "seasonal"; "monthly"]
                  ["environment"; "ecosystem"; "natural"])))).
    rewrite !any_in_app.
    repeat match goal with
           | |- context [if ?b then _ else _] => destruct b
           end; cbn [orb]; split; (reflexivity || discriminate).
Qed.

Lemma main_backup_keyword_tables_witness :
  exists before keywords after,
    MainBackupAgents.space_entities
      = (before ++ ("moon", keywords) :: after)%list
    /\ no_entity (lower "Chandrayaan landing site") before
    /\ any_in keywords (lower "Chandrayaan landing site") = true.
Proof.
  destruct (main_backup_keyword_tables "Chandrayaan landing site") as (H & _).
  apply H. vm_compute. reflexivity.
Defined.
